(** * Soliscloud API client: a shallow embedding of [soliscloud_api.py]

    The client signs JSON requests for the Soliscloud portal, keeps a small
    session state (user id, inverter directory) and normalises the inverter
    detail payload into a record keyed by canonical field names.

    Layout: Python values and built-ins ([Py]), digests and encodings
    ([Codec]), the client itself ([Solis]), the notions of the
    specification stated over the model, then the properties. *)

From Stdlib Require Import ZArith NArith List String Ascii Bool Lia.
From Stdlib Require Import DecimalString.
From Stdlib Require Import Floats Uint63.
From Stdlib.Strings Require Import Byte.
From stdpp Require Import base option list gmap.

Set Warnings "-inexact-float,-register-all".

Local Open Scope string_scope.
Local Open Scope Z_scope.

(* ===================================================================== *)
(** ** Python values and built-ins *)
(* ===================================================================== *)

Module Py.

(** Exception classes that occur in the client: the ones it raises itself
    through subscripting and coercions, and the ones the HTTP session raises.
    [ClientError] stands for aiohttp's class with all its subclasses. *)
Inductive exn :=
| KeyError | TypeError | ValueError | AttributeError | OverflowError
| TimeoutError | ClientError | RuntimeError.

Inductive outcome (A : Type) :=
| Return (a : A)
| Raise (e : exn).
Arguments Return {A} a.
Arguments Raise {A} e.

Definition obind {A B} (x : outcome A) (k : A -> outcome B) : outcome B :=
  match x with
  | Return a => k a
  | Raise e => Raise e
  end.

(** What [resp.json()] yields: [None], [bool], [int], [float], [str], [list]
    and [dict] with string keys.  A [dict] keeps its insertion order, which
    [json.dumps] follows, so it is an association list; a well-formed one
    has no repeated key.  Text is a string of code points below 256. *)
Inductive json :=
| JNull
| JBool (b : bool)
| JInt (z : Z)
| JFloat (f : float)
| JStr (s : string)
| JArr (xs : list json)
| JObj (kvs : list (string * json)).

(** The values a normalised record holds: [str | int | float]. *)
Inductive value :=
| VStr (s : string)
| VInt (z : Z)
| VFloat (f : float).

(** *** Binary64 arithmetic through exact integers *)

(** The binary64 nearest (ties to even) to [p/q] with sign [s], [0 <= p],
    [0 < q]; infinite when the quotient is out of range. *)
Definition rn_ratio (s : bool) (p q : Z) : float :=
  let '(m, e, l) := SFdiv_core_binary prec emax p 0 q 0 in
  SF2Prim (binary_round_aux prec emax s m e l).

(** Nearest integer to [num/den], ties to even; [0 <= num], [0 < den]. *)
Definition round_half_even (num den : Z) : Z :=
  let q := num / den in
  let r := num mod den in
  match 2 * r ?= den with
  | Lt => q
  | Gt => q + 1
  | Eq => if Z.even q then q else q + 1
  end.

(** [float(z)] for an [int]: correctly rounded, [OverflowError] beyond the
    binary64 range. *)
Definition float_of_int (z : Z) : outcome float :=
  let f := rn_ratio (z <? 0) (Z.abs z) 1 in
  if is_infinity f then Raise OverflowError else Return f.

(** [int(f)] for a [float]: truncation towards zero. *)
Definition int_of_float (f : float) : outcome Z :=
  match Prim2SF f with
  | S754_nan => Raise ValueError
  | S754_infinity _ => Raise OverflowError
  | S754_zero _ => Return 0
  | S754_finite s m e =>
      let a := if 0 <=? e then Zpos m * 2 ^ e else Zpos m / 2 ^ (- e) in
      Return (if s then - a else a)
  end.

(** CPython's bounds on [ndigits] in [float.__round__]. *)
Definition NDIGITS_MAX : Z := 323.
Definition NDIGITS_MIN : Z := -308.

(** [round(f, nd)] for a [float] and an [int] number of digits: the exact
    value of [f] is rounded to [nd] decimals (ties to even, as [dtoa] does),
    and the decimal read back as a binary64 (as [strtod] does). *)
Definition round_ndigits (f : float) (nd : Z) : outcome float :=
  match Prim2SF f with
  | S754_finite s m e =>
      if NDIGITS_MAX <? nd then Return f
      else if nd <? NDIGITS_MIN then Return (if s then neg_zero else zero)
      else
        let num := Zpos m * (if 0 <=? e then 2 ^ e else 1)
                   * (if 0 <=? nd then 10 ^ nd else 1) in
        let den := (if 0 <=? e then 1 else 2 ^ (- e))
                   * (if 0 <=? nd then 1 else 10 ^ (- nd)) in
        let n := round_half_even num den in
        let r := if 0 <=? nd then rn_ratio s n (10 ^ nd)
                 else rn_ratio s (n * 10 ^ (- nd)) 1 in
        if is_infinity r then Raise OverflowError else Return r
  | _ => Return f
  end.

(** [round(f)] and [round(f, None)]: the nearest [int], ties to even. *)
Definition round_to_int (f : float) : outcome Z :=
  match Prim2SF f with
  | S754_nan => Raise ValueError
  | S754_infinity _ => Raise OverflowError
  | S754_zero _ => Return 0
  | S754_finite s m e =>
      let a := if 0 <=? e then Zpos m * 2 ^ e
               else round_half_even (Zpos m) (2 ^ (- e)) in
      Return (if s then - a else a)
  end.

(** *** Text helpers *)

Definition chars (s : string) : list ascii := list_ascii_of_string s.
Definition text (l : list ascii) : string := string_of_list_ascii l.
Definition code (c : ascii) : Z := Z.of_N (N_of_ascii c).
Definition chr (n : Z) : ascii := ascii_of_N (Z.to_N n).

(** Decimal numeral of an [int], as [str(z)] and [repr(z)] print it. *)
Definition str_of_int (z : Z) : string := NilZero.string_of_int (Z.to_int z).

Definition is_digit (c : ascii) : bool := (48 <=? code c) && (code c <=? 57).
Definition digit_val (c : ascii) : Z := code c - 48.

(** [str.isspace] on one code point below 256. *)
Definition is_space (c : ascii) : bool :=
  let n := code c in
  ((9 <=? n) && (n <=? 13)) || ((28 <=? n) && (n <=? 32))
  || (n =? 133) || (n =? 160).

Definition lower (c : ascii) : ascii :=
  let n := code c in
  if (65 <=? n) && (n <=? 90) then chr (n + 32) else c.

Fixpoint drop_spaces (l : list ascii) : list ascii :=
  match l with
  | c :: l' => if is_space c then drop_spaces l' else l
  | [] => []
  end.

(** [s.strip()] *)
Definition strip (l : list ascii) : list ascii :=
  List.rev (drop_spaces (List.rev (drop_spaces l))).

(** A [digitpart] of the numeric grammar: digits, single underscores allowed
    between two digits.  Returns the value read on top of [acc], the number
    of digits read and the unread rest. *)
Fixpoint read_digits (acc n : Z) (l : list ascii) : Z * Z * list ascii :=
  match l with
  | c :: l' =>
      if is_digit c then read_digits (10 * acc + digit_val c) (n + 1) l'
      else if Ascii.eqb c "_" && (0 <? n) then
        match l' with
        | d :: _ => if is_digit d then read_digits acc n l' else (acc, n, l)
        | [] => (acc, n, l)
        end
      else (acc, n, l)
  | [] => (acc, n, l)
  end.

(** An optional sign: [true] for minus. *)
Definition read_sign (l : list ascii) : bool * list ascii :=
  match l with
  | c :: l' =>
      if Ascii.eqb c "-" then (true, l')
      else if Ascii.eqb c "+" then (false, l')
      else (false, l)
  | [] => (false, l)
  end.

(** [int(s)] for a [str], base ten. *)
Definition int_of_str (s : string) : outcome Z :=
  let '(neg, l) := read_sign (strip (chars s)) in
  match read_digits 0 0 l with
  | (v, n, []) => if 0 <? n then Return (if neg then - v else v)
                  else Raise ValueError
  | _ => Raise ValueError
  end.

(** The binary64 nearest to [d * 10^k], signed. *)
Definition float_of_decimal (neg : bool) (d k : Z) : float :=
  if d =? 0 then (if neg then neg_zero else zero)
  else if 0 <=? k then rn_ratio neg (d * 10 ^ k) 1
  else rn_ratio neg d (10 ^ (- k)).

(** The optional exponent part [e[+-]digits] of a float literal. *)
Definition read_exponent (l : list ascii) : option (Z * list ascii) :=
  match l with
  | c :: l' =>
      if Ascii.eqb (lower c) "e" then
        let '(neg, l'') := read_sign l' in
        match read_digits 0 0 l'' with
        | (v, n, rest) =>
            if 0 <? n then Some (if neg then - v else v, rest) else None
        end
      else Some (0, l)
  | [] => Some (0, l)
  end.

(** [float(s)] for a [str]. *)
Definition float_of_str (s : string) : outcome float :=
  let '(neg, l) := read_sign (strip (chars s)) in
  let word := text (List.map lower l) in
  if String.eqb word "inf" || String.eqb word "infinity" then
    Return (if neg then neg_infinity else infinity)
  else if String.eqb word "nan" then Return nan
  else
    let '(ip, ni, l1) := read_digits 0 0 l in
    let '(d, nf, l2) :=
      match l1 with
      | c :: l' => if Ascii.eqb c "." then
                     let '(d, nf, l2) := read_digits ip 0 l' in (d, nf, l2)
                   else (ip, 0, l1)
      | [] => (ip, 0, l1)
      end in
    if 0 <? ni + nf then
      match read_exponent l2 with
      | Some (ex, []) => Return (float_of_decimal neg d (ex - nf))
      | _ => Raise ValueError
      end
    else Raise ValueError.

(** *** Printing *)

Definition pow_nonneg (b x : Z) : Z := if 0 <=? x then b ^ x else 1.

(** [m * 2^e < 10^p] *)
Definition lt_pow10 (m e p : Z) : bool :=
  m * pow_nonneg 2 e * pow_nonneg 10 (- p)
  <? pow_nonneg 10 p * pow_nonneg 2 (- e).

(** The position of the decimal point of [m * 2^e]: the [p] with
    [10^(p-1) <= m * 2^e < 10^p]. *)
Definition decimal_point (m e : Z) : Z :=
  let p0 := (Z.log2 m + e) * 30103 / 100000 in
  if lt_pow10 m e p0 then p0
  else if lt_pow10 m e (p0 + 1) then p0 + 1
  else if lt_pow10 m e (p0 + 2) then p0 + 2
  else p0 + 3.

(** The shortest decimal [d * 10^k] that reads back as the binary64
    [m * 2^e], the nearest one to it among the shortest ([repr]'s digits).
    Values are compared in units of [2^(e-2)], a quarter of the gap. *)
Section ShortestDigits.
Variables m e : Z.

Definition on_boundary : bool := (m =? 2 ^ 52) && (-1074 <? e).
Definition dec_units (d k : Z) : Z :=
  d * pow_nonneg 10 k * pow_nonneg 2 (2 - e).
Definition bin_units (x k : Z) : Z :=
  x * pow_nonneg 2 (e - 2) * pow_nonneg 10 (- k).

Definition reads_back (d k : Z) : bool :=
  let x := dec_units d k in
  let lo := bin_units (4 * m - (if on_boundary then 1 else 2)) k in
  let hi := bin_units (4 * m + 2) k in
  if Z.even m then (lo <=? x) && (x <=? hi) else (lo <? x) && (x <? hi).

Definition distance (d k : Z) : Z :=
  Z.abs (dec_units d k - bin_units (4 * m) k).

Fixpoint shortest (fuel : nat) (p n : Z) : Z * Z :=
  let k := p - n in
  let dl := (m * pow_nonneg 2 e * pow_nonneg 10 (- k))
            / (pow_nonneg 2 (- e) * pow_nonneg 10 k) in
  let dh := dl + 1 in
  match fuel with
  | O => (dl, k)
  | S fuel' =>
      match reads_back dl k, reads_back dh k with
      | true, true =>
          match distance dl k ?= distance dh k with
          | Lt => (dl, k)
          | Gt => (dh, k)
          | Eq => (if Z.even dl then dl else dh, k)
          end
      | true, false => (dl, k)
      | false, true => (dh, k)
      | false, false => shortest fuel' p (n + 1)
      end
  end.
End ShortestDigits.

Fixpoint strip_zeros (fuel : nat) (d k : Z) : Z * Z :=
  match fuel with
  | O => (d, k)
  | S fuel' => if (d mod 10 =? 0) && negb (d =? 0)
               then strip_zeros fuel' (d / 10) (k + 1) else (d, k)
  end.

Definition zeros (n : Z) : string := text (List.repeat "0"%char (Z.to_nat n)).
Definition strlen (s : string) : Z := Z.of_nat (String.length s).

(** [repr(f)] for a [float]. *)
Definition repr_float (f : float) : string :=
  match Prim2SF f with
  | S754_nan => "nan"
  | S754_infinity s => if s then "-inf" else "inf"
  | S754_zero s => if s then "-0.0" else "0.0"
  | S754_finite s m e =>
      let '(d0, k0) := shortest (Zpos m) e 17 (decimal_point (Zpos m) e) 1 in
      let '(d, k) := strip_zeros 20 d0 k0 in
      let ds := str_of_int d in
      let nd := strlen ds in
      let decpt := nd + k in
      let body :=
        if (decpt <=? -4) || (16 <? decpt) then
          let ex := decpt - 1 in
          let exs := str_of_int (Z.abs ex) in
          String.substring 0 1 ds
          ++ (if 1 <? nd then "." ++ String.substring 1 (Z.to_nat (nd - 1)) ds
              else "")
          ++ "e" ++ (if ex <? 0 then "-" else "+")
          ++ (if strlen exs <? 2 then "0" else "") ++ exs
        else if decpt <=? 0 then "0." ++ zeros (- decpt) ++ ds
        else if nd <=? decpt then ds ++ zeros (decpt - nd) ++ ".0"
        else String.substring 0 (Z.to_nat decpt) ds ++ "."
             ++ String.substring (Z.to_nat decpt) (Z.to_nat (nd - decpt)) ds in
      (if s then "-" else "") ++ body
  end.

Definition hex_digit (n : Z) : ascii :=
  if n <? 10 then chr (48 + n) else chr (87 + n).

(** Two lower-case hexadecimal digits of a code point below 256. *)
Definition hex2 (n : Z) : string :=
  String (hex_digit (n / 16)) (String (hex_digit (n mod 16)) "").

(** [str.isprintable] on one code point below 256. *)
Definition is_printable (c : ascii) : bool :=
  let n := code c in
  ((32 <=? n) && (n <=? 126)) || ((161 <=? n) && negb (n =? 173)).

(** The double quote. *)
Definition dq : ascii := "034"%char.

Definition mem_char (c : ascii) (s : string) : bool :=
  List.existsb (Ascii.eqb c) (chars s).

Definition repr_char (quote c : ascii) : string :=
  if Ascii.eqb c quote || Ascii.eqb c "\" then String "\" (String c "")
  else if code c =? 9 then "\t"
  else if code c =? 10 then "\n"
  else if code c =? 13 then "\r"
  else if is_printable c then String c ""
  else "\x" ++ hex2 (code c).

(** [repr(s)] for a [str]: single quotes unless the text holds a single
    quote and no double quote. *)
Definition repr_str (s : string) : string :=
  let quote : ascii :=
    if mem_char "'" s && negb (mem_char dq s) then dq else "'"%char in
  String quote (String.concat "" (List.map (repr_char quote) (chars s)))
  ++ String quote "".

(** [repr(v)] *)
Fixpoint py_repr (v : json) : string :=
  match v with
  | JNull => "None"
  | JBool b => if b then "True" else "False"
  | JInt z => str_of_int z
  | JFloat f => repr_float f
  | JStr s => repr_str s
  | JArr xs => "[" ++ String.concat ", " (List.map py_repr xs) ++ "]"
  | JObj kvs =>
      "{" ++ String.concat ", "
               (List.map (fun kv => repr_str (fst kv) ++ ": " ++ py_repr (snd kv))
                  kvs)
      ++ "}"
  end.

(** [str(v)] *)
Definition py_str (v : json) : string :=
  match v with
  | JStr s => s
  | _ => py_repr v
  end.

(** [int(v)] *)
Definition py_int (v : json) : outcome Z :=
  match v with
  | JBool b => Return (if b then 1 else 0)
  | JInt z => Return z
  | JFloat f => int_of_float f
  | JStr s => int_of_str s
  | JNull | JArr _ | JObj _ => Raise TypeError
  end.

(** [float(v)] *)
Definition py_float (v : json) : outcome float :=
  match v with
  | JBool b => Return (if b then one else zero)
  | JInt z => float_of_int z
  | JFloat f => Return f
  | JStr s => float_of_str s
  | JNull | JArr _ | JObj _ => Raise TypeError
  end.

(** *** Comparison *)

(** [z == f] for an [int] and a [float]: exact. *)
Definition int_eq_float (z : Z) (f : float) : bool :=
  match Prim2SF f with
  | S754_zero _ => z =? 0
  | S754_finite s m e =>
      let a := if s then Zneg m else Zpos m in
      if 0 <=? e then z =? a * 2 ^ e else z * 2 ^ (- e) =? a
  | _ => false
  end.

(** [a == b] on record values. *)
Definition value_eq (a b : value) : bool :=
  match a, b with
  | VStr s, VStr t => String.eqb s t
  | VInt x, VInt y => x =? y
  | VFloat f, VFloat g => PrimFloat.eqb f g
  | VInt x, VFloat g => int_eq_float x g
  | VFloat f, VInt y => int_eq_float y f
  | _, _ => false
  end.

(** Whether [v] can be a [dict] key: [list] and [dict] are unhashable. *)
Definition hashable (v : json) : bool :=
  match v with
  | JArr _ | JObj _ => false
  | _ => true
  end.

(** [a == b] on hashable values, as a [dict] compares keys: numbers by
    value ([True == 1 == 1.0]), and the decoder's one [NaN] object equal to
    itself by identity. *)
Definition key_eq (a b : json) : bool :=
  let num v := match v with
               | JBool c => Some (if c then 1 else 0)
               | JInt z => Some z
               | _ => None
               end in
  match a, b with
  | JNull, JNull => true
  | JStr s, JStr t => String.eqb s t
  | JFloat f, JFloat g => PrimFloat.eqb f g || (is_nan f && is_nan g)
  | JFloat f, _ => match num b with Some z => int_eq_float z f | None => false end
  | _, JFloat g => match num a with Some z => int_eq_float z g | None => false end
  | _, _ => match num a, num b with
            | Some x, Some y => x =? y
            | _, _ => false
            end
  end.

(** *** [dict] with string keys *)

(** [d.get(k)], [None] as Rocq's [None] when the key is absent. *)
Fixpoint assoc (k : string) (kvs : list (string * json)) : option json :=
  match kvs with
  | [] => None
  | (k', v) :: rest => if String.eqb k k' then Some v else assoc k rest
  end.

(** [v.get(k)]: only a [dict] has the method; an absent key gives [None]. *)
Definition py_get (v : json) (k : string) : outcome json :=
  match v with
  | JObj kvs => Return (default JNull (assoc k kvs))
  | _ => Raise AttributeError
  end.

(** [v[k]] for a string [k]. *)
Definition py_getitem (v : json) (k : string) : outcome json :=
  match v with
  | JObj kvs => match assoc k kvs with
                | Some x => Return x
                | None => Raise KeyError
                end
  | _ => Raise TypeError
  end.

(** *** [json.dumps(v, separators=(",", ":"))] *)

Definition hex4 (n : Z) : string := "00" ++ hex2 n.

Definition dumps_char (c : ascii) : string :=
  let n := code c in
  if n =? 34 then String "\" (String dq "")
  else if n =? 92 then "\\"
  else if n =? 10 then "\n"
  else if n =? 13 then "\r"
  else if n =? 9 then "\t"
  else if n =? 8 then "\b"
  else if n =? 12 then "\f"
  else if (32 <=? n) && (n <=? 126) then String c ""
  else "\u" ++ hex4 n.

Definition dumps_str (s : string) : string :=
  String dq (String.concat "" (List.map dumps_char (chars s))) ++ String dq "".

Definition dumps_float (f : float) : string :=
  match Prim2SF f with
  | S754_nan => "NaN"
  | S754_infinity s => if s then "-Infinity" else "Infinity"
  | _ => repr_float f
  end.

Fixpoint dumps (v : json) : string :=
  match v with
  | JNull => "null"
  | JBool b => if b then "true" else "false"
  | JInt z => str_of_int z
  | JFloat f => dumps_float f
  | JStr s => dumps_str s
  | JArr xs => "[" ++ String.concat "," (List.map dumps xs) ++ "]"
  | JObj kvs =>
      "{" ++ String.concat ","
               (List.map (fun kv => dumps_str (fst kv) ++ ":" ++ dumps (snd kv))
                  kvs)
      ++ "}"
  end.

End Py.

(* ===================================================================== *)
(** ** Digests and encodings *)
(* ===================================================================== *)

Module Codec.
Import Py.
Local Open Scope list_scope.

Definition bytes := list byte.

Definition byte_val (b : byte) : Z := Z.of_N (Byte.to_N b).
Definition byte_of (n : Z) : byte :=
  match Byte.of_N (Z.to_N (n mod 256)) with
  | Some b => b
  | None => x00
  end.

(** [s.encode('utf-8')] on text of code points below 256. *)
Definition utf8 (s : string) : bytes :=
  List.concat
    (List.map (fun c => let n := code c in
                        if n <? 128 then [byte_of n]
                        else [byte_of (192 + n / 64); byte_of (128 + n mod 64)])
       (chars s)).

(** [b.decode('utf-8')] on ASCII bytes, which is all base64 produces. *)
Definition ascii_text (b : bytes) : string :=
  text (List.map ascii_of_byte b).

(** *** Base64 *)

Definition b64_char (n : Z) : byte :=
  byte_of (if n <? 26 then 65 + n
           else if n <? 52 then 71 + n
           else if n <? 62 then n - 4
           else if n =? 62 then 43 else 47).

Definition pad_byte : byte := byte_of 61.

(** [base64.b64encode(b)] *)
Fixpoint b64encode (b : bytes) : bytes :=
  match b with
  | x :: y :: z :: rest =>
      let n := byte_val x * 65536 + byte_val y * 256 + byte_val z in
      b64_char (n / 262144) :: b64_char (n / 4096 mod 64)
      :: b64_char (n / 64 mod 64) :: b64_char (n mod 64) :: b64encode rest
  | [x; y] =>
      let n := byte_val x * 65536 + byte_val y * 256 in
      [b64_char (n / 262144); b64_char (n / 4096 mod 64);
       b64_char (n / 64 mod 64); pad_byte]
  | [x] =>
      let n := byte_val x * 65536 in
      [b64_char (n / 262144); b64_char (n / 4096 mod 64); pad_byte; pad_byte]
  | [] => []
  end.

(** *** 32-bit words *)

Definition wrap32 (x : Z) : Z := x mod 2 ^ 32.
Definition rotl32 (x n : Z) : Z :=
  wrap32 (Z.lor (Z.shiftl x n) (Z.shiftr x (32 - n))).
Definition not32 (x : Z) : Z := Z.lxor x 0xffffffff.

(** Bytes of [x], least significant first. *)
Fixpoint le_bytes (n : nat) (x : Z) : bytes :=
  match n with
  | O => []
  | S n' => byte_of x :: le_bytes n' (x / 256)
  end.
Definition be_bytes (n : nat) (x : Z) : bytes := List.rev (le_bytes n x).

Fixpoint le_word (b : bytes) : Z :=
  match b with
  | [] => 0
  | x :: rest => byte_val x + 256 * le_word rest
  end.
Definition be_word (b : bytes) : Z := le_word (List.rev b).

(** The message followed by [0x80], zeros up to 56 modulo 64, and the bit
    length on eight bytes written by [len_bytes]. *)
Definition pad_message (len_bytes : nat -> Z -> bytes) (msg : bytes) : bytes :=
  let n := Z.of_nat (List.length msg) in
  msg ++ byte_of 128 :: List.repeat x00 (Z.to_nat ((55 - n) mod 64))
      ++ len_bytes 8%nat (8 * n).

(** Consecutive groups of [n] bytes; [fuel] bounds the number of groups. *)
Fixpoint group (fuel n : nat) (b : bytes) : list bytes :=
  match fuel, b with
  | O, _ | _, [] => []
  | S fuel', _ => List.firstn n b :: group fuel' n (List.skipn n b)
  end.
Definition blocks (b : bytes) : list bytes := group (List.length b) 64 b.
Definition words (conv : bytes -> Z) (block : bytes) : list Z :=
  List.map conv (group 16 4 block).

(** *** MD5 (RFC 1321) *)

Definition md5_shift : list Z :=
  [7; 12; 17; 22; 7; 12; 17; 22; 7; 12; 17; 22; 7; 12; 17; 22;
   5; 9; 14; 20; 5; 9; 14; 20; 5; 9; 14; 20; 5; 9; 14; 20;
   4; 11; 16; 23; 4; 11; 16; 23; 4; 11; 16; 23; 4; 11; 16; 23;
   6; 10; 15; 21; 6; 10; 15; 21; 6; 10; 15; 21; 6; 10; 15; 21].

Definition md5_sine : list Z :=
    [
     0xd76aa478; 0xe8c7b756; 0x242070db; 0xc1bdceee;
     0xf57c0faf; 0x4787c62a; 0xa8304613; 0xfd469501;
     0x698098d8; 0x8b44f7af; 0xffff5bb1; 0x895cd7be;
     0x6b901122; 0xfd987193; 0xa679438e; 0x49b40821;
     0xf61e2562; 0xc040b340; 0x265e5a51; 0xe9b6c7aa;
     0xd62f105d; 0x02441453; 0xd8a1e681; 0xe7d3fbc8;
     0x21e1cde6; 0xc33707d6; 0xf4d50d87; 0x455a14ed;
     0xa9e3e905; 0xfcefa3f8; 0x676f02d9; 0x8d2a4c8a;
     0xfffa3942; 0x8771f681; 0x6d9d6122; 0xfde5380c;
     0xa4beea44; 0x4bdecfa9; 0xf6bb4b60; 0xbebfbc70;
     0x289b7ec6; 0xeaa127fa; 0xd4ef3085; 0x04881d05;
     0xd9d4d039; 0xe6db99e5; 0x1fa27cf8; 0xc4ac5665;
     0xf4292244; 0x432aff97; 0xab9423a7; 0xfc93a039;
     0x655b59c3; 0x8f0ccc92; 0xffeff47d; 0x85845dd1;
     0x6fa87e4f; 0xfe2ce6e0; 0xa3014314; 0x4e0811a1;
     0xf7537e82; 0xbd3af235; 0x2ad7d2bb; 0xeb86d391].

Definition md5_step (m : list Z) (st : Z * Z * Z * Z) (i : Z) : Z * Z * Z * Z :=
  let '(a, b, c, d) := st in
  let '(f, g) :=
    if i <? 16 then (Z.lor (Z.land b c) (Z.land (not32 b) d), i)
    else if i <? 32 then
      (Z.lor (Z.land d b) (Z.land (not32 d) c), (5 * i + 1) mod 16)
    else if i <? 48 then (Z.lxor (Z.lxor b c) d, (3 * i + 5) mod 16)
    else (Z.lxor c (Z.lor b (not32 d)), (7 * i) mod 16) in
  let n := Z.to_nat i in
  let f' := wrap32 (f + a + List.nth n md5_sine 0 + List.nth (Z.to_nat g) m 0) in
  (d, wrap32 (b + rotl32 f' (List.nth n md5_shift 0)), b, c).

Definition md5_block (h : Z * Z * Z * Z) (block : bytes) : Z * Z * Z * Z :=
  let '(a0, b0, c0, d0) := h in
  let '(a, b, c, d) :=
    List.fold_left (md5_step (words le_word block)) (List.map Z.of_nat (seq 0 64)) h in
  (wrap32 (a0 + a), wrap32 (b0 + b), wrap32 (c0 + c), wrap32 (d0 + d)).

(** [hashlib.md5(msg).digest()] *)
Definition md5 (msg : bytes) : bytes :=
  let '(a, b, c, d) :=
    List.fold_left md5_block (blocks (pad_message le_bytes msg))
      (0x67452301, 0xefcdab89, 0x98badcfe, 0x10325476) in
  le_bytes 4 a ++ le_bytes 4 b ++ le_bytes 4 c ++ le_bytes 4 d.

(** *** SHA-1 (FIPS 180) *)

(** The message schedule: sixteen words extended to eighty. *)
Fixpoint sha1_extend (n : nat) (w : list Z) : list Z :=
  match n with
  | O => w
  | S n' =>
      let i := List.length w in
      let at_ k := List.nth (i - k) w 0 in
      sha1_extend n'
        (w ++ [rotl32 (Z.lxor (Z.lxor (at_ 3%nat) (at_ 8%nat))
                         (Z.lxor (at_ 14%nat) (at_ 16%nat))) 1])
  end.

Definition sha1_step (st : Z * Z * Z * Z * Z) (iw : Z * Z) : Z * Z * Z * Z * Z :=
  let '(a, b, c, d, e) := st in
  let '(i, w) := iw in
  let '(f, k) :=
    if i <? 20 then (Z.lor (Z.land b c) (Z.land (not32 b) d), 0x5a827999)
    else if i <? 40 then (Z.lxor (Z.lxor b c) d, 0x6ed9eba1)
    else if i <? 60 then
      (Z.lor (Z.lor (Z.land b c) (Z.land b d)) (Z.land c d), 0x8f1bbcdc)
    else (Z.lxor (Z.lxor b c) d, 0xca62c1d6) in
  (wrap32 (rotl32 a 5 + f + e + k + w), a, rotl32 b 30, c, d).

Definition sha1_block (h : Z * Z * Z * Z * Z) (block : bytes) : Z * Z * Z * Z * Z :=
  let '(h0, h1, h2, h3, h4) := h in
  let w := sha1_extend 64 (words be_word block) in
  let '(a, b, c, d, e) :=
    List.fold_left sha1_step (List.combine (List.map Z.of_nat (seq 0 80)) w) h in
  (wrap32 (h0 + a), wrap32 (h1 + b), wrap32 (h2 + c), wrap32 (h3 + d),
   wrap32 (h4 + e)).

(** [hashlib.sha1(msg).digest()] *)
Definition sha1 (msg : bytes) : bytes :=
  let '(a, b, c, d, e) :=
    List.fold_left sha1_block (blocks (pad_message be_bytes msg))
      (0x67452301, 0xefcdab89, 0x98badcfe, 0x10325476, 0xc3d2e1f0) in
  be_bytes 4 a ++ be_bytes 4 b ++ be_bytes 4 c ++ be_bytes 4 d ++ be_bytes 4 e.

(** *** HMAC (RFC 2104) *)

Definition xor_pad (p : Z) (key : bytes) : bytes :=
  List.map (fun b => byte_of (Z.lxor (byte_val b) p)) key.

(** [hmac.new(key, msg=msg, digestmod=hashlib.sha1).digest()] *)
Definition hmac_sha1 (key msg : bytes) : bytes :=
  let k := if (64 <? Z.of_nat (List.length key)) then sha1 key else key in
  let k := k ++ List.repeat x00 (64 - List.length k) in
  sha1 (xor_pad 0x5c k ++ sha1 (xor_pad 0x36 k ++ msg)).

(** *** The clock and [strftime] *)

(** A reading of [datetime.now(timezone.utc)], as whole seconds since
    1970-01-01T00:00:00Z; the format below prints nothing finer. *)
Definition datetime := Z.

(** Year, month and day of the civil (proleptic Gregorian) date that lies
    [days] days after 1970-01-01. *)
Definition civil_of_days (days : Z) : Z * Z * Z :=
  let z := days + 719468 in
  let era := z / 146097 in
  let doe := z - era * 146097 in
  let yoe := (doe - doe / 1460 + doe / 36524 - doe / 146096) / 365 in
  let doy := doe - (365 * yoe + yoe / 4 - yoe / 100) in
  let mp := (5 * doy + 2) / 153 in
  let d := doy - (153 * mp + 2) / 5 + 1 in
  let m := if mp <? 10 then mp + 3 else mp - 9 in
  (yoe + era * 400 + (if m <=? 2 then 1 else 0), m, d).

Definition day_names : list string :=
  ["Mon"; "Tue"; "Wed"; "Thu"; "Fri"; "Sat"; "Sun"]%string.
Definition month_names : list string :=
  ["Jan"; "Feb"; "Mar"; "Apr"; "May"; "Jun";
   "Jul"; "Aug"; "Sep"; "Oct"; "Nov"; "Dec"]%string.

Definition two_digits (n : Z) : string :=
  String.append (if n <? 10 then "0" else "") (str_of_int n).

(** [now.strftime("%a, %d %b %Y %H:%M:%S GMT")] in the C locale, for the
    years that print on four digits. *)
Definition strftime_gmt (now : datetime) : string :=
  let days := now / 86400 in
  let secs := now mod 86400 in
  let '(y, m, d) := civil_of_days days in
  String.concat ""
    [List.nth (Z.to_nat ((days + 3) mod 7)) day_names ""; ", ";
     two_digits d; " "; List.nth (Z.to_nat (m - 1)) month_names ""; " ";
     str_of_int y; " "; two_digits (secs / 3600); ":";
     two_digits (secs / 60 mod 60); ":"; two_digits (secs mod 60); " GMT"].

End Codec.

(* ===================================================================== *)
(** ** The client *)
(* ===================================================================== *)

Module Solis.
Import Py Codec.

(** Modelled from the spec: the canonical field names are the constants of
    [ginlong_const], a module of the repository that is not among the
    sources at hand.  Section 3 of the specification calls them canonical
    field names, one per entry of the mapping tables; they are taken as
    pairwise distinct names, one constructor each. *)
Inductive field :=
| INVERTER_SERIAL | INVERTER_PLANT_ID | INVERTER_DEVICE_ID
| INVERTER_DATALOGGER_SERIAL | INVERTER_TIMESTAMP_UPDATE | INVERTER_STATE
| INVERTER_TEMPERATURE | INVERTER_POWER_LIMIT | INVERTER_POWER_STATE
| INVERTER_ACPOWER | INVERTER_ACFREQUENCY | INVERTER_ENERGY_TODAY
| INVERTER_ENERGY_THIS_MONTH | INVERTER_ENERGY_THIS_YEAR
| INVERTER_ENERGY_TOTAL_LIFE | STRING1_VOLTAGE | STRING2_VOLTAGE
| STRING3_VOLTAGE | STRING4_VOLTAGE | STRING1_CURRENT | STRING2_CURRENT
| STRING3_CURRENT | STRING4_CURRENT | STRING1_POWER | STRING2_POWER
| STRING3_POWER | STRING4_POWER | PHASE1_VOLTAGE | PHASE2_VOLTAGE
| PHASE3_VOLTAGE | PHASE1_CURRENT | PHASE2_CURRENT | PHASE3_CURRENT
| BAT_REMAINING_CAPACITY | BAT_TOTAL_ENERGY_CHARGED
| BAT_TOTAL_ENERGY_DISCHARGED | BAT_DAILY_ENERGY_CHARGED
| BAT_DAILY_ENERGY_DISCHARGED | GRID_DAILY_ON_GRID_ENERGY
| GRID_DAILY_ENERGY_PURCHASED | GRID_DAILY_ENERGY_USED
| GRID_MONTHLY_ENERGY_PURCHASED | GRID_YEARLY_ENERGY_PURCHASED
| GRID_TOTAL_ON_GRID_ENERGY | GRID_TOTAL_POWER | GRID_TOTAL_CONSUMPTION_POWER
| GRID_TOTAL_ENERGY_USED | INVERTER_LAT | INVERTER_LON | INVERTER_ADDRESS.

Definition field_code (f : field) : positive :=
  match f with
  | INVERTER_SERIAL => 1
  | INVERTER_PLANT_ID => 2
  | INVERTER_DEVICE_ID => 3
  | INVERTER_DATALOGGER_SERIAL => 4
  | INVERTER_TIMESTAMP_UPDATE => 5
  | INVERTER_STATE => 6
  | INVERTER_TEMPERATURE => 7
  | INVERTER_POWER_LIMIT => 8
  | INVERTER_POWER_STATE => 9
  | INVERTER_ACPOWER => 10
  | INVERTER_ACFREQUENCY => 11
  | INVERTER_ENERGY_TODAY => 12
  | INVERTER_ENERGY_THIS_MONTH => 13
  | INVERTER_ENERGY_THIS_YEAR => 14
  | INVERTER_ENERGY_TOTAL_LIFE => 15
  | STRING1_VOLTAGE => 16
  | STRING2_VOLTAGE => 17
  | STRING3_VOLTAGE => 18
  | STRING4_VOLTAGE => 19
  | STRING1_CURRENT => 20
  | STRING2_CURRENT => 21
  | STRING3_CURRENT => 22
  | STRING4_CURRENT => 23
  | STRING1_POWER => 24
  | STRING2_POWER => 25
  | STRING3_POWER => 26
  | STRING4_POWER => 27
  | PHASE1_VOLTAGE => 28
  | PHASE2_VOLTAGE => 29
  | PHASE3_VOLTAGE => 30
  | PHASE1_CURRENT => 31
  | PHASE2_CURRENT => 32
  | PHASE3_CURRENT => 33
  | BAT_REMAINING_CAPACITY => 34
  | BAT_TOTAL_ENERGY_CHARGED => 35
  | BAT_TOTAL_ENERGY_DISCHARGED => 36
  | BAT_DAILY_ENERGY_CHARGED => 37
  | BAT_DAILY_ENERGY_DISCHARGED => 38
  | GRID_DAILY_ON_GRID_ENERGY => 39
  | GRID_DAILY_ENERGY_PURCHASED => 40
  | GRID_DAILY_ENERGY_USED => 41
  | GRID_MONTHLY_ENERGY_PURCHASED => 42
  | GRID_YEARLY_ENERGY_PURCHASED => 43
  | GRID_TOTAL_ON_GRID_ENERGY => 44
  | GRID_TOTAL_POWER => 45
  | GRID_TOTAL_CONSUMPTION_POWER => 46
  | GRID_TOTAL_ENERGY_USED => 47
  | INVERTER_LAT => 48
  | INVERTER_LON => 49
  | INVERTER_ADDRESS => 50
  end%positive.

Definition field_of_code (p : positive) : option field :=
  match p with
  | 1 => Some INVERTER_SERIAL
  | 2 => Some INVERTER_PLANT_ID
  | 3 => Some INVERTER_DEVICE_ID
  | 4 => Some INVERTER_DATALOGGER_SERIAL
  | 5 => Some INVERTER_TIMESTAMP_UPDATE
  | 6 => Some INVERTER_STATE
  | 7 => Some INVERTER_TEMPERATURE
  | 8 => Some INVERTER_POWER_LIMIT
  | 9 => Some INVERTER_POWER_STATE
  | 10 => Some INVERTER_ACPOWER
  | 11 => Some INVERTER_ACFREQUENCY
  | 12 => Some INVERTER_ENERGY_TODAY
  | 13 => Some INVERTER_ENERGY_THIS_MONTH
  | 14 => Some INVERTER_ENERGY_THIS_YEAR
  | 15 => Some INVERTER_ENERGY_TOTAL_LIFE
  | 16 => Some STRING1_VOLTAGE
  | 17 => Some STRING2_VOLTAGE
  | 18 => Some STRING3_VOLTAGE
  | 19 => Some STRING4_VOLTAGE
  | 20 => Some STRING1_CURRENT
  | 21 => Some STRING2_CURRENT
  | 22 => Some STRING3_CURRENT
  | 23 => Some STRING4_CURRENT
  | 24 => Some STRING1_POWER
  | 25 => Some STRING2_POWER
  | 26 => Some STRING3_POWER
  | 27 => Some STRING4_POWER
  | 28 => Some PHASE1_VOLTAGE
  | 29 => Some PHASE2_VOLTAGE
  | 30 => Some PHASE3_VOLTAGE
  | 31 => Some PHASE1_CURRENT
  | 32 => Some PHASE2_CURRENT
  | 33 => Some PHASE3_CURRENT
  | 34 => Some BAT_REMAINING_CAPACITY
  | 35 => Some BAT_TOTAL_ENERGY_CHARGED
  | 36 => Some BAT_TOTAL_ENERGY_DISCHARGED
  | 37 => Some BAT_DAILY_ENERGY_CHARGED
  | 38 => Some BAT_DAILY_ENERGY_DISCHARGED
  | 39 => Some GRID_DAILY_ON_GRID_ENERGY
  | 40 => Some GRID_DAILY_ENERGY_PURCHASED
  | 41 => Some GRID_DAILY_ENERGY_USED
  | 42 => Some GRID_MONTHLY_ENERGY_PURCHASED
  | 43 => Some GRID_YEARLY_ENERGY_PURCHASED
  | 44 => Some GRID_TOTAL_ON_GRID_ENERGY
  | 45 => Some GRID_TOTAL_POWER
  | 46 => Some GRID_TOTAL_CONSUMPTION_POWER
  | 47 => Some GRID_TOTAL_ENERGY_USED
  | 48 => Some INVERTER_LAT
  | 49 => Some INVERTER_LON
  | 50 => Some INVERTER_ADDRESS
  | _ => None
  end%positive.

#[global] Instance field_eq_dec : EqDecision field.
Proof.
  intros x y. destruct (Pos.eq_dec (field_code x) (field_code y)) as [E | N].
  - left.
    abstract (apply (f_equal field_of_code) in E;
              destruct x; destruct y; cbn in E; congruence).
  - right. abstract (intros ->; apply N; reflexivity).
Defined.

#[global] Instance field_countable : Countable field :=
  inj_countable field_code field_of_code
    ltac:(intros f; destruct f; reflexivity).

(** The [type_] column of the mapping tables: [str], [int] or [float]. *)
Inductive ptype := TStr | TInt | TFloat.

(** One row [[key, type_, precision]] of a mapping table. *)
Record row := entry_ {
  row_key : option string;
  row_type : ptype;
  row_precision : option Z
}.
Definition entry (key : string) (t : ptype) (precision : option Z) : row :=
  entry_ (Some key) t precision.

Definition VERB : string := "POST".
Definition INVERTER_DETAIL : string := "/v1/api/inveterDetail".
Definition PLANT_DETAIL : string := "/v1/api/stationDetail".

(** [INVERTER_DATA[endpoint]], rows in the order of the source. *)
Definition INVERTER_DATA (endpoint : string) : list (field * row) :=
  if String.eqb endpoint INVERTER_DETAIL then
    [
     (INVERTER_SERIAL, entry "sn" TStr None);
     (INVERTER_PLANT_ID, entry "stationId" TStr None);
     (INVERTER_DEVICE_ID, entry "id" TStr None);
     (INVERTER_DATALOGGER_SERIAL, entry "collectorId" TStr None);
     (INVERTER_TIMESTAMP_UPDATE, entry "dataTimestamp" TInt None);
     (INVERTER_STATE, entry "state" TInt None);
     (INVERTER_TEMPERATURE, entry "inverterTemperature" TFloat (Some 1));
     (INVERTER_POWER_LIMIT, entry "pacPec" TFloat (Some 2));
     (INVERTER_POWER_STATE, entry "currentState" TInt None);
     (INVERTER_ACPOWER, entry "pac" TFloat (Some 2));
     (INVERTER_ACFREQUENCY, entry "fac" TFloat (Some 2));
     (INVERTER_ENERGY_TODAY, entry "eToday" TFloat (Some 2));
     (INVERTER_ENERGY_THIS_MONTH, entry "eMonth" TFloat (Some 2));
     (INVERTER_ENERGY_THIS_YEAR, entry "eYear" TFloat (Some 2));
     (INVERTER_ENERGY_TOTAL_LIFE, entry "eTotal" TFloat (Some 2));
     (STRING1_VOLTAGE, entry "uPv1" TFloat (Some 2));
     (STRING2_VOLTAGE, entry "uPv2" TFloat (Some 2));
     (STRING3_VOLTAGE, entry "uPv3" TFloat (Some 2));
     (STRING4_VOLTAGE, entry "uPv4" TFloat (Some 2));
     (STRING1_CURRENT, entry "iPv1" TFloat (Some 2));
     (STRING2_CURRENT, entry "iPv2" TFloat (Some 2));
     (STRING3_CURRENT, entry "iPv3" TFloat (Some 2));
     (STRING4_CURRENT, entry "iPv4" TFloat (Some 2));
     (STRING1_POWER, entry "pow1" TFloat (Some 2));
     (STRING2_POWER, entry "pow2" TFloat (Some 2));
     (STRING3_POWER, entry "pow3" TFloat (Some 2));
     (STRING4_POWER, entry "pow4" TFloat (Some 2));
     (PHASE1_VOLTAGE, entry "uAc1" TFloat (Some 2));
     (PHASE2_VOLTAGE, entry "uAc2" TFloat (Some 2));
     (PHASE3_VOLTAGE, entry "uAc3" TFloat (Some 2));
     (PHASE1_CURRENT, entry "iAc1" TFloat (Some 2));
     (PHASE2_CURRENT, entry "iAc2" TFloat (Some 2));
     (PHASE3_CURRENT, entry "iAc3" TFloat (Some 2));
     (BAT_REMAINING_CAPACITY, entry "batteryCapacitySoc" TFloat (Some 2));
     (BAT_TOTAL_ENERGY_CHARGED, entry "batteryTotalChargeEnergy" TFloat (Some 2));
     (BAT_TOTAL_ENERGY_DISCHARGED, entry "batteryTotalDischargeEnergy" TFloat (Some 2));
     (BAT_DAILY_ENERGY_CHARGED, entry "batteryTodayChargeEnergy" TFloat (Some 2));
     (BAT_DAILY_ENERGY_DISCHARGED, entry "batteryTodayDischargeEnergy" TFloat (Some 2));
     (GRID_DAILY_ON_GRID_ENERGY, entry "gridSellTodayEnergy" TFloat (Some 2));
     (GRID_DAILY_ENERGY_PURCHASED, entry "gridPurchasedTodayEnergy" TFloat (Some 2));
     (GRID_DAILY_ENERGY_USED, entry "homeLoadTodayEnergy" TFloat (Some 2));
     (GRID_MONTHLY_ENERGY_PURCHASED, entry "gridPurchasedMonthEnergy" TFloat (Some 2));
     (GRID_YEARLY_ENERGY_PURCHASED, entry "gridPurchasedYearEnergy" TFloat (Some 2));
     (GRID_TOTAL_ON_GRID_ENERGY, entry "gridSellTotalEnergy" TFloat (Some 2));
     (GRID_TOTAL_POWER, entry "pSum" TFloat (Some 2));
     (GRID_TOTAL_CONSUMPTION_POWER, entry "familyLoadPower" TFloat (Some 2));
     (GRID_TOTAL_ENERGY_USED, entry "homeLoadTotalEnergy" TFloat (Some 2))]
  else if String.eqb endpoint PLANT_DETAIL then
    [
     (INVERTER_LAT, entry "latitude" TFloat (Some 7));
     (INVERTER_LON, entry "longitude" TFloat (Some 7));
     (INVERTER_ADDRESS, entry "cityStr" TStr None)]
  else [].

(** *** Configuration, state and the outside world *)

(** Modelled from the spec: [SoliscloudConfig] extends [PortalConfig], a
    class of [ginlong_base] that is not among the sources at hand and holds
    the first three attributes; section 3 lists the configuration as
    domain, username, API key id, API secret (bytes) and plant id,
    immutable once constructed. *)
Record SoliscloudConfig := {
  domain : string;
  username : string;
  plantid : string;
  key_id : string;
  secret : bytes
}.

(** An aiohttp [ClientSession], known by a handle. *)
Definition ClientSession := nat.

(** Python [dict] with arbitrary hashable keys, in insertion order: the
    inverter directory [{serial: device_id}]. *)
Definition pydict := list (json * json).

Fixpoint dict_get (k : json) (d : pydict) : option json :=
  match d with
  | [] => None
  | (k', v) :: rest => if key_eq k' k then Some v else dict_get k rest
  end.

(** [d[k] = v]: an equal key keeps its place and takes the new value. *)
Fixpoint dict_set (k v : json) (d : pydict) : pydict :=
  match d with
  | [] => [(k, v)]
  | (k', v') :: rest =>
      if key_eq k' k then (k', v) :: rest else (k', v') :: dict_set k v rest
  end.

(** The normalised record [self._data]. *)
Abbreviation record := (gmap field value).

(** The instance attributes of [SoliscloudAPI].  [_user_id] holds whatever
    the portal sent, [JNull] being Python's [None]. *)
Record SoliscloudAPI := {
  _config : SoliscloudConfig;
  _session : option ClientSession;
  _user_id : json;
  _data : record;
  _inverter_list : option pydict
}.

(** [SoliscloudAPI(config)] *)
Definition __init__ (config : SoliscloudConfig) : SoliscloudAPI :=
  {| _config := config; _session := None; _user_id := JNull;
     _data := ∅; _inverter_list := None |}.

(** What the session does with one POST: [session.post] raises, or answers
    with a status, and then [resp.json()] yields the decoded body or
    raises.  [msg] is the text of the exception, [str(err)]. *)
Inductive body_outcome :=
| JsonOk (content : json)
| JsonRaise (e : exn) (msg : string).

Inductive post_outcome :=
| PostRaise (e : exn) (msg : string)
| PostResp (status : Z) (body : body_outcome).

(** The outside world as the client meets it: the [n]-th reading of the
    clock and the outcome of the [n]-th POST. *)
Record environment := {
  clock : nat -> datetime;
  network : nat -> post_outcome
}.

(** What the client does to the outside world. *)
Inductive event :=
| EvPost (session : ClientSession) (url data : string)
         (headers : list (string * string))
| EvRelease
| EvClose (session : ClientSession).

Record world := {
  clock_reads : nat;
  posts : nat;
  trace : list event
}.

Definition start : world := {| clock_reads := 0; posts := 0; trace := [] |}.

(** *** Computations: state passing with exceptions *)

Definition state : Type := SoliscloudAPI * world.

Definition M (A : Type) : Type := state -> outcome A * state.

Definition ret {A} (a : A) : M A := fun s => (Return a, s).
Definition raise {A} (e : exn) : M A := fun s => (Raise e, s).
Definition bind {A B} (m : M A) (k : A -> M B) : M B :=
  fun s => match m s with
           | (Return a, s') => k a s'
           | (Raise e, s') => (Raise e, s')
           end.
Definition lift {A} (x : outcome A) : M A := fun s => (x, s).

Notation "'let*' x ':=' m 'in' k" := (bind m (fun x => k))
  (at level 10, x pattern, m at level 100, k at level 200).
Notation "m ';;' k" := (bind m (fun _ => k))
  (at level 100, k at level 200, right associativity).

(** [try: body except <classes>: handler] *)
Definition try_except {A} (body : M A) (classes : exn -> bool)
    (handler : M A) : M A :=
  fun s => match body s with
           | (Raise e, s') => if classes e then handler s' else (Raise e, s')
           | r => r
           end.

Definition get_self : M SoliscloudAPI := fun s => (Return (fst s), s).
Definition modify_self (f : SoliscloudAPI -> SoliscloudAPI) : M unit :=
  fun s => (Return tt, (f (fst s), snd s)).

Definition with_session (x : option ClientSession) (a : SoliscloudAPI) :=
  {| _config := _config a; _session := x; _user_id := _user_id a;
     _data := _data a; _inverter_list := _inverter_list a |}.
Definition with_user_id (x : json) (a : SoliscloudAPI) :=
  {| _config := _config a; _session := _session a; _user_id := x;
     _data := _data a; _inverter_list := _inverter_list a |}.
Definition with_data (x : record) (a : SoliscloudAPI) :=
  {| _config := _config a; _session := _session a; _user_id := _user_id a;
     _data := x; _inverter_list := _inverter_list a |}.
Definition with_inverter_list (x : option pydict) (a : SoliscloudAPI) :=
  {| _config := _config a; _session := _session a; _user_id := _user_id a;
     _data := _data a; _inverter_list := x |}.

Definition emit (ev : event) : M unit :=
  fun s => (Return tt,
            (fst s, {| clock_reads := clock_reads (snd s);
                       posts := posts (snd s);
                       trace := trace (snd s) ++ [ev] |})).

Section Client.
Variable env : environment.

(** [datetime.now(timezone.utc)] *)
Definition now : M datetime :=
  fun s => (Return (clock env (clock_reads (snd s))),
            (fst s, {| clock_reads := S (clock_reads (snd s));
                       posts := posts (snd s);
                       trace := trace (snd s) |})).

(** [await session.post(url, data=data, headers=headers)] together with
    the reading of the body: the request goes out, the world answers. *)
Definition session_post (session : ClientSession) (url data : string)
    (headers : list (string * string)) : M post_outcome :=
  fun s => (Return (network env (posts (snd s))),
            (fst s, {| clock_reads := clock_reads (snd s);
                       posts := S (posts (snd s));
                       trace := trace (snd s)
                                ++ [EvPost session url data headers] |})).

(** *** Signing *)

Definition nl : string := String "010"%char "".

(** The body of [_prepare_header] once the clock has been read. *)
Definition prepare_header_at (config : SoliscloudConfig) (date_now : datetime)
    (body : json) (canonicalized_resource : string) : list (string * string) :=
  let date := strftime_gmt date_now in
  let content_md5 := ascii_text (b64encode (md5 (utf8 (dumps body)))) in
  let content_type := "application/json" in
  let encrypt_str :=
    VERB ++ nl ++ content_md5 ++ nl ++ content_type ++ nl ++ date ++ nl
    ++ canonicalized_resource in
  let sign := b64encode (hmac_sha1 (secret config) (utf8 encrypt_str)) in
  let authorization := "API " ++ key_id config ++ ":" ++ ascii_text sign in
  [("Content-MD5", content_md5);
   ("Content-Type", content_type);
   ("Date", date);
   ("Authorization", authorization)].

Definition _prepare_header (body : json) (canonicalized_resource : string)
    : M (list (string * string)) :=
  let* date_now := now in
  let* self := get_self in
  ret (prepare_header_at (_config self) date_now body canonicalized_resource).

(** *** Transport *)

(** The [result] dictionary of the transport helpers.  [MESSAGE] is always
    a key ([None] at first); [STATUS_CODE] and [CONTENT] are keys only once
    they have been stored. *)
Record result := {
  SUCCESS : bool;
  MESSAGE : option string;
  STATUS_CODE : option Z;
  CONTENT : option json
}.

(** [except (asyncio.TimeoutError, ClientError)] *)
Definition transport_error (e : exn) : bool :=
  match e with
  | TimeoutError | ClientError => true
  | _ => false
  end.

(** The [except] clause of [_post_data_json], reached with the [result]
    built so far. *)
Definition on_error (r : result) (e : exn) (msg : string) : M result :=
  if transport_error e then
    ret {| SUCCESS := SUCCESS r; MESSAGE := Some msg;
           STATUS_CODE := STATUS_CODE r; CONTENT := CONTENT r |}
  else raise e.

Definition _post_data_json (canonicalized_resource : string) (params : json)
    : M result :=
  let* header := _prepare_header params canonicalized_resource in
  let result0 := {| SUCCESS := false; MESSAGE := None;
                    STATUS_CODE := None; CONTENT := None |} in
  let* self := get_self in
  match _session self with
  | None => ret result0
  | Some session =>
      let url := "https://" ++ domain (_config self) ++ canonicalized_resource in
      let* resp := session_post session url (dumps params) header in
      match resp with
      | PostRaise e msg => on_error result0 e msg
      | PostResp status body =>
          let result1 := {| SUCCESS := false; MESSAGE := None;
                            STATUS_CODE := Some status; CONTENT := None |} in
          (* [finally: await resp.release()] on every way out *)
          emit EvRelease ;;
          match body with
          | JsonRaise e msg => on_error result1 e msg
          | JsonOk content =>
              if status =? 200 then
                ret {| SUCCESS := true; MESSAGE := Some "OK";
                       STATUS_CODE := Some status; CONTENT := Some content |}
              else
                ret {| SUCCESS := false;
                       MESSAGE := Some ("Got http statuscode: "
                                        ++ str_of_int status);
                       STATUS_CODE := Some status; CONTENT := Some content |}
          end
      end
  end.

(** [result[CONTENT]] *)
Definition content_of (r : result) : M json :=
  match CONTENT r with
  | Some c => ret c
  | None => raise KeyError
  end.

(** *** Normalisation of the inverter detail payload *)

(** Retrieve [key] from [data] as type [type_] with precision [precision]:
    Python's [None] for a missing or null vendor value. *)
Definition _get_value (data : json) (key : string) (type_ : ptype)
    (precision : option Z) : outcome (option value) :=
  obind (py_get data key) (fun data_raw =>
  match data_raw with
  | JNull => Return None
  | _ =>
      match type_ with
      | TStr => Return (Some (VStr (py_str data_raw)))
      | TInt => obind (py_int data_raw) (fun z => Return (Some (VInt z)))
      | TFloat =>
          obind (py_float data_raw) (fun f =>
          (* Round to specified precision *)
          match precision with
          | Some nd => obind (round_ndigits f nd)
                         (fun r => Return (Some (VFloat r)))
          | None => obind (round_to_int f) (fun z => Return (Some (VInt z)))
          end)
      end
  end).

(** The loop of [_collect_inverter_data] over the rows of the table. *)
Fixpoint collect_rows (jsondata : json) (attributes : list (field * row))
    : M unit :=
  match attributes with
  | [] => ret tt
  | (dictkey, r) :: rest =>
      match row_key r with
      | Some key =>
          let* value := lift (_get_value jsondata key (row_type r)
                                (row_precision r)) in
          match value with
          | Some v => modify_self (fun a => with_data (<[dictkey := v]> (_data a)) a)
          | None => ret tt
          end
      | None => ret tt
      end ;;
      collect_rows jsondata rest
  end.

(** Fetch dynamic properties *)
Definition _collect_inverter_data (payload : json) : M unit :=
  let* jsondata := lift (py_getitem payload "data") in
  let attributes := INVERTER_DATA INVERTER_DETAIL in
  collect_rows jsondata attributes.

(** The first loop of [_purge_if_unused]: it leaves at the first element
    that is missing ([KeyError]) or differs from [value]. *)
Fixpoint all_equal (d : record) (value : value) (elements : list field) : bool :=
  match elements with
  | [] => true
  | element :: rest =>
      match d !! element with
      | Some v => if negb (value_eq v value) then false
                  else all_equal d value rest
      | None => false
      end
  end.

(** The second loop: [self._data.pop(element)] for each element. *)
Fixpoint pop_all (elements : list field) : M unit :=
  match elements with
  | [] => ret tt
  | element :: rest =>
      let* self := get_self in
      match _data self !! element with
      | Some _ => modify_self (fun a => with_data (delete element (_data a)) a)
      | None => raise KeyError
      end ;;
      pop_all rest
  end.

Definition _purge_if_unused (value : value) (elements : list field) : M unit :=
  let* self := get_self in
  if all_equal (_data self) value elements then pop_all elements else ret tt.

(** [float(v)] on a value of the record. *)
Definition float_of_value (v : value) : outcome float :=
  match v with
  | VStr s => float_of_str s
  | VInt z => float_of_int z
  | VFloat f => Return f
  end.

(** Cleanup received data. *)
Definition _post_process : M unit :=
  let* self := get_self in
  match map_to_list (_data self) with
  | [] => ret tt
  | _ :: _ =>
      (* Fix timestamps *)
      let* raw :=
        match _data self !! INVERTER_TIMESTAMP_UPDATE with
        | Some v => ret v
        | None => raise KeyError
        end in
      let* f := lift (float_of_value raw) in
      modify_self (fun a =>
        with_data (<[INVERTER_TIMESTAMP_UPDATE := VFloat (f / 1000)%float]>
                     (_data a)) a) ;;
      (* Unused phases are still in JSON payload as 0.0, remove them *)
      _purge_if_unused (VFloat 0) [PHASE1_CURRENT; PHASE1_VOLTAGE] ;;
      _purge_if_unused (VFloat 0) [PHASE2_CURRENT; PHASE2_VOLTAGE] ;;
      _purge_if_unused (VFloat 0) [PHASE3_CURRENT; PHASE3_VOLTAGE]
  end.

(** *** Session lifecycle and fetches *)

(** [self.is_online] *)
Definition is_online (self : SoliscloudAPI) : bool :=
  match _user_id self with
  | JNull => false
  | _ => true
  end.

(** [for x in v]: the elements of a [list], the keys of a [dict], the
    characters of a [str]; nothing else can be iterated. *)
Definition py_iter (v : json) : outcome (list json) :=
  match v with
  | JArr xs => Return xs
  | JObj kvs => Return (List.map (fun kv => JStr (fst kv)) kvs)
  | JStr s => Return (List.map (fun c => JStr (String c "")) (chars s))
  | _ => Raise TypeError
  end.

(** The loop of [fetch_inverter_list] over the records. *)
Fixpoint collect_records (records : list json) (device_ids : pydict)
    : outcome pydict :=
  match records with
  | [] => Return device_ids
  | record :: rest =>
      obind (py_get record "sn") (fun serial =>
      obind (py_get record "id") (fun device_id =>
      if hashable serial
      then collect_records rest (dict_set serial device_id device_ids)
      else Raise TypeError))
  end.

(** Fetch return list of inverters [{ inverter serial : device_id }];
    [None] when the request failed. *)
Definition fetch_inverter_list (plant_id : string) : M (option pydict) :=
  let params := JObj [("stationId", JStr plant_id)] in
  let* result := _post_data_json "/v1/api/inveterList" params in
  if SUCCESS result then
    let* result_json := content_of result in
    let* data := lift (py_getitem result_json "data") in
    let* records := lift (py_getitem data "records") in
    let* records := lift (py_iter records) in
    let* device_ids := lift (collect_records records []) in
    ret (Some device_ids)
  else
    modify_self (with_user_id JNull) ;;
    ret None.

Definition key_error (e : exn) : bool :=
  match e with
  | KeyError => true
  | _ => false
  end.

(** See if we can fetch userId and build a list of inverters *)
Definition login (session : ClientSession) : M bool :=
  modify_self (with_session (Some session)) ;;
  modify_self (with_inverter_list None) ;;
  (* Building url & params *)
  let canonicalized_resource := "/v1/api/addUser" in
  let* self := get_self in
  let params := JObj [("userName", JStr (username (_config self)));
                      ("userType", JInt 0)] in
  (* Request user id *)
  let* result := _post_data_json canonicalized_resource params in
  (if SUCCESS result then
     let* result_json := content_of result in
     try_except
       (let* data := lift (py_getitem result_json "data") in
        let* user_id := lift (py_getitem data "userId") in
        modify_self (with_user_id user_id) ;;
        (* Request inverter list *)
        let* inverters := fetch_inverter_list (plantid (_config self)) in
        modify_self (with_inverter_list inverters))
       key_error
       (modify_self (with_user_id JNull))
   else modify_self (with_user_id JNull)) ;;
  let* self := get_self in
  ret (is_online self).

(** Close session. *)
Definition logout : M unit :=
  let* self := get_self in
  match _session self with
  | Some session => emit (EvClose session)
  | None => ret tt
  end ;;
  modify_self (with_session None) ;;
  modify_self (with_user_id JNull) ;;
  modify_self (with_inverter_list None).

(** Update inverter details: the decoded answer, [None] on failure. *)
Definition _get_inverter_details (device_id : json) (device_serial : string)
    : M json :=
  let params := JObj [("id", device_id); ("sn", JStr device_serial)] in
  let* result := _post_data_json INVERTER_DETAIL params in
  if SUCCESS result then content_of result else ret JNull.

(** Modelled from the spec: [GinlongData] is a class of [ginlong_base], a
    module of the repository that is not among the sources at hand; per
    section 4.4 the fetch "returns the normalized record", so the wrapper
    is taken to hold the record as it is. *)
Definition GinlongData (data : record) : record := data.

(** Fetch data for given inverter.  The membership test
    [inverter_serial in self._inverter_list] and the subscript that follows
    it are one look-up here. *)
Definition fetch_inverter_data (inverter_serial : string)
    : M (option record) :=
  modify_self (with_data ∅) ;;
  let* self := get_self in
  if is_online self then
    match _inverter_list self with
    | Some inverters =>
        match dict_get (JStr inverter_serial) inverters with
        | Some device_id =>
            let* payload := _get_inverter_details device_id inverter_serial in
            match payload with
            | JNull => ret None
            | _ =>
                _collect_inverter_data payload ;;
                _post_process ;;
                let* self := get_self in
                ret (Some (GinlongData (_data self)))
            end
        | None => ret None
        end
    | None => ret None
    end
  else ret None.

End Client.

End Solis.

(* ===================================================================== *)
(** ** What the specification says, in the terms of the model *)
(* ===================================================================== *)

Import Py Codec Solis.

(** The failure result the transport helper starts from. *)
Definition result0 : result :=
  {| SUCCESS := false; MESSAGE := None; STATUS_CODE := None; CONTENT := None |}.

(** The world after one more reading of the clock. *)
Definition tick (w : world) : world :=
  {| clock_reads := S (clock_reads w); posts := posts w; trace := trace w |}.

(** The world after one more POST, recorded as [ev]. *)
Definition sent (w : world) (ev : event) : world :=
  {| clock_reads := clock_reads w; posts := S (posts w);
     trace := trace w ++ [ev] |}.

(** The world after an event that is not a request. *)
Definition logged (w : world) (ev : event) : world :=
  {| clock_reads := clock_reads w; posts := posts w;
     trace := trace w ++ [ev] |}.

(** The value of a header. *)
Definition header_get (name : string) (headers : list (string * string))
    : option string :=
  match List.find (fun kv => String.eqb (fst kv) name) headers with
  | Some kv => Some (snd kv)
  | None => None
  end.

(** Section 4.1: the base64 MD5 content digest of the serialised body. *)
Definition content_digest (data : string) : string :=
  ascii_text (b64encode (md5 (utf8 data))).

(** Section 4.1: canonicalString = verb + "\n" + content-MD5 + "\n" +
    content-type + "\n" + date + "\n" + resource-path. *)
Definition canonical_string (verb content_md5 content_type date resource : string)
    : string :=
  verb ++ nl ++ content_md5 ++ nl ++ content_type ++ nl ++ date ++ nl
  ++ resource.

(** Section 4.1: signature = base64(HMAC-SHA1(secret, canonicalString)). *)
Definition signature (key : bytes) (canonical : string) : string :=
  ascii_text (b64encode (hmac_sha1 key (utf8 canonical))).

(** The requests of a trace: URL, body and headers of each POST. *)
Fixpoint requests (t : list event)
    : list (string * string * list (string * string)) :=
  match t with
  | [] => []
  | EvPost _ url data headers :: rest => (url, data, headers) :: requests rest
  | _ :: rest => requests rest
  end.

(** A computation leaves the observation [f] of the client unchanged. *)
Definition preserves {A B} (f : SoliscloudAPI -> B) (m : M A) : Prop :=
  forall s, f (fst (snd (m s))) = f (fst s).

(** Section 4.2: the client once logged out. *)
Definition logged_out (a : SoliscloudAPI) : SoliscloudAPI :=
  {| _config := _config a; _session := None; _user_id := JNull;
     _data := _data a; _inverter_list := None |}.

(** The request bodies of the list fetch and of the login. *)
Definition list_params (plant : string) : json :=
  JObj [("stationId", JStr plant)].
Definition login_params (user : string) : json :=
  JObj [("userName", JStr user); ("userType", JInt 0)].

(** What [fetch_inverter_list] makes of the content of a success result. *)
Definition directory_of_content (c : json) : outcome (option pydict) :=
  obind (py_getitem c "data") (fun data =>
  obind (py_getitem data "records") (fun records =>
  obind (py_iter records) (fun l =>
  obind (collect_records l []) (fun device_ids => Return (Some device_ids))))).

(** Section 7: the outcomes of a POST that give a failure result: a
    timeout or transport error, at the request or while the body is read,
    and a decoded answer whose status is not 200. *)
Definition failure_outcome (o : post_outcome) : bool :=
  match o with
  | PostRaise e _ => transport_error e
  | PostResp status (JsonOk _) => negb (status =? 200)
  | PostResp _ (JsonRaise e _) => transport_error e
  end.

(** Section 4.2: the client after a login that did not get through. *)
Definition login_failed (session : ClientSession) (a : SoliscloudAPI)
    : SoliscloudAPI :=
  {| _config := _config a; _session := Some session; _user_id := JNull;
     _data := _data a; _inverter_list := None |}.

(** The response object has no [data], or its [data] has no [records]. *)
Definition lacks_records (kvs : list (string * json)) : Prop :=
  assoc "data" kvs = None
  \/ exists dkvs, assoc "data" kvs = Some (JObj dkvs)
                  /\ assoc "records" dkvs = None.

(** Section 4.3: each record's [sn] and [id] fields, [None] when missing. *)
Definition record_serial (r : json) : json :=
  match r with
  | JObj kvs => default JNull (assoc "sn" kvs)
  | _ => JNull
  end.
Definition record_device_id (r : json) : json :=
  match r with
  | JObj kvs => default JNull (assoc "id" kvs)
  | _ => JNull
  end.

(** A record of the list answer: an object whose serial can be a key. *)
Definition well_formed_record (r : json) : bool :=
  match r with
  | JObj _ => hashable (record_serial r)
  | _ => false
  end.

(** Section 4.3: the mapping serial -> device id built from the records. *)
Definition directory (records : list json) : pydict :=
  List.fold_left
    (fun d r => dict_set (record_serial r) (record_device_id r) d) records [].

(** The device id of the last record filed under the key [k]. *)
Fixpoint last_device_id (k : json) (records : list json) : option json :=
  match records with
  | [] => None
  | r :: rest =>
      match last_device_id k rest with
      | Some v => Some v
      | None => if key_eq (record_serial r) k then Some (record_device_id r)
                else None
      end
  end.

(** Keys that are equal to themselves only: [None] and strings. *)
Definition exact_key (k : json) : bool :=
  match k with
  | JNull | JStr _ => true
  | _ => false
  end.

(** The normalised value of one row of the table: [None] when omitted. *)
Definition row_value (jsondata : json) (r : row) : outcome (option value) :=
  match row_key r with
  | Some key => _get_value jsondata key (row_type r) (row_precision r)
  | None => Return None
  end.

(** Section 4.4, step 3: the record after the walk over the rows. *)
Fixpoint collected (jsondata : json) (rows : list (field * row)) (d : record)
    : outcome record :=
  match rows with
  | [] => Return d
  | (k, r) :: rest =>
      match row_value jsondata r with
      | Return (Some v) => collected jsondata rest (<[k := v]> d)
      | Return None => collected jsondata rest d
      | Raise e => Raise e
      end
  end.

(** Section 4.4, step 4: a reading that is present and equal to 0.0. *)
Definition zero_reading (o : option value) : bool :=
  match o with
  | Some v => value_eq v (VFloat 0)
  | None => false
  end.

(** Section 4.4, step 4: the phase with current [c] and voltage [v] is not
    wired. *)
Definition phase_unused (d : record) (c v : field) : bool :=
  zero_reading (d !! c) && zero_reading (d !! v).

(** Section 4.4, step 4: the record without the fields of an unused phase. *)
Definition purge_phase (c v : field) (d : record) : record :=
  if phase_unused d c v then delete v (delete c d) else d.

(** The three AC phases: current and voltage field of each. *)
Definition phases : list (field * field) :=
  [(PHASE1_CURRENT, PHASE1_VOLTAGE);
   (PHASE2_CURRENT, PHASE2_VOLTAGE);
   (PHASE3_CURRENT, PHASE3_VOLTAGE)].

(** Section 4.4, step 4: the record after post-processing, [f] being the
    raw update timestamp as a float. *)
Definition post_processed (d : record) (f : float) : record :=
  purge_phase PHASE3_CURRENT PHASE3_VOLTAGE
    (purge_phase PHASE2_CURRENT PHASE2_VOLTAGE
       (purge_phase PHASE1_CURRENT PHASE1_VOLTAGE
          (<[INVERTER_TIMESTAMP_UPDATE := VFloat (f / 1000)%float]> d))).

(** A portal to try the client on. *)
Definition demo_config : SoliscloudConfig :=
  {| domain := "www.soliscloud.com:13333"; username := "user";
     plantid := "P1"; key_id := "KEY"; secret := utf8 "secret" |}.

(** A session handle. *)
Definition demo_session : ClientSession := 1%nat.

(** The client logged in, one inverter in its directory. *)
Definition logged_in : state :=
  ({| _config := demo_config; _session := Some demo_session;
      _user_id := JInt 42; _data := ∅;
      _inverter_list := Some [(JStr "SN1", JStr "D1")] |}, start).

(** A world whose clock starts on 2023-11-14 and whose POSTs are answered
    from a list, then by [last] for ever. *)
Definition scripted (answers : list post_outcome) (last : post_outcome)
    : environment :=
  {| clock := fun n => 1700000000 + Z.of_nat n;
     network := fun n => List.nth n answers last |}.

(** A world that gives every POST the same answer. *)
Definition always (o : post_outcome) : environment := scripted [] o.

(** A 200 answer of the detail endpoint with [kvs] as its [data]. *)
Definition detail_answer (kvs : list (string * json)) : post_outcome :=
  PostResp 200 (JsonOk (JObj [("data", JObj kvs)])).

(** The normalised reading of a float row with two decimals. *)
Definition reading (jsondata : json) (key : string) : outcome (option value) :=
  _get_value jsondata key TFloat (Some 2).

(** The record of an outcome, empty when there is none. *)
Definition fetched (out : outcome (option record) * state) : record :=
  match fst out with
  | Return (Some r) => r
  | _ => ∅
  end.

(** The client as constructed. *)
Definition not_logged_in : state := (__init__ demo_config, start).

(** Three records: the second has no [sn], the third repeats the first. *)
Definition demo_records : list json :=
  [JObj [("sn", JStr "SN1"); ("id", JStr "D1")];
   JObj [("id", JStr "D2")];
   JObj [("sn", JStr "SN1"); ("id", JStr "D3")]].

(** The answers of the portal to a login and to a list request. *)
Definition login_answer : post_outcome :=
  PostResp 200 (JsonOk (JObj [("data", JObj [("userId", JInt 42)])])).

Definition list_answer : post_outcome :=
  PostResp 200
    (JsonOk (JObj [("data", JObj [("records", JArr demo_records)])])).

(** A two-phase installation: phase 2 reads 0.0. *)
Definition two_phase_payload : list (string * json) :=
  [("dataTimestamp", JInt 1700000000000);
   ("uAc1", JFloat 230.1); ("iAc1", JFloat 1.5);
   ("uAc2", JFloat 0); ("iAc2", JFloat 0);
   ("uAc3", JFloat 229.8); ("iAc3", JFloat 1.4)].

(** Phase 2 reads 0.0; phase 1 reads a few millivolts and milliamperes. *)
Definition faint_phase_payload : list (string * json) :=
  [("dataTimestamp", JInt 1700000000000);
   ("uAc1", JFloat 0.004); ("iAc1", JFloat 0.003);
   ("uAc2", JFloat 0); ("iAc2", JFloat 0);
   ("uAc3", JFloat 230.1); ("iAc3", JFloat 1.5)].

(** A payload that carries the serial and nothing else. *)
Definition no_timestamp_payload : list (string * json) :=
  [("sn", JStr "SN1")].

(** Answers that are failures, and a 200 answer without [data]. *)
Definition unavailable : post_outcome := PostResp 503 (JsonOk JNull).
Definition timed_out : post_outcome := PostRaise TimeoutError "timed out".
Definition empty_answer : post_outcome := PostResp 200 (JsonOk (JObj [])).

(** An answer with status 500 whose body is not JSON: decoding it raises
    [json.JSONDecodeError], a [ValueError]. *)
Definition undecodable : post_outcome :=
  PostResp 500 (JsonRaise ValueError "Expecting value").

(** The bytes in lower-case hexadecimal, as [digest.hex()] prints them. *)
Definition hex (b : bytes) : string :=
  String.concat "" (List.map (fun x => hex2 (byte_val x)) b).

(** *** Notions used by the further properties *)

(** What one signed POST adds to the trace: the request and, once an
    answer has come, the release of the response. *)
Definition post_events (h : ClientSession) (url data : string)
    (headers : list (string * string)) (o : post_outcome) : list event :=
  EvPost h url data headers
  :: match o with
     | PostResp _ _ => [EvRelease]
     | PostRaise _ _ => []
     end.

(** The result, or the exception, that the signed POST makes of the
    outcome of its request. *)
Definition post_result (o : post_outcome) : outcome result :=
  match o with
  | PostRaise e msg =>
      if transport_error e
      then Return {| SUCCESS := false; MESSAGE := Some msg;
                     STATUS_CODE := None; CONTENT := None |}
      else Raise e
  | PostResp status (JsonRaise e msg) =>
      if transport_error e
      then Return {| SUCCESS := false; MESSAGE := Some msg;
                     STATUS_CODE := Some status; CONTENT := None |}
      else Raise e
  | PostResp status (JsonOk content) =>
      if status =? 200
      then Return {| SUCCESS := true; MESSAGE := Some "OK";
                     STATUS_CODE := Some status; CONTENT := Some content |}
      else Return {| SUCCESS := false;
                     MESSAGE := Some ("Got http statuscode: "
                                      ++ str_of_int status);
                     STATUS_CODE := Some status; CONTENT := Some content |}
  end.

(** The client with every attribute given. *)
Definition client (config : SoliscloudConfig) (session : option ClientSession)
    (user_id : json) (data : record) (inverters : option pydict)
    : SoliscloudAPI :=
  {| _config := config; _session := session; _user_id := user_id;
     _data := data; _inverter_list := inverters |}.

(** The user id that [login] reads in the content of its answer. *)
Definition user_id_of_content (c : json) : outcome json :=
  obind (py_getitem c "data") (fun d => py_getitem d "userId").

(** The request body of the detail fetch. *)
Definition detail_params (device_id : json) (serial : string) : json :=
  JObj [("id", device_id); ("sn", JStr serial)].

(** The record that collection and post-processing make of a payload,
    starting from the empty record. *)
Definition normalised (payload : json) : outcome record :=
  obind (py_getitem payload "data") (fun jsondata =>
  obind (collected jsondata (INVERTER_DATA INVERTER_DETAIL) ∅) (fun d =>
  match map_to_list d with
  | [] => Return d
  | _ :: _ =>
      match d !! INVERTER_TIMESTAMP_UPDATE with
      | None => Raise KeyError
      | Some raw =>
          obind (float_of_value raw) (fun f => Return (post_processed d f))
      end
  end)).

(** What a detail fetch that reaches the portal makes of the answer. *)
Definition record_of_answer (o : post_outcome) : outcome (option record) :=
  obind (post_result o) (fun r =>
  if SUCCESS r then
    match CONTENT r with
    | None => Raise KeyError
    | Some JNull => Return None
    | Some payload => obind (normalised payload) (fun rec => Return (Some rec))
    end
  else Return None).

(** The Python type of a value of the record. *)
Definition type_of_value (v : value) : ptype :=
  match v with
  | VStr _ => TStr
  | VInt _ => TInt
  | VFloat _ => TFloat
  end.

(** The type a row delivers: [round] without a precision gives an [int]. *)
Definition delivered_type (r : row) : ptype :=
  match row_type r, row_precision r with
  | TFloat, None => TInt
  | t, _ => t
  end.

(** A row that has a vendor key and delivers the type it declares. *)
Definition row_well_formed (r : row) : bool :=
  match row_key r, row_type r, row_precision r with
  | None, _, _ => false
  | Some _, TFloat, None => false
  | Some _, _, _ => true
  end.

(** The first loop of [_purge_if_unused] in one test: every element is in
    the record and equal to the value. *)
Definition readings_equal (d : record) (x : value) (elements : list field)
    : bool :=
  forallb (fun e => match d !! e with
                    | Some v => value_eq v x
                    | None => false
                    end) elements.

(** A client that is online, or holds a directory, holds a session handle. *)
Definition session_when_needed (a : SoliscloudAPI) : Prop :=
  is_online a = true \/ _inverter_list a <> None -> _session a <> None.

(** A portal that answers the login and then the list request. *)
Definition demo_portal : environment := scripted [login_answer] list_answer.

(** Answers of the login endpoint whose [data] is null, and whose user id
    is null. *)
Definition null_data_answer : post_outcome :=
  PostResp 200 (JsonOk (JObj [("data", JNull)])).
Definition null_user_answer : post_outcome :=
  PostResp 200 (JsonOk (JObj [("data", JObj [("userId", JNull)])])).

(** A 200 answer whose body is JSON null. *)
Definition null_answer : post_outcome := PostResp 200 (JsonOk JNull).

(** Another client, logged in elsewhere, later, with a record of its own. *)
Definition other_logged_in : state :=
  ({| _config := {| domain := "example.org"; username := "other";
                    plantid := "P2"; key_id := "K2"; secret := utf8 "s2" |};
      _session := Some 2%nat; _user_id := JStr "u7";
      _data := {[ INVERTER_ACPOWER := VFloat 1 ]};
      _inverter_list := Some [(JStr "SN2", JInt 17)] |},
   {| clock_reads := 5; posts := 0; trace := [EvRelease] |}).


(** The logged-in client once a payload has been collected. *)
Definition collected_state (kvs : list (string * json)) : state :=
  snd (_collect_inverter_data (JObj [("data", JObj kvs)]) logged_in).

(** The first answer lets [login] go on to the list request: status 200
    and a body in which [data.userId] can be read. *)
Definition login_reaches_list (o : post_outcome) : bool :=
  match o with
  | PostResp status (JsonOk c) =>
      (status =? 200)
      && match user_id_of_content c with
         | Return _ => true
         | Raise _ => false
         end
  | _ => false
  end.

(** An answer of the list endpoint whose [records] is null. *)
Definition null_records_answer : post_outcome :=
  PostResp 200 (JsonOk (JObj [("data", JObj [("records", JNull)])])).

(* ===================================================================== *)
(** ** Properties *)
(* ===================================================================== *)

(** Simplification that leaves digests, serialisation and text alone. *)
Ltac step := cbn -[prepare_header_at dumps str_of_int String.append Z.eqb].

(** *** Text *)

Lemma append_assoc (a b c : string) : (a ++ b) ++ c = a ++ b ++ c.
Proof.
  induction a as [|x a IH]; [reflexivity|].
  change (String x ((a ++ b) ++ c) = String x (a ++ b ++ c)).
  rewrite IH. reflexivity.
Qed.

Lemma concat_snoc (l : list string) (x : string) :
  String.concat "" (l ++ [x]) = String.concat "" l ++ x.
Proof.
  induction l as [|a l IH]; [reflexivity|].
  destruct l as [|b l].
  - reflexivity.
  - change (String.concat "" ((a :: b :: l) ++ [x]))
      with (a ++ String.concat "" ((b :: l) ++ [x])).
    rewrite IH.
    change (String.concat "" (a :: b :: l)) with (a ++ String.concat "" (b :: l)).
    rewrite append_assoc. reflexivity.
Qed.

(** The compact form: members and elements are joined by a bare comma,
    a key and its value by a bare colon. *)
Lemma dumps_object (kvs : list (string * json)) :
  dumps (JObj kvs)
  = "{" ++ String.concat ","
             (List.map (fun kv => dumps_str (fst kv) ++ ":" ++ dumps (snd kv))
                kvs)
    ++ "}".
Proof. destruct kvs; reflexivity. Qed.

Lemma dumps_array (xs : list json) :
  dumps (JArr xs) = "[" ++ String.concat "," (List.map dumps xs) ++ "]".
Proof. destruct xs; reflexivity. Qed.

(** The body of the login request for the user [user]. *)
Lemma dumps_login_params :
  dumps (login_params "user")
  = String.concat (String dq "")
      ["{"; "userName"; ":"; "user"; ","; "userType"; ":0}"].
Proof. reflexivity. Qed.

(** The date of a request always ends in the zone name. *)
Lemma strftime_gmt_suffix (t : datetime) :
  exists prefix, strftime_gmt t = prefix ++ " GMT".
Proof.
  unfold strftime_gmt.
  destruct (civil_of_days (t / 86400)) as [[y m] d].
  match goal with
  | |- context [String.concat "" ?l] =>
      exists (String.concat "" (removelast l));
      change l with (removelast l ++ [" GMT"])%list
  end.
  apply concat_snoc.
Qed.

Lemma requests_app (t u : list event) :
  requests (t ++ u) = (requests t ++ requests u)%list.
Proof.
  induction t as [|ev t IH]; [reflexivity|].
  destruct ev; cbn [requests app]; rewrite IH; reflexivity.
Qed.

(** *** The built-ins on known values *)

(** Test vectors of the digests and of the encodings, and what the
    interpreter answers for a few roundings and conversions. *)
Lemma md5_abc : hex (md5 (utf8 "abc")) = "900150983cd24fb0d6963f7d28e17f72".
Proof. vm_compute. reflexivity. Qed.

Lemma sha1_abc :
  hex (sha1 (utf8 "abc")) = "a9993e364706816aba3e25717850c26c9cd0d89d".
Proof. vm_compute. reflexivity. Qed.

Lemma hmac_sha1_fox :
  hex (hmac_sha1 (utf8 "key")
         (utf8 "The quick brown fox jumps over the lazy dog"))
  = "de7c9b85b8b78aa6bc8a7a36f70a90701c9db4d9".
Proof. vm_compute. reflexivity. Qed.

Lemma b64encode_hello : ascii_text (b64encode (utf8 "hello")) = "aGVsbG8=".
Proof. vm_compute. reflexivity. Qed.

Lemma strftime_gmt_2023 :
  strftime_gmt 1700000000 = "Tue, 14 Nov 2023 22:13:20 GMT".
Proof. vm_compute. reflexivity. Qed.

Lemma round_two_decimals :
  round_ndigits 12.3456 2 = Return 12.35%float
  /\ round_ndigits 0.004 2 = Return 0%float
  /\ round_ndigits 0.125 2 = Return 0.12%float
  /\ repr_float 12.35 = "12.35"
  /\ repr_float 1e22 = "1e+22"
  /\ float_of_str " 1e-7 " = Return 1e-7%float.
Proof. repeat split; vm_compute; reflexivity. Qed.

Lemma login_request_headers :
  prepare_header_at demo_config 1700000000 (login_params "user")
    "/v1/api/addUser"
  = [("Content-MD5", "jPbmTNHuOb+DczWHW7tMHw==");
     ("Content-Type", "application/json");
     ("Date", "Tue, 14 Nov 2023 22:13:20 GMT");
     ("Authorization", "API KEY:qjuqxHFcNbNxD68BuVrFgUDmTZ4=")].
Proof. vm_compute. reflexivity. Qed.

(** *** The signed POST, case by case *)

Lemma post_unfold env resource params (s : state) :
  _post_data_json env resource params s =
  let a := fst s in
  let w1 := tick (snd s) in
  let header := prepare_header_at (_config a) (clock env (clock_reads (snd s)))
                  params resource in
  match _session a with
  | None => (Return result0, (a, w1))
  | Some h =>
      let w2 := sent w1 (EvPost h ("https://" ++ domain (_config a) ++ resource)
                           (dumps params) header) in
      match network env (posts (snd s)) with
      | PostRaise e msg =>
          if transport_error e
          then (Return {| SUCCESS := false; MESSAGE := Some msg;
                          STATUS_CODE := None; CONTENT := None |}, (a, w2))
          else (Raise e, (a, w2))
      | PostResp status body =>
          let w3 := logged w2 EvRelease in
          match body with
          | JsonRaise e msg =>
              if transport_error e
              then (Return {| SUCCESS := false; MESSAGE := Some msg;
                              STATUS_CODE := Some status; CONTENT := None |},
                    (a, w3))
              else (Raise e, (a, w3))
          | JsonOk content =>
              if status =? 200
              then (Return {| SUCCESS := true; MESSAGE := Some "OK";
                              STATUS_CODE := Some status;
                              CONTENT := Some content |}, (a, w3))
              else (Return {| SUCCESS := false;
                              MESSAGE := Some ("Got http statuscode: "
                                               ++ str_of_int status);
                              STATUS_CODE := Some status;
                              CONTENT := Some content |}, (a, w3))
          end
      end
  end.
Proof.
  destruct s as [a w].
  unfold _post_data_json, _prepare_header, bind, now, get_self, ret,
    session_post, on_error, emit, raise, tick, sent, logged.
  step.
  destruct (_session a) as [h|]; [|reflexivity].
  step.
  destruct (network env (posts w)) as [e msg|status [content|e msg]]; step.
  - destruct (transport_error e); reflexivity.
  - destruct (status =? 200); reflexivity.
  - destruct (transport_error e); reflexivity.
Qed.

(** C6, as amended.  Without a session handle the signed POST returns the
    failure result at once: no request is recorded, only the clock has been
    read for the header.  With a handle, an answer whose status is not 200
    and whose body was decoded, or failed to decode with a timeout or a
    transport error, gives a result that is not a success and carries the
    status code and a message, and nothing is raised; a timeout or
    transport error of the request itself gives a failure result carrying
    the text of the error.  An error of any other class raised while the
    body is decoded is not captured: it reaches the caller. *)
Theorem post_failure_results env resource params (s : state) :
  (_session (fst s) = None ->
     _post_data_json env resource params s
     = (Return result0, (fst s, tick (snd s))))
  /\ (forall h status body,
        _session (fst s) = Some h ->
        network env (posts (snd s)) = PostResp status body ->
        status <> 200 ->
        match body with
        | JsonOk _ => True
        | JsonRaise e _ => transport_error e = true
        end ->
        exists r w,
          _post_data_json env resource params s = (Return r, (fst s, w))
          /\ SUCCESS r = false
          /\ STATUS_CODE r = Some status
          /\ MESSAGE r = Some (match body with
                               | JsonOk _ => "Got http statuscode: "
                                             ++ str_of_int status
                               | JsonRaise _ msg => msg
                               end))
  /\ (forall h e msg,
        _session (fst s) = Some h ->
        network env (posts (snd s)) = PostRaise e msg ->
        transport_error e = true ->
        exists w,
          _post_data_json env resource params s
          = (Return {| SUCCESS := false; MESSAGE := Some msg;
                       STATUS_CODE := None; CONTENT := None |}, (fst s, w)))
  /\ (forall h status e msg,
        _session (fst s) = Some h ->
        network env (posts (snd s)) = PostResp status (JsonRaise e msg) ->
        transport_error e = false ->
        exists w,
          _post_data_json env resource params s = (Raise e, (fst s, w))).
Proof.
  rewrite post_unfold. cbv zeta.
  repeat split.
  - intros ->. reflexivity.
  - intros h status body -> -> Hne Hbody.
    destruct body as [content | e msg].
    + destruct (Z.eqb_spec status 200) as [E | _]; [contradiction|].
      eexists _, _. split; [reflexivity|]. repeat split.
    + rewrite Hbody. eexists _, _. split; [reflexivity|]. repeat split.
  - intros h e msg -> -> ->. eexists. reflexivity.
  - intros h status e msg -> -> ->. eexists. reflexivity.
Qed.

(** C1. Whatever the configuration, the body and the resource path, the
    header set of the signed POST holds: under Content-MD5 the base64 MD5
    digest of the body serialised compactly; under Content-Type
    application/json; under Date the clock reading formatted as a GMT date;
    under Authorization the text API, the key id, a colon and the base64
    HMAC-SHA1 of the canonical string under the secret.  A request, when
    one goes out, carries those headers and, as its body, the very
    serialisation the digest was taken of. *)
Theorem signed_post_headers env resource params (s : state) :
  let config := _config (fst s) in
  let date := strftime_gmt (clock env (clock_reads (snd s))) in
  let data := dumps params in
  let digest := content_digest data in
  let content_type := "application/json" in
  exists headers,
    fst (_prepare_header env params resource s) = Return headers
    /\ header_get "Content-MD5" headers = Some digest
    /\ header_get "Content-Type" headers = Some content_type
    /\ header_get "Date" headers = Some date
    /\ (exists prefix, date = prefix ++ " GMT")
    /\ header_get "Authorization" headers
       = Some ("API " ++ key_id config ++ ":"
               ++ signature (secret config)
                    (canonical_string VERB digest content_type date resource))
    /\ requests (trace (snd (snd (_post_data_json env resource params s))))
       = List.app (requests (trace (snd s)))
           match _session (fst s) with
           | Some _ => [("https://" ++ domain config ++ resource, data, headers)]
           | None => []
           end.
Proof.
  intros config date data digest content_type.
  exists (prepare_header_at config (clock env (clock_reads (snd s)))
            params resource).
  split; [reflexivity|].
  split; [reflexivity|].
  split; [reflexivity|].
  split; [reflexivity|].
  split; [apply strftime_gmt_suffix|].
  split; [reflexivity|].
  rewrite post_unfold. cbv zeta. subst config.
  destruct (_session (fst s)) as [h|].
  - destruct (network env (posts (snd s))) as [e msg|status [content|e msg]];
      repeat match goal with |- context [if ?b then _ else _] => destruct b end;
      cbn [snd fst trace sent logged tick];
      rewrite ?requests_app; cbn [requests]; rewrite ?app_nil_r; reflexivity.
  - cbn [snd fst trace tick]. rewrite app_nil_r. reflexivity.
Qed.

(** *** What a computation leaves alone *)

Section Preservation.
Context {B : Type} (f : SoliscloudAPI -> B).

Lemma preserves_ret {A} (a : A) : preserves f (ret a).
Proof. intros s. reflexivity. Qed.

Lemma preserves_lift {A} (x : outcome A) : preserves f (lift x).
Proof. intros s. reflexivity. Qed.

Lemma preserves_get_self : preserves f get_self.
Proof. intros s. reflexivity. Qed.

Lemma preserves_bind {A C} (m : M A) (k : A -> M C) :
  preserves f m -> (forall a, preserves f (k a)) -> preserves f (bind m k).
Proof.
  intros Hm Hk s. unfold bind.
  specialize (Hm s). destruct (m s) as [[a | e] s1]; cbn [fst snd] in *.
  - rewrite Hk. exact Hm.
  - exact Hm.
Qed.

Lemma preserves_try_except {A} (body handler : M A) classes :
  preserves f body -> preserves f handler ->
  preserves f (try_except body classes handler).
Proof.
  intros Hb Hh s. unfold try_except.
  specialize (Hb s). destruct (body s) as [[a | e] s1]; cbn [fst snd] in *.
  - exact Hb.
  - destruct (classes e); cbn [fst snd]; [rewrite Hh|]; exact Hb.
Qed.

Lemma preserves_modify (g : SoliscloudAPI -> SoliscloudAPI) :
  (forall a, f (g a) = f a) -> preserves f (modify_self g).
Proof. intros Hg s. apply Hg. Qed.

(** The signed POST changes nothing of the client, only the world. *)
Lemma preserves_post env resource params :
  preserves f (_post_data_json env resource params).
Proof.
  intros s. rewrite post_unfold. cbv zeta.
  destruct (_session (fst s)); [|reflexivity].
  destruct (network env (posts (snd s))) as [e msg|status [content|e msg]];
    repeat match goal with |- context [if ?b then _ else _] => destruct b end;
    reflexivity.
Qed.

Lemma preserves_content_of r : preserves f (content_of r).
Proof. unfold content_of. destruct (CONTENT r); intros s; reflexivity. Qed.

End Preservation.

Lemma fetch_inverter_list_session env plant :
  preserves _session (fetch_inverter_list env plant).
Proof.
  unfold fetch_inverter_list.
  apply preserves_bind; [apply preserves_post|]. intros r.
  destruct (SUCCESS r).
  - repeat (apply preserves_bind;
            [first [apply preserves_content_of | apply preserves_lift]|];
            intros ?).
    apply preserves_ret.
  - apply preserves_bind; [|intros; apply preserves_ret].
    apply preserves_modify. reflexivity.
Qed.

(** Whatever happens during [login], the handle it was given stays stored. *)
Lemma login_session env session (s : state) :
  _session (fst (snd (login env session s))) = Some session.
Proof.
  unfold login.
  match goal with
  | |- context [bind (modify_self (with_session (Some session))) ?k] =>
      assert (Hk : preserves _session (k tt))
  end.
  { apply preserves_bind; [apply preserves_modify; reflexivity|]. intros _.
    apply preserves_bind; [apply preserves_get_self|]. intros a.
    apply preserves_bind; [apply preserves_post|]. intros r.
    apply preserves_bind;
      [|intros; apply preserves_bind;
        [apply preserves_get_self | intros; apply preserves_ret]].
    destruct (SUCCESS r).
    - apply preserves_bind; [apply preserves_content_of|]. intros c.
      apply preserves_try_except.
      + apply preserves_bind; [apply preserves_lift|]. intros d.
        apply preserves_bind; [apply preserves_lift|]. intros uid.
        apply preserves_bind; [apply preserves_modify; reflexivity|]. intros _.
        apply preserves_bind; [apply fetch_inverter_list_session|]. intros l.
        apply preserves_modify; reflexivity.
      + apply preserves_modify; reflexivity.
    - apply preserves_modify; reflexivity. }
  unfold bind at 1. cbn [modify_self fst snd].
  rewrite Hk. reflexivity.
Qed.

Lemma logout_unfold (s : state) :
  logout s = (Return tt,
              (logged_out (fst s),
               match _session (fst s) with
               | Some h => logged (snd s) (EvClose h)
               | None => snd s
               end)).
Proof.
  destruct s as [a w]. unfold logout, bind, get_self, emit, modify_self, ret.
  cbn [fst snd]. destruct (_session a); reflexivity.
Qed.

(** C8. [logout] clears the user id and the inverter list whatever the
    state it starts from, and closes the session handle when there is one.
    So after [login(session)] followed by [logout()], whether the login
    succeeded, failed or raised, the user id is [None], the client is not
    online, the inverter list is [None], and the handle given to [login]
    has been closed and dropped. *)
Theorem login_then_logout env session (s : state) :
  (forall s0 : state,
     let out := logout s0 in
     fst out = Return tt
     /\ _user_id (fst (snd out)) = JNull
     /\ _inverter_list (fst (snd out)) = None
     /\ _session (fst (snd out)) = None
     /\ trace (snd (snd out))
        = List.app (trace (snd s0))
            match _session (fst s0) with
            | Some h => [EvClose h]
            | None => []
            end)
  /\ let s1 := snd (login env session s) in
     let out := logout s1 in
     fst out = Return tt
     /\ _user_id (fst (snd out)) = JNull
     /\ is_online (fst (snd out)) = false
     /\ _inverter_list (fst (snd out)) = None
     /\ _session (fst (snd out)) = None
     /\ trace (snd (snd out)) = List.app (trace (snd s1)) [EvClose session].
Proof.
  split.
  - intros s0. cbv zeta. rewrite logout_unfold.
    cbn [fst snd logged_out _user_id _inverter_list _session].
    repeat split. destruct (_session (fst s0)); [reflexivity|].
    rewrite app_nil_r. reflexivity.
  - cbv zeta. rewrite logout_unfold, login_session. repeat split.
Qed.

(** C5. When the client is not logged in, or has no inverter directory, or
    the serial is not a key of the directory, [fetch_inverter_data] returns
    [None] and leaves the world as it was: no request goes out.  (The
    record of the previous fetch has been reset.) *)
Theorem fetch_unknown_serial env serial (s : state) :
  _user_id (fst s) = JNull
  \/ _inverter_list (fst s) = None
  \/ (exists inverters, _inverter_list (fst s) = Some inverters
                        /\ dict_get (JStr serial) inverters = None) ->
  fetch_inverter_data env serial s
  = (Return None, (with_data ∅ (fst s), snd s)).
Proof.
  intros H. destruct s as [a w].
  unfold fetch_inverter_data, bind, modify_self, get_self, ret.
  cbn [fst snd] in *.
  change (is_online (with_data ∅ a)) with (is_online a).
  change (_inverter_list (with_data ∅ a)) with (_inverter_list a).
  destruct H as [H | [H | (inverters & H & Hk)]].
  - unfold is_online. rewrite H. reflexivity.
  - rewrite H. destruct (is_online a); reflexivity.
  - rewrite H, Hk. destruct (is_online a); reflexivity.
Qed.

(** *** Login and the inverter directory, step by step *)

Lemma fetch_inverter_list_unfold env plant (s : state) :
  fetch_inverter_list env plant s =
  match _post_data_json env "/v1/api/inveterList" (list_params plant) s with
  | (Return r, s') =>
      if SUCCESS r then
        match CONTENT r with
        | Some c => (directory_of_content c, s')
        | None => (Raise KeyError, s')
        end
      else (Return None, (with_user_id JNull (fst s'), snd s'))
  | (Raise e, s') => (Raise e, s')
  end.
Proof.
  unfold fetch_inverter_list, bind, list_params.
  destruct (_post_data_json _ _ _ s) as [[r | e] s']; [|reflexivity].
  destruct (SUCCESS r); [|reflexivity].
  unfold content_of. destruct (CONTENT r) as [c|]; [|reflexivity].
  unfold directory_of_content, lift, ret, obind.
  destruct (py_getitem c "data") as [d|]; [|reflexivity].
  destruct (py_getitem d "records") as [rs|]; [|reflexivity].
  destruct (py_iter rs) as [l|]; [|reflexivity].
  destruct (collect_records l []); reflexivity.
Qed.

Lemma login_unfold env session (s : state) :
  login env session s =
  let a0 := with_inverter_list None (with_session (Some session) (fst s)) in
  match _post_data_json env "/v1/api/addUser"
          (login_params (username (_config (fst s)))) (a0, snd s) with
  | (Raise e, s1) => (Raise e, s1)
  | (Return r, s1) =>
      if SUCCESS r then
        match CONTENT r with
        | None => (Raise KeyError, s1)
        | Some c =>
            match obind (py_getitem c "data")
                    (fun d => py_getitem d "userId") with
            | Raise e =>
                if key_error e
                then (Return false, (with_user_id JNull (fst s1), snd s1))
                else (Raise e, s1)
            | Return user_id =>
                match fetch_inverter_list env (plantid (_config (fst s)))
                        (with_user_id user_id (fst s1), snd s1) with
                | (Return l, s2) =>
                    (Return (is_online (fst s2)),
                     (with_inverter_list l (fst s2), snd s2))
                | (Raise e, s2) =>
                    if key_error e
                    then (Return false, (with_user_id JNull (fst s2), snd s2))
                    else (Raise e, s2)
                end
            end
        end
      else (Return false, (with_user_id JNull (fst s1), snd s1))
  end.
Proof.
  destruct s as [a w]. cbv zeta.
  unfold login, login_params.
  unfold bind at 1. cbn [modify_self fst snd].
  unfold bind at 1. cbn [modify_self fst snd].
  unfold bind at 1. cbn [get_self fst snd].
  unfold bind at 1.
  change (username (_config (with_inverter_list None
                               (with_session (Some session) a))))
    with (username (_config a)).
  change (plantid (_config (with_inverter_list None
                              (with_session (Some session) a))))
    with (plantid (_config a)).
  destruct (_post_data_json _ _ _ _) as [[r | e] [a1 w1]]; [|reflexivity].
  cbn [fst snd].
  destruct (SUCCESS r).
  - unfold content_of. destruct (CONTENT r) as [c|]; [|reflexivity].
    unfold bind, try_except, lift, ret, obind, get_self, modify_self.
    cbn [fst snd].
    destruct (py_getitem c "data") as [d|e].
    + destruct (py_getitem d "userId") as [uid|e].
      * destruct (fetch_inverter_list _ _ _) as [[l | e] [a2 w2]];
          cbn [fst snd].
        -- reflexivity.
        -- destruct (key_error e); reflexivity.
      * destruct (key_error e); reflexivity.
    + destruct (key_error e); reflexivity.
  - unfold bind, get_self, modify_self, ret. reflexivity.
Qed.

Lemma post_failure env resource params (a : SoliscloudAPI) (w : world) h :
  _session a = Some h ->
  failure_outcome (network env (posts w)) = true ->
  exists r w', _post_data_json env resource params (a, w) = (Return r, (a, w'))
               /\ SUCCESS r = false.
Proof.
  intros Hs Hf. rewrite post_unfold. cbv zeta. cbn [fst snd]. rewrite Hs.
  destruct (network env (posts w)) as [e msg|status [content|e msg]];
    cbn [failure_outcome] in Hf.
  - rewrite Hf. eexists _, _. split; reflexivity.
  - destruct (status =? 200); [discriminate|]. eexists _, _. split; reflexivity.
  - rewrite Hf. eexists _, _. split; reflexivity.
Qed.

Lemma post_success env resource params (a : SoliscloudAPI) (w : world) h c :
  _session a = Some h ->
  network env (posts w) = PostResp 200 (JsonOk c) ->
  exists w', _post_data_json env resource params (a, w)
             = (Return {| SUCCESS := true; MESSAGE := Some "OK";
                          STATUS_CODE := Some 200; CONTENT := Some c |},
                (a, w'))
             /\ posts w' = S (posts w).
Proof.
  intros Hs Hn. rewrite post_unfold. cbv zeta. cbn [fst snd]. rewrite Hs, Hn.
  cbn [Z.eqb Pos.eqb]. eexists. split; reflexivity.
Qed.

(** C4. When the POST of [fetch_inverter_list] gives a failure result, the
    function stores [None] as user id (the client is no longer logged in)
    and returns [None].  This also holds inside [login]: when login's own
    POST succeeded and the user id was extracted, a failing list POST
    still leaves the user id cleared, and [login] returns false. *)
Theorem failed_list_fetch_logs_out env (s : state) :
  (forall plant r s',
     _post_data_json env "/v1/api/inveterList" (list_params plant) s
     = (Return r, s') ->
     SUCCESS r = false ->
     fetch_inverter_list env plant s
     = (Return None, (with_user_id JNull (fst s'), snd s')))
  /\ (forall session c d user_id,
        network env (posts (snd s)) = PostResp 200 (JsonOk c) ->
        py_getitem c "data" = Return d ->
        py_getitem d "userId" = Return user_id ->
        failure_outcome (network env (S (posts (snd s)))) = true ->
        exists w,
          login env session s
          = (Return false, (login_failed session (fst s), w))).
Proof.
  split.
  - intros plant r s' Hp Hr.
    rewrite fetch_inverter_list_unfold, Hp, Hr. reflexivity.
  - intros session c d uid Hn Hd Hu Hf. destruct s as [a w].
    cbn [fst snd] in *.
    rewrite login_unfold. cbv zeta. cbn [fst snd].
    destruct (post_success env "/v1/api/addUser"
                (login_params (username (_config a)))
                (with_inverter_list None (with_session (Some session) a))
                w session c eq_refl Hn) as (w1 & -> & Hw1).
    cbn [SUCCESS CONTENT fst snd obind]. rewrite Hd. cbn [obind]. rewrite Hu.
    rewrite fetch_inverter_list_unfold.
    destruct (post_failure env "/v1/api/inveterList"
                (list_params (plantid (_config a)))
                (with_user_id uid
                   (with_inverter_list None (with_session (Some session) a)))
                w1 session eq_refl) as (r & w2 & -> & ->).
    { rewrite Hw1. exact Hf. }
    cbn [fst snd]. exists w2. reflexivity.
Qed.

Lemma lacks_records_key_error kvs :
  lacks_records kvs -> directory_of_content (JObj kvs) = Raise KeyError.
Proof.
  unfold directory_of_content.
  intros [H | (dkvs & H & H')]; cbn [py_getitem obind]; rewrite H;
    [reflexivity|].
  cbn [py_getitem obind]. rewrite H'. reflexivity.
Qed.

(** C10. When the list POST succeeds with status 200 but the response
    object has no [data] key, or its [data] object has no [records] key,
    [fetch_inverter_list] raises [KeyError] to its caller, the client left
    as it was.  Inside [login] the handler absorbs it: the user id is reset
    to [None] and [login] returns false instead of raising. *)
Theorem missing_records_key_error env (s : state) :
  (forall plant h kvs,
     _session (fst s) = Some h ->
     network env (posts (snd s)) = PostResp 200 (JsonOk (JObj kvs)) ->
     lacks_records kvs ->
     exists w, fetch_inverter_list env plant s = (Raise KeyError, (fst s, w)))
  /\ (forall session c d user_id kvs,
        network env (posts (snd s)) = PostResp 200 (JsonOk c) ->
        py_getitem c "data" = Return d ->
        py_getitem d "userId" = Return user_id ->
        network env (S (posts (snd s))) = PostResp 200 (JsonOk (JObj kvs)) ->
        lacks_records kvs ->
        exists w,
          login env session s
          = (Return false, (login_failed session (fst s), w))).
Proof.
  split.
  - intros plant h kvs Hs Hn Hl. destruct s as [a w]. cbn [fst snd] in *.
    rewrite fetch_inverter_list_unfold.
    destruct (post_success env "/v1/api/inveterList" (list_params plant)
                a w h _ Hs Hn) as (w1 & -> & _).
    cbn [SUCCESS CONTENT]. rewrite (lacks_records_key_error kvs Hl).
    exists w1. reflexivity.
  - intros session c d uid kvs Hn Hd Hu Hn2 Hl. destruct s as [a w].
    cbn [fst snd] in *.
    rewrite login_unfold. cbv zeta. cbn [fst snd].
    destruct (post_success env "/v1/api/addUser"
                (login_params (username (_config a)))
                (with_inverter_list None (with_session (Some session) a))
                w session c eq_refl Hn) as (w1 & -> & Hw1).
    cbn [SUCCESS CONTENT fst snd obind]. rewrite Hd. cbn [obind]. rewrite Hu.
    rewrite fetch_inverter_list_unfold.
    rewrite <- Hw1 in Hn2.
    destruct (post_success env "/v1/api/inveterList"
                (list_params (plantid (_config a)))
                (with_user_id uid
                   (with_inverter_list None (with_session (Some session) a)))
                w1 session _ eq_refl Hn2) as (w2 & -> & _).
    cbn [SUCCESS CONTENT]. rewrite (lacks_records_key_error kvs Hl).
    cbn [key_error fst snd]. exists w2. reflexivity.
Qed.

(** *** The inverter directory *)

Lemma collect_records_fold records : forall d0,
  Forall (fun r => well_formed_record r = true) records ->
  collect_records records d0
  = Return (List.fold_left
              (fun d r => dict_set (record_serial r) (record_device_id r) d)
              records d0).
Proof.
  induction records as [|r records IH]; intros d0 Hwf; [reflexivity|].
  inversion Hwf as [|? ? Hr Hrest]; subst.
  destruct r as [| | | | | |kvs]; try discriminate.
  cbn [collect_records py_get obind fold_left record_serial record_device_id].
  cbn [well_formed_record record_serial] in Hr. rewrite Hr.
  apply IH. exact Hrest.
Qed.

Lemma key_eq_exact_l k a : exact_key k = true -> key_eq a k = true -> a = k.
Proof.
  destruct k; try discriminate; intros _; destruct a; cbn; try discriminate;
    try (destruct b; discriminate).
  - reflexivity.
  - intros H. apply String.eqb_eq in H. subst. reflexivity.
Qed.

Lemma key_eq_exact_r k a : exact_key k = true -> key_eq k a = true -> a = k.
Proof.
  destruct k; try discriminate; intros _; destruct a; cbn; try discriminate.
  - reflexivity.
  - intros H. apply String.eqb_eq in H. subst. reflexivity.
Qed.

Lemma key_eq_refl_exact k : exact_key k = true -> key_eq k k = true.
Proof.
  destruct k; try discriminate; intros _; cbn;
    [reflexivity | apply String.eqb_refl].
Qed.

(** Reading a key after a store, for keys that are [None] or strings. *)
Lemma dict_get_set k k' v d :
  exact_key k = true ->
  dict_get k (dict_set k' v d) = if key_eq k' k then Some v else dict_get k d.
Proof.
  intros Hk. induction d as [|[k0 v0] d IH]; cbn [dict_set dict_get].
  - destruct (key_eq k' k); reflexivity.
  - destruct (key_eq k0 k') eqn:E0; cbn [dict_get].
    + destruct (key_eq k0 k) eqn:E1.
      * apply (key_eq_exact_l k k0 Hk) in E1. subst k0.
        apply (key_eq_exact_r k k' Hk) in E0. subst k'.
        rewrite key_eq_refl_exact by exact Hk. reflexivity.
      * destruct (key_eq k' k) eqn:E2; [|reflexivity].
        apply (key_eq_exact_l k k' Hk) in E2. subst k'.
        apply (key_eq_exact_l k k0 Hk) in E0. subst k0.
        rewrite key_eq_refl_exact in E1 by exact Hk. discriminate.
    + destruct (key_eq k0 k) eqn:E1.
      * destruct (key_eq k' k) eqn:E2; [|reflexivity].
        apply (key_eq_exact_l k k0 Hk) in E1. subst k0.
        apply (key_eq_exact_l k k' Hk) in E2. subst k'.
        rewrite key_eq_refl_exact in E0 by exact Hk. discriminate.
      * exact IH.
Qed.

Lemma directory_lookup k records : exact_key k = true ->
  forall d0,
  dict_get k (List.fold_left
                (fun d r => dict_set (record_serial r) (record_device_id r) d)
                records d0)
  = match last_device_id k records with
    | Some v => Some v
    | None => dict_get k d0
    end.
Proof.
  intros Hk. induction records as [|r records IH]; intros d0; [reflexivity|].
  cbn [fold_left last_device_id]. rewrite IH.
  destruct (last_device_id k records); [reflexivity|].
  rewrite dict_get_set by exact Hk.
  destruct (key_eq (record_serial r) k); reflexivity.
Qed.

Lemma last_device_id_member k records r :
  exact_key k = true -> In r records -> record_serial r = k ->
  exists v, last_device_id k records = Some v.
Proof.
  intros Hk. induction records as [|r0 records IH]; intros Hin Hr; [contradiction|].
  cbn [last_device_id].
  destruct (last_device_id k records) as [v|] eqn:E; [exists v; reflexivity|].
  destruct Hin as [-> | Hin].
  - rewrite Hr, key_eq_refl_exact by exact Hk. eexists. reflexivity.
  - destruct (IH Hin Hr) as [v Hv]. discriminate.
Qed.

(** C9. On a success result whose content holds [data.records], an array
    of record objects, [fetch_inverter_list] returns the mapping built from
    every record, each record's [sn] mapped to its [id], with [None] for a
    field that is missing; it raises nothing and leaves the client as it
    was.  Under a key that is a string or [None] the mapping holds the id
    of the last record filed under it, and every record filed under such a
    key is in the mapping. *)
Theorem inverter_list_mapping env plant (s : state) h c data records :
  _session (fst s) = Some h ->
  network env (posts (snd s)) = PostResp 200 (JsonOk c) ->
  py_getitem c "data" = Return data ->
  py_getitem data "records" = Return (JArr records) ->
  Forall (fun r => well_formed_record r = true) records ->
  (exists w, fetch_inverter_list env plant s
             = (Return (Some (directory records)), (fst s, w)))
  /\ (forall k, exact_key k = true ->
        dict_get k (directory records) = last_device_id k records)
  /\ (forall r, In r records -> exact_key (record_serial r) = true ->
        exists v, dict_get (record_serial r) (directory records) = Some v).
Proof.
  intros Hs Hn Hd Hr Hwf.
  assert (Hlookup : forall k, exact_key k = true ->
            dict_get k (directory records) = last_device_id k records).
  { intros k Hk. unfold directory. rewrite directory_lookup by exact Hk.
    destruct (last_device_id k records); reflexivity. }
  split; [|split].
  - destruct s as [a w]. cbn [fst snd] in *.
    rewrite fetch_inverter_list_unfold.
    destruct (post_success env "/v1/api/inveterList" (list_params plant)
                a w h _ Hs Hn) as (w1 & -> & _).
    cbn [SUCCESS CONTENT]. unfold directory_of_content.
    rewrite Hd. cbn [obind]. rewrite Hr. cbn [obind py_iter].
    rewrite (collect_records_fold records [] Hwf). exists w1. reflexivity.
  - exact Hlookup.
  - intros r Hin Hk. rewrite Hlookup by exact Hk.
    apply (last_device_id_member _ records r Hk Hin eq_refl).
Qed.

(** *** The normalised record *)

Lemma with_data_same (a : SoliscloudAPI) : with_data (_data a) a = a.
Proof. destruct a; reflexivity. Qed.

Lemma collect_rows_return jsondata rows : forall a w s',
  collect_rows jsondata rows (a, w) = (Return tt, s') ->
  exists d', collected jsondata rows (_data a) = Return d'
             /\ s' = (with_data d' a, w).
Proof.
  induction rows as [|[k r] rows IH]; intros a w s' H.
  - cbn in H. injection H as <-. exists (_data a). rewrite with_data_same. split; reflexivity.
  - cbn [collect_rows collected] in *. unfold row_value.
    unfold bind in H.
    destruct (row_key r) as [key|].
    + unfold lift in H. 
      destruct (_get_value jsondata key (row_type r) (row_precision r)) as [[v|]|e].
      * cbn [modify_self ret fst snd] in H. apply IH in H as (d' & Hd & ->).
        exists d'. split; [exact Hd | reflexivity].
      * cbn [ret fst snd] in H. apply IH in H as (d' & Hd & ->).
        exists d'. split; [exact Hd | reflexivity].
      * discriminate.
    + cbn [ret] in H. apply IH in H as (d' & Hd & ->).
      exists d'. split; [exact Hd | reflexivity].
Qed.

Lemma collected_lookup jsondata rows : forall d d',
  NoDup (List.map fst rows) ->
  collected jsondata rows d = Return d' ->
  (forall f r, In (f, r) rows ->
     d' !! f = match row_value jsondata r with
               | Return (Some v) => Some v
               | _ => d !! f
               end)
  /\ (forall f, ~ In f (List.map fst rows) -> d' !! f = d !! f).
Proof.
  induction rows as [|[k r] rows IH]; intros d d' Hnd H.
  - injection H as <-. split; [intros f r []|reflexivity].
  - cbn [List.map fst] in Hnd. apply NoDup_cons in Hnd as [Hk Hnd].
    cbn [collected] in H.
    assert (Hk' : ~ In k (List.map fst rows)).
    { intros Hin. apply Hk. apply list_elem_of_In. exact Hin. }
    destruct (row_value jsondata r) as [[v|]|e] eqn:Ev; [| |discriminate];
      destruct (IH _ _ Hnd H) as [IH1 IH2]; split.
    + intros f r' [E | Hin].
      * injection E as <- <-. rewrite Ev, IH2 by exact Hk'.
        apply lookup_insert_eq.
      * rewrite (IH1 f r' Hin).
        destruct (row_value jsondata r') as [[v'|]|]; [reflexivity| |];
          apply lookup_insert_ne; intros ->; apply Hk';
          apply (in_map fst _ _ Hin).
    + intros f Hf. rewrite IH2 by (intros Hin; apply Hf; right; exact Hin).
      apply lookup_insert_ne. intros ->. apply Hf. left. reflexivity.
    + intros f r' [E | Hin].
      * injection E as <- <-. rewrite Ev. apply IH2. exact Hk'.
      * apply (IH1 f r' Hin).
    + intros f Hf. apply IH2. intros Hin. apply Hf. right. exact Hin.
Qed.

Lemma table_fields_distinct : NoDup (List.map fst (INVERTER_DATA INVERTER_DETAIL)).
Proof. apply (bool_decide_unpack _). vm_compute. exact I. Qed.

Lemma purge_if_unused_pair c v (a : SoliscloudAPI) (w : world) :
  c <> v ->
  _purge_if_unused (VFloat 0) [c; v] (a, w)
  = (Return tt, (with_data (purge_phase c v (_data a)) a, w)).
Proof.
  intros Hcv. unfold _purge_if_unused, purge_phase, phase_unused, zero_reading, bind, get_self.
  cbn [fst snd all_equal].
  destruct (_data a !! c) as [x|] eqn:Ec; cbn [negb andb];
    [|unfold ret; rewrite with_data_same; reflexivity].
  destruct (value_eq x (VFloat 0)); cbn [negb andb];
    [|unfold ret; rewrite with_data_same; reflexivity].
  destruct (_data a !! v) as [y|] eqn:Ev; cbn [negb andb];
    [|unfold ret; rewrite with_data_same; reflexivity].
  destruct (value_eq y (VFloat 0)); cbn [negb andb];
    [|unfold ret; rewrite with_data_same; reflexivity].
  cbn [pop_all]. unfold bind, get_self, modify_self, ret. cbn [fst snd].
  rewrite Ec. cbn [fst snd with_data _data].
  rewrite lookup_delete_ne by exact Hcv. rewrite Ev. reflexivity.
Qed.

Lemma post_process_return (a : SoliscloudAPI) (w : world) s' :
  _post_process (a, w) = (Return tt, s') ->
  (_data a = ∅ /\ s' = (a, w))
  \/ exists raw f,
       _data a !! INVERTER_TIMESTAMP_UPDATE = Some raw
       /\ float_of_value raw = Return f
       /\ s' = (with_data (post_processed (_data a) f) a, w).
Proof.
  unfold _post_process, bind, get_self. cbn [fst snd].
  destruct (map_to_list (_data a)) as [|kv l] eqn:El.
  - intros H. injection H as <-. left. split; [|reflexivity].
    apply map_to_list_empty_iff. exact El.
  - destruct (_data a !! INVERTER_TIMESTAMP_UPDATE) as [raw|] eqn:Eraw;
      [|discriminate].
    cbn [ret lift]. destruct (float_of_value raw) as [f|] eqn:Ef; [|discriminate].
    cbn [modify_self fst snd].
    rewrite !purge_if_unused_pair by discriminate.
    intros H. injection H as <-. right. exists raw, f.
    split; [reflexivity|]. split; [exact Ef | reflexivity].
Qed.

Lemma post_process_completes (a : SoliscloudAPI) (w : world) raw f :
  _data a !! INVERTER_TIMESTAMP_UPDATE = Some raw ->
  float_of_value raw = Return f ->
  _post_process (a, w)
  = (Return tt, (with_data (post_processed (_data a) f) a, w)).
Proof.
  intros Hraw Hf. unfold _post_process, bind, get_self. cbn [fst snd].
  destruct (map_to_list (_data a)) as [|kv l] eqn:El.
  - apply map_to_list_empty_iff in El. rewrite El in Hraw.
    rewrite lookup_empty in Hraw. discriminate.
  - rewrite Hraw. cbn [ret lift]. rewrite Hf. cbn [modify_self fst snd].
    rewrite !purge_if_unused_pair by discriminate. reflexivity.
Qed.

Lemma purge_phase_lookup c v d k :
  purge_phase c v d !! k
  = if phase_unused d c v && (bool_decide (k = c) || bool_decide (k = v))
    then None else d !! k.
Proof.
  unfold purge_phase. destruct (phase_unused d c v); cbn [andb]; [|reflexivity].
  rewrite !lookup_delete.
  destruct (decide (v = k)) as [->|Hv].
  - rewrite (bool_decide_eq_true_2 (k = k)) by reflexivity.
    rewrite orb_true_r. reflexivity.
  - rewrite (bool_decide_eq_false_2 (k = v)) by congruence.
    rewrite orb_false_r.
    destruct (decide (c = k)) as [->|Hc].
    + rewrite (bool_decide_eq_true_2 (k = k)) by reflexivity. reflexivity.
    + rewrite (bool_decide_eq_false_2 (k = c)) by congruence. reflexivity.
Qed.

Lemma phase_unused_ext d d' c v :
  d' !! c = d !! c -> d' !! v = d !! v -> phase_unused d' c v = phase_unused d c v.
Proof. unfold phase_unused. intros -> ->. reflexivity. Qed.

Lemma phase_unused_purge c v c' v' d :
  c' <> c -> c' <> v -> v' <> c -> v' <> v ->
  phase_unused (purge_phase c v d) c' v' = phase_unused d c' v'.
Proof.
  intros H1 H2 H3 H4. apply phase_unused_ext; rewrite purge_phase_lookup;
    rewrite !bool_decide_eq_false_2 by assumption;
    rewrite andb_false_r; reflexivity.
Qed.

Lemma phase_unused_insert k x c v d :
  c <> k -> v <> k ->
  phase_unused (<[k := x]> d) c v = phase_unused d c v.
Proof.
  intros Hc Hv. apply phase_unused_ext; apply lookup_insert_ne; congruence.
Qed.

Lemma purge_phase_other c v d k :
  k <> c -> k <> v -> purge_phase c v d !! k = d !! k.
Proof.
  intros Hc Hv. rewrite purge_phase_lookup.
  rewrite !bool_decide_eq_false_2 by assumption.
  rewrite andb_false_r. reflexivity.
Qed.

Lemma purge_phase_own c v d :
  purge_phase c v d !! c = (if phase_unused d c v then None else d !! c)
  /\ purge_phase c v d !! v = (if phase_unused d c v then None else d !! v).
Proof.
  split; rewrite purge_phase_lookup;
    rewrite (bool_decide_eq_true_2 _ eq_refl);
    rewrite ?orb_true_r; cbn [orb]; rewrite andb_true_r; reflexivity.
Qed.

Lemma post_processed_phase d f c v :
  In (c, v) phases ->
  post_processed d f !! c = (if phase_unused d c v then None else d !! c)
  /\ post_processed d f !! v = (if phase_unused d c v then None else d !! v).
Proof.
  intros Hin. unfold post_processed.
  set (d0 := <[INVERTER_TIMESTAMP_UPDATE := VFloat (f / 1000)%float]> d).
  cbn [phases In] in Hin.
  destruct Hin as [E | [E | [E | []]]]; injection E as <- <-.
  - rewrite !(purge_phase_other PHASE3_CURRENT PHASE3_VOLTAGE) by discriminate.
    rewrite !(purge_phase_other PHASE2_CURRENT PHASE2_VOLTAGE) by discriminate.
    destruct (purge_phase_own PHASE1_CURRENT PHASE1_VOLTAGE d0) as [-> ->].
    subst d0. rewrite phase_unused_insert by discriminate.
    rewrite !lookup_insert_ne by discriminate. split; reflexivity.
  - rewrite !(purge_phase_other PHASE3_CURRENT PHASE3_VOLTAGE) by discriminate.
    destruct (purge_phase_own PHASE2_CURRENT PHASE2_VOLTAGE
                (purge_phase PHASE1_CURRENT PHASE1_VOLTAGE d0)) as [-> ->].
    rewrite phase_unused_purge by discriminate.
    rewrite !(purge_phase_other PHASE1_CURRENT PHASE1_VOLTAGE) by discriminate.
    subst d0. rewrite phase_unused_insert by discriminate.
    rewrite !lookup_insert_ne by discriminate. split; reflexivity.
  - destruct (purge_phase_own PHASE3_CURRENT PHASE3_VOLTAGE
                (purge_phase PHASE2_CURRENT PHASE2_VOLTAGE
                   (purge_phase PHASE1_CURRENT PHASE1_VOLTAGE d0))) as [-> ->].
    rewrite !phase_unused_purge by discriminate.
    rewrite !(purge_phase_other PHASE2_CURRENT PHASE2_VOLTAGE) by discriminate.
    rewrite !(purge_phase_other PHASE1_CURRENT PHASE1_VOLTAGE) by discriminate.
    subst d0. rewrite phase_unused_insert by discriminate.
    rewrite !lookup_insert_ne by discriminate. split; reflexivity.
Qed.

Lemma post_processed_timestamp d f :
  post_processed d f !! INVERTER_TIMESTAMP_UPDATE = Some (VFloat (f / 1000)%float).
Proof.
  unfold post_processed. rewrite !purge_phase_other by discriminate.
  apply lookup_insert_eq.
Qed.

(** *** A fetch, step by step *)

(** A payload that is not [None] is the decoded body of a 200 answer. *)
Lemma get_inverter_details_payload env device_id serial a w payload s1 :
  _get_inverter_details env device_id serial (a, w) = (Return payload, s1) ->
  payload <> JNull ->
  network env (posts w) = PostResp 200 (JsonOk payload)
  /\ exists w1, s1 = (a, w1).
Proof.
  unfold _get_inverter_details, bind. rewrite post_unfold. cbv zeta.
  cbn [fst snd]. intros H Hp.
  destruct (_session a) as [h|].
  - destruct (network env (posts w)) as [e msg|status [content|e msg]].
    + destruct (transport_error e); cbn [SUCCESS ret] in H; [|discriminate].
      injection H as <- _. contradiction.
    + destruct (Z.eqb_spec status 200) as [->|_];
        cbn [SUCCESS CONTENT content_of ret] in H.
      * injection H as <- <-. split; [reflexivity|]. eexists. reflexivity.
      * injection H as <- _. contradiction.
    + destruct (transport_error e); cbn [SUCCESS ret] in H; [|discriminate].
      injection H as <- _. contradiction.
  - cbn [result0 SUCCESS ret] in H. injection H as <- _. contradiction.
Qed.

(** Where the collection returns, it has walked the whole table. *)
Lemma collect_inverter_data_return payload a w s1 :
  _collect_inverter_data payload (a, w) = (Return tt, s1) ->
  exists jsondata d,
    py_getitem payload "data" = Return jsondata
    /\ collected jsondata (INVERTER_DATA INVERTER_DETAIL) (_data a) = Return d
    /\ s1 = (with_data d a, w).
Proof.
  unfold _collect_inverter_data, bind, lift. intros H.
  destruct (py_getitem payload "data") as [jsondata|]; [|discriminate].
  apply collect_rows_return in H as (d & Hd & ->).
  exists jsondata, d. split; [reflexivity|]. split; [exact Hd | reflexivity].
Qed.

(** The record a successful fetch returns. *)
Lemma fetch_inverter_data_record env serial (s : state) rec s' :
  fetch_inverter_data env serial s = (Return (Some rec), s') ->
  exists payload jsondata d,
    network env (posts (snd s)) = PostResp 200 (JsonOk payload)
    /\ py_getitem payload "data" = Return jsondata
    /\ collected jsondata (INVERTER_DATA INVERTER_DETAIL) ∅ = Return d
    /\ ((d = ∅ /\ rec = ∅)
        \/ exists raw f,
             d !! INVERTER_TIMESTAMP_UPDATE = Some raw
             /\ float_of_value raw = Return f
             /\ rec = post_processed d f).
Proof.
  destruct s as [a w]. unfold fetch_inverter_data.
  unfold bind at 1. cbn [modify_self fst snd].
  unfold bind at 1. cbn [get_self fst snd].
  change (is_online (with_data ∅ a)) with (is_online a).
  change (_inverter_list (with_data ∅ a)) with (_inverter_list a).
  destruct (is_online a); [|discriminate].
  destruct (_inverter_list a) as [inverters|]; [|discriminate].
  destruct (dict_get (JStr serial) inverters) as [device_id|]; [|discriminate].
  unfold bind at 1.
  destruct (_get_inverter_details env device_id serial (with_data ∅ a, w))
    as [[payload|e] s1] eqn:Ed; [|discriminate].
  intros H.
  assert (Hp : payload <> JNull) by (intros ->; discriminate).
  destruct (get_inverter_details_payload _ _ _ _ _ _ _ Ed Hp) as (Hn & w1 & ->).
  assert (H' : bind (_collect_inverter_data payload)
                 (fun _ => bind _post_process
                   (fun _ => bind get_self
                     (fun self => ret (Some (GinlongData (_data self))))))
                 (with_data ∅ a, w1) = (Return (Some rec), s')).
  { destruct payload; [contradiction| | | | | |]; exact H. }
  clear H. unfold bind at 1 in H'.
  destruct (_collect_inverter_data payload (with_data ∅ a, w1))
    as [[[]|e] s2] eqn:Ec; [|discriminate].
  apply collect_inverter_data_return in Ec as (jsondata & d & Hj & Hd & ->).
  unfold bind at 1 in H'.
  destruct (_post_process (with_data d (with_data ∅ a), w1))
    as [[[]|e] s3] eqn:Epp; [|discriminate].
  unfold bind, get_self, ret, GinlongData in H'. injection H' as <- <-.
  exists payload, jsondata, d. cbn [snd].
  split; [exact Hn|]. split; [exact Hj|]. split; [exact Hd|].
  apply post_process_return in Epp as [(He & ->) | (raw & f & Hr & Hf & ->)].
  - left. cbn [with_data _data fst] in *. split; [exact He | exact He].
  - right. exists raw, f. cbn [with_data _data fst] in *.
    split; [exact Hr|]. split; [exact Hf | reflexivity].
Qed.

(** Finds a literal row in the inverter table. *)
Ltac in_table :=
  unfold INVERTER_DATA; cbn [String.eqb Ascii.eqb Bool.eqb INVERTER_DETAIL];
  cbn [In]; repeat (first [left; reflexivity | right]).

(** What the collection stores under a field of the inverter table. *)
Lemma collected_field jsondata d f key t p :
  collected jsondata (INVERTER_DATA INVERTER_DETAIL) ∅ = Return d ->
  In (f, entry key t p) (INVERTER_DATA INVERTER_DETAIL) ->
  d !! f = match _get_value jsondata key t p with
           | Return (Some v) => Some v
           | _ => None
           end.
Proof.
  intros Hd Hin.
  destruct (collected_lookup _ _ _ _ table_fields_distinct Hd) as [H _].
  rewrite (H _ _ Hin). unfold row_value. cbn [row_key row_type row_precision entry].
  destruct (_get_value jsondata key t p) as [[v|]|]; try reflexivity;
    apply lookup_empty.
Qed.

(** C7. Where a detail fetch returns a record and the payload's
    [dataTimestamp] reads as the integer [ms], the record's update
    timestamp is the float of [ms] divided by 1000.  In particular
    1700000000000 converts exactly and gives 1700000000.0. *)
Theorem timestamp_in_seconds :
  (forall env serial (s : state) rec s' status payload jsondata raw ms,
     fetch_inverter_data env serial s = (Return (Some rec), s') ->
     network env (posts (snd s)) = PostResp status (JsonOk payload) ->
     py_getitem payload "data" = Return jsondata ->
     py_get jsondata "dataTimestamp" = Return raw ->
     py_int raw = Return ms ->
     exists f, float_of_int ms = Return f
               /\ rec !! INVERTER_TIMESTAMP_UPDATE = Some (VFloat (f / 1000)%float))
  /\ float_of_int 1700000000000 = Return 1700000000000%float
  /\ (1700000000000 / 1000)%float = 1700000000%float.
Proof.
  split; [|split; reflexivity].
  intros env serial s rec s' status payload jsondata raw ms Hf Hn Hj Hraw Hms.
  apply fetch_inverter_data_record in Hf
    as (payload' & jsondata' & d & Hn' & Hj' & Hd & Hrec).
  rewrite Hn in Hn'. injection Hn' as -> <-.
  rewrite Hj in Hj'. injection Hj' as <-.
  assert (Hts : d !! INVERTER_TIMESTAMP_UPDATE = Some (VInt ms)).
  { rewrite (collected_field _ _ _ "dataTimestamp" TInt None Hd)
      by in_table.
    unfold _get_value. rewrite Hraw. cbn [obind].
    destruct raw; try (rewrite Hms; reflexivity). discriminate. }
  destruct Hrec as [[-> _] | (raw' & f & Hr & Hfl & ->)].
  - rewrite lookup_empty in Hts. discriminate.
  - rewrite Hts in Hr. injection Hr as <-. cbn [float_of_value] in Hfl.
    exists f. split; [exact Hfl | apply post_processed_timestamp].
Qed.

(** A vendor reading of 0.0 is stored as 0.0. *)
Lemma zero_reading_collected jsondata key :
  py_get jsondata key = Return (JFloat 0) ->
  reading jsondata key = Return (Some (VFloat 0)).
Proof. unfold reading, _get_value. intros ->. reflexivity. Qed.

(** C3, as amended.  Where post-processing runs to its end, each AC phase
    is judged on its own two fields: when current and voltage are both in
    the record and both equal 0.0, both are removed; otherwise both are
    left as they were.  And where a detail fetch returns a record for a
    payload with [uAc2 = 0.0] and [iAc2 = 0.0] whose phase 1 and phase 3
    readings are still different from 0.0 once rounded to two decimals, the
    record has no phase 2 voltage or current and holds the rounded readings
    of phases 1 and 3. *)
Theorem unused_phases_purged :
  (forall (s s' : state) c v,
     _post_process s = (Return tt, s') ->
     In (c, v) phases ->
     let d := _data (fst s) in
     let d' := _data (fst s') in
     (phase_unused d c v = true -> d' !! c = None /\ d' !! v = None)
     /\ (phase_unused d c v = false -> d' !! c = d !! c /\ d' !! v = d !! v))
  /\ (forall env serial (s : state) rec s' status payload jsondata u1 i1 u3 i3,
        fetch_inverter_data env serial s = (Return (Some rec), s') ->
        network env (posts (snd s)) = PostResp status (JsonOk payload) ->
        py_getitem payload "data" = Return jsondata ->
        py_get jsondata "uAc2" = Return (JFloat 0) ->
        py_get jsondata "iAc2" = Return (JFloat 0) ->
        reading jsondata "uAc1" = Return (Some (VFloat u1)) ->
        reading jsondata "iAc1" = Return (Some (VFloat i1)) ->
        reading jsondata "uAc3" = Return (Some (VFloat u3)) ->
        reading jsondata "iAc3" = Return (Some (VFloat i3)) ->
        (u1 =? 0)%float = false -> (i1 =? 0)%float = false ->
        (u3 =? 0)%float = false -> (i3 =? 0)%float = false ->
        rec !! PHASE2_VOLTAGE = None /\ rec !! PHASE2_CURRENT = None
        /\ rec !! PHASE1_VOLTAGE = Some (VFloat u1)
        /\ rec !! PHASE1_CURRENT = Some (VFloat i1)
        /\ rec !! PHASE3_VOLTAGE = Some (VFloat u3)
        /\ rec !! PHASE3_CURRENT = Some (VFloat i3)).
Proof.
  split.
  - intros [a w] s' c v Hpp Hin. cbv zeta. cbn [fst].
    apply post_process_return in Hpp as [(He & ->) | (raw & f & _ & _ & ->)];
      cbn [fst with_data _data].
    + rewrite He. unfold phase_unused. rewrite !lookup_empty. cbn.
      split; [discriminate | split; reflexivity].
    + destruct (post_processed_phase (_data a) f c v Hin) as [Hc Hv].
      rewrite Hc, Hv.
      split; intros ->; split; reflexivity.
  - intros env serial s rec s' status payload jsondata u1 i1 u3 i3
      Hf Hn Hj Hu2 Hi2 Hu1 Hi1 Hu3 Hi3 Nu1 Ni1 Nu3 Ni3.
    apply fetch_inverter_data_record in Hf
      as (payload' & jsondata' & d & Hn' & Hj' & Hd & Hrec).
    rewrite Hn in Hn'. injection Hn' as -> <-.
    rewrite Hj in Hj'. injection Hj' as <-.
    apply zero_reading_collected in Hu2, Hi2. unfold reading in *.
    assert (D2v : d !! PHASE2_VOLTAGE = Some (VFloat 0)).
    { rewrite (collected_field _ _ _ "uAc2" TFloat (Some 2) Hd) by in_table.
      rewrite Hu2. reflexivity. }
    assert (D2c : d !! PHASE2_CURRENT = Some (VFloat 0)).
    { rewrite (collected_field _ _ _ "iAc2" TFloat (Some 2) Hd) by in_table.
      rewrite Hi2. reflexivity. }
    assert (D1v : d !! PHASE1_VOLTAGE = Some (VFloat u1)).
    { rewrite (collected_field _ _ _ "uAc1" TFloat (Some 2) Hd) by in_table.
      rewrite Hu1. reflexivity. }
    assert (D1c : d !! PHASE1_CURRENT = Some (VFloat i1)).
    { rewrite (collected_field _ _ _ "iAc1" TFloat (Some 2) Hd) by in_table.
      rewrite Hi1. reflexivity. }
    assert (D3v : d !! PHASE3_VOLTAGE = Some (VFloat u3)).
    { rewrite (collected_field _ _ _ "uAc3" TFloat (Some 2) Hd) by in_table.
      rewrite Hu3. reflexivity. }
    assert (D3c : d !! PHASE3_CURRENT = Some (VFloat i3)).
    { rewrite (collected_field _ _ _ "iAc3" TFloat (Some 2) Hd) by in_table.
      rewrite Hi3. reflexivity. }
    destruct Hrec as [[-> _] | (raw & f & _ & _ & ->)].
    { rewrite lookup_empty in D2v. discriminate. }
    destruct (post_processed_phase d f PHASE1_CURRENT PHASE1_VOLTAGE)
      as [-> ->]; [cbn; tauto|].
    destruct (post_processed_phase d f PHASE2_CURRENT PHASE2_VOLTAGE)
      as [-> ->]; [cbn; tauto|].
    destruct (post_processed_phase d f PHASE3_CURRENT PHASE3_VOLTAGE)
      as [-> ->]; [cbn; tauto|].
    unfold phase_unused. rewrite D1c, D1v, D2c, D2v, D3c, D3v.
    cbn [zero_reading value_eq]. rewrite Ni1, Ni3.
    cbn [andb]. repeat split; reflexivity.
Qed.

(** A vendor value that is missing or null leaves its field out of the
    record: nothing is stored in its place. *)
Lemma missing_values_are_omitted payload jsondata (s s1 : state) f key t p :
  _data (fst s) = ∅ ->
  py_getitem payload "data" = Return jsondata ->
  _collect_inverter_data payload s = (Return tt, s1) ->
  In (f, entry key t p) (INVERTER_DATA INVERTER_DETAIL) ->
  py_get jsondata key = Return JNull ->
  _data (fst s1) !! f = None.
Proof.
  destruct s as [a w]. cbn [fst]. intros He Hj Hc Hin Hk.
  apply collect_inverter_data_return in Hc as (jsondata' & d & Hj' & Hd & ->).
  rewrite Hj in Hj'. injection Hj' as <-. rewrite He in Hd.
  cbn [fst with_data _data].
  rewrite (collected_field _ _ _ key t p Hd Hin).
  unfold _get_value. rewrite Hk. reflexivity.
Qed.

(** A record that holds something but no update timestamp makes
    post-processing raise, the record left as it was. *)
Lemma missing_timestamp_key_error (s : state) :
  _data (fst s) <> ∅ ->
  _data (fst s) !! INVERTER_TIMESTAMP_UPDATE = None ->
  _post_process s = (Raise KeyError, s).
Proof.
  destruct s as [a w]. cbn [fst]. intros Hne Hts.
  unfold _post_process, bind, get_self. cbn [fst snd].
  destruct (map_to_list (_data a)) as [|kv l] eqn:El.
  - apply map_to_list_empty_iff in El. contradiction.
  - rewrite Hts. reflexivity.
Qed.

(** C2, at the failing input.  For a payload that holds only [sn], the
    collection returns and stores the serial alone (the missing values are
    omitted, not zero-filled); post-processing then looks up the update
    timestamp, which is not there, and [KeyError] leaves
    [fetch_inverter_data]. *)
Theorem missing_timestamp_raises :
  let payload := JObj [("data", JObj no_timestamp_payload)] in
  let env := always (detail_answer no_timestamp_payload) in
  let collect := _collect_inverter_data payload logged_in in
  fst collect = Return tt
  /\ map_to_list (_data (fst (snd collect))) = [(INVERTER_SERIAL, VStr "SN1")]
  /\ fst (_post_process (snd collect)) = Raise KeyError
  /\ fst (fetch_inverter_data env "SN1" logged_in) = Raise KeyError.
Proof.
  cbv zeta. repeat split; vm_compute; reflexivity.
Qed.

(** C3, as stated, fails here: [uAc2] and [iAc2] are 0.0, every other
    phase reading of the payload differs from 0.0, and a record is
    returned; yet it holds neither voltage nor current of phase 1, because
    0.004 and 0.003 are rounded to two decimals before the purge. *)
Lemma faint_phase_is_purged :
  let env := always (detail_answer faint_phase_payload) in
  let out := fetch_inverter_data env "SN1" logged_in in
  assoc "uAc1" faint_phase_payload = Some (JFloat 0.004)
  /\ assoc "iAc1" faint_phase_payload = Some (JFloat 0.003)
  /\ (0.004 =? 0)%float = false /\ (0.003 =? 0)%float = false
  /\ fst out = Return (Some (fetched out))
  /\ fetched out !! PHASE2_VOLTAGE = None
  /\ fetched out !! PHASE2_CURRENT = None
  /\ fetched out !! PHASE3_VOLTAGE = Some (VFloat 230.1)
  /\ fetched out !! PHASE3_CURRENT = Some (VFloat 1.5)
  /\ fetched out !! PHASE1_VOLTAGE = None
  /\ fetched out !! PHASE1_CURRENT = None.
Proof.
  cbv zeta. repeat split; vm_compute; reflexivity.
Qed.

(** C6, as stated, fails here: the answer has status 500 and a body that
    is not JSON, so that [resp.json()] raises a [ValueError]; the helper
    does not capture it and the caller gets the exception, not a failure
    result. *)
Lemma undecodable_body_raises :
  fst (_post_data_json (always undecodable) INVERTER_DETAIL (JObj []) logged_in)
  = Raise ValueError.
Proof. rewrite post_unfold. reflexivity. Qed.

(** C6, as amended, holds at a concrete portal. *)
Lemma post_failure_results_witness :
  _post_data_json (always unavailable) INVERTER_DETAIL (JObj []) not_logged_in
  = (Return result0, (fst not_logged_in, tick (snd not_logged_in)))
  /\ (exists r w,
        _post_data_json (always unavailable) INVERTER_DETAIL (JObj []) logged_in
        = (Return r, (fst logged_in, w))
        /\ SUCCESS r = false /\ STATUS_CODE r = Some 503
        /\ MESSAGE r = Some ("Got http statuscode: " ++ str_of_int 503))
  /\ (exists w,
        _post_data_json (always timed_out) INVERTER_DETAIL (JObj []) logged_in
        = (Return {| SUCCESS := false; MESSAGE := Some "timed out";
                     STATUS_CODE := None; CONTENT := None |},
           (fst logged_in, w)))
  /\ (exists w,
        _post_data_json (always undecodable) INVERTER_DETAIL (JObj []) logged_in
        = (Raise ValueError, (fst logged_in, w))).
Proof.
  split; [|split; [|split]].
  - apply (proj1 (post_failure_results (always unavailable) INVERTER_DETAIL
                    (JObj []) not_logged_in)).
    reflexivity.
  - apply (proj1 (proj2 (post_failure_results (always unavailable)
                           INVERTER_DETAIL (JObj []) logged_in))
             demo_session 503 (JsonOk JNull));
      [reflexivity | reflexivity | discriminate | exact I].
  - apply (proj1 (proj2 (proj2 (post_failure_results (always timed_out)
                                  INVERTER_DETAIL (JObj []) logged_in)))
             demo_session TimeoutError "timed out"); reflexivity.
  - apply (proj2 (proj2 (proj2 (post_failure_results (always undecodable)
                                  INVERTER_DETAIL (JObj []) logged_in)))
             demo_session 500 ValueError "Expecting value"); reflexivity.
Defined.

(** C5 holds at a concrete portal. *)
Lemma fetch_unknown_serial_witness :
  fetch_inverter_data (always unavailable) "SN1" not_logged_in
  = (Return None, (with_data ∅ (fst not_logged_in), snd not_logged_in))
  /\ fetch_inverter_data (always unavailable) "SN9" logged_in
     = (Return None, (with_data ∅ (fst logged_in), snd logged_in)).
Proof.
  split.
  - apply (fetch_unknown_serial (always unavailable) "SN1" not_logged_in).
    left. reflexivity.
  - apply (fetch_unknown_serial (always unavailable) "SN9" logged_in).
    right. right. exists [(JStr "SN1", JStr "D1")]. split; reflexivity.
Defined.

(** C4 holds at a concrete portal. *)
Lemma failed_list_fetch_logs_out_witness :
  fetch_inverter_list (always unavailable) "P1" logged_in
  = (Return None,
     (with_user_id JNull (fst logged_in),
      snd (snd (_post_data_json (always unavailable) "/v1/api/inveterList"
                  (list_params "P1") logged_in))))
  /\ exists w,
       login (scripted [login_answer] unavailable) demo_session not_logged_in
       = (Return false, (login_failed demo_session (fst not_logged_in), w)).
Proof.
  split.
  - apply (proj1 (failed_list_fetch_logs_out (always unavailable) logged_in)
             "P1"
             {| SUCCESS := false;
                MESSAGE := Some ("Got http statuscode: " ++ str_of_int 503);
                STATUS_CODE := Some 503; CONTENT := Some JNull |}
             (fst logged_in,
              snd (snd (_post_data_json (always unavailable)
                          "/v1/api/inveterList" (list_params "P1") logged_in))));
      [vm_compute; reflexivity | reflexivity].
  - apply (proj2 (failed_list_fetch_logs_out (scripted [login_answer] unavailable)
                    not_logged_in)
             demo_session (JObj [("data", JObj [("userId", JInt 42)])])
             (JObj [("userId", JInt 42)]) (JInt 42)); reflexivity.
Defined.

(** C10 holds at a concrete portal. *)
Lemma missing_records_key_error_witness :
  (exists w, fetch_inverter_list (always empty_answer) "P1" logged_in
             = (Raise KeyError, (fst logged_in, w)))
  /\ exists w,
       login (scripted [login_answer] empty_answer) demo_session not_logged_in
       = (Return false, (login_failed demo_session (fst not_logged_in), w)).
Proof.
  split.
  - apply (proj1 (missing_records_key_error (always empty_answer) logged_in)
             "P1" demo_session []); [reflexivity | reflexivity |].
    left. reflexivity.
  - apply (proj2 (missing_records_key_error
                    (scripted [login_answer] empty_answer) not_logged_in)
             demo_session (JObj [("data", JObj [("userId", JInt 42)])])
             (JObj [("userId", JInt 42)]) (JInt 42) []);
      [reflexivity | reflexivity | reflexivity | reflexivity |].
    left. reflexivity.
Defined.

(** C9 holds at a concrete portal. *)
Lemma inverter_list_mapping_witness :
  (exists w, fetch_inverter_list (always list_answer) "P1" logged_in
             = (Return (Some (directory demo_records)), (fst logged_in, w)))
  /\ (forall k, exact_key k = true ->
        dict_get k (directory demo_records) = last_device_id k demo_records)
  /\ (forall r, In r demo_records -> exact_key (record_serial r) = true ->
        exists v, dict_get (record_serial r) (directory demo_records) = Some v).
Proof.
  apply (inverter_list_mapping (always list_answer) "P1" logged_in demo_session
           (JObj [("data", JObj [("records", JArr demo_records)])])
           (JObj [("records", JArr demo_records)]) demo_records);
    [reflexivity | reflexivity | reflexivity | reflexivity |].
  repeat constructor.
Defined.

(** The directory of the three records: the later id under the repeated
    serial, and the record without serial under [None]. *)
Lemma demo_directory :
  directory demo_records = [(JStr "SN1", JStr "D3"); (JNull, JStr "D2")].
Proof. reflexivity. Qed.

(** C7 holds at a concrete portal. *)
Lemma timestamp_in_seconds_witness :
  let out := fetch_inverter_data (always (detail_answer two_phase_payload))
               "SN1" logged_in in
  exists f, float_of_int 1700000000000 = Return f
            /\ fetched out !! INVERTER_TIMESTAMP_UPDATE
               = Some (VFloat (f / 1000)%float).
Proof.
  cbv zeta.
  apply (proj1 timestamp_in_seconds
           (always (detail_answer two_phase_payload)) "SN1" logged_in
           (fetched (fetch_inverter_data
                       (always (detail_answer two_phase_payload))
                       "SN1" logged_in))
           (snd (fetch_inverter_data
                   (always (detail_answer two_phase_payload)) "SN1" logged_in))
           200 (JObj [("data", JObj two_phase_payload)])
           (JObj two_phase_payload) (JInt 1700000000000) 1700000000000);
    vm_compute; reflexivity.
Defined.

(** C3 holds at a concrete portal. *)
Lemma unused_phases_purged_witness :
  let collect := snd (_collect_inverter_data
                        (JObj [("data", JObj two_phase_payload)]) logged_in) in
  let out := fetch_inverter_data (always (detail_answer two_phase_payload))
               "SN1" logged_in in
  (_data (fst (snd (_post_process collect))) !! PHASE2_CURRENT = None
   /\ _data (fst (snd (_post_process collect))) !! PHASE2_VOLTAGE = None)
  /\ (fetched out !! PHASE2_VOLTAGE = None
      /\ fetched out !! PHASE2_CURRENT = None
      /\ fetched out !! PHASE1_VOLTAGE = Some (VFloat 230.1)
      /\ fetched out !! PHASE1_CURRENT = Some (VFloat 1.5)
      /\ fetched out !! PHASE3_VOLTAGE = Some (VFloat 229.8)
      /\ fetched out !! PHASE3_CURRENT = Some (VFloat 1.4)).
Proof.
  cbv zeta. split.
  - apply (proj1 (proj1 unused_phases_purged
                    (snd (_collect_inverter_data
                            (JObj [("data", JObj two_phase_payload)]) logged_in))
                    (snd (_post_process
                            (snd (_collect_inverter_data
                                    (JObj [("data", JObj two_phase_payload)])
                                    logged_in))))
                    PHASE2_CURRENT PHASE2_VOLTAGE
                    ltac:(vm_compute; reflexivity)
                    ltac:(right; left; reflexivity))).
    vm_compute. reflexivity.
  - apply (proj2 unused_phases_purged
             (always (detail_answer two_phase_payload)) "SN1" logged_in
             (fetched (fetch_inverter_data
                         (always (detail_answer two_phase_payload))
                         "SN1" logged_in))
             (snd (fetch_inverter_data
                     (always (detail_answer two_phase_payload)) "SN1" logged_in))
             200 (JObj [("data", JObj two_phase_payload)])
             (JObj two_phase_payload) 230.1%float 1.5%float 229.8%float
             1.4%float);
      vm_compute; reflexivity.
Defined.

(** *** Further properties: transport, session, fetch and record *)

(** X1. A result of the signed POST that counts as a success is the one
    built from an answer with status 200 whose body was decoded: it holds
    that body as its content, status code 200 and the message OK, and the
    client had a session handle.  Reading the content of such a result, as
    the callers do, cannot fail. *)
Theorem post_success_result env resource params (s s' : state) r :
  _post_data_json env resource params s = (Return r, s') ->
  SUCCESS r = true ->
  exists h c,
    _session (fst s) = Some h
    /\ network env (posts (snd s)) = PostResp 200 (JsonOk c)
    /\ r = {| SUCCESS := true; MESSAGE := Some "OK";
              STATUS_CODE := Some 200; CONTENT := Some c |}
    /\ content_of r s' = (Return c, s').
Proof.
  rewrite post_unfold. cbv zeta. intros H Hs.
  destruct (_session (fst s)) as [h|].
  - destruct (network env (posts (snd s))) as [e msg|status [c|e msg]].
    + destruct (transport_error e); [|discriminate].
      injection H as <- _. discriminate.
    + destruct (Z.eqb_spec status 200) as [->|_].
      * injection H as <- <-. exists h, c. repeat split; reflexivity.
      * injection H as <- _. discriminate.
    + destruct (transport_error e); [|discriminate].
      injection H as <- _. discriminate.
  - injection H as <- _. discriminate.
Qed.

(** X2. Whatever the answer, the signed POST leaves the client as it was
    and reads the clock once.  Without a session handle nothing is sent.
    With one, exactly one request goes out, to the portal's domain over
    https, and the response is released exactly when there is one, after
    the request: on a success, on a failure result and also when decoding
    the body raises; a request that itself raised leaves nothing to
    release. *)
Theorem post_releases_response env resource params (s : state) :
  let out := _post_data_json env resource params s in
  fst (snd out) = fst s
  /\ clock_reads (snd (snd out)) = S (clock_reads (snd s))
  /\ match _session (fst s) with
     | None =>
         posts (snd (snd out)) = posts (snd s)
         /\ trace (snd (snd out)) = trace (snd s)
     | Some h =>
         posts (snd (snd out)) = S (posts (snd s))
         /\ exists headers,
              trace (snd (snd out))
              = List.app (trace (snd s))
                  (post_events h
                     ("https://" ++ domain (_config (fst s)) ++ resource)
                     (dumps params) headers (network env (posts (snd s))))
     end.
Proof.
  cbv zeta. rewrite post_unfold. cbv zeta.
  destruct (_session (fst s)) as [h|].
  - destruct (network env (posts (snd s))) as [e msg|status [c|e msg]];
      unfold post_events.
    + destruct (transport_error e); cbn [fst snd tick sent clock_reads posts trace];
        (split; [reflexivity|]; split; [reflexivity|]; split; [reflexivity|];
         eexists; reflexivity).
    + destruct (status =? 200);
        cbn [fst snd tick sent logged clock_reads posts trace];
        (split; [reflexivity|]; split; [reflexivity|]; split; [reflexivity|];
         eexists; rewrite <- app_assoc; reflexivity).
    + destruct (transport_error e);
        cbn [fst snd tick sent logged clock_reads posts trace];
        (split; [reflexivity|]; split; [reflexivity|]; split; [reflexivity|];
         eexists; rewrite <- app_assoc; reflexivity).
  - cbn [fst snd tick clock_reads posts trace]. repeat split; reflexivity.
Qed.

(** X1 holds at a concrete portal. *)
Lemma post_success_result_witness :
  exists h c,
    _session (fst logged_in) = Some h
    /\ network (always login_answer) (posts (snd logged_in))
       = PostResp 200 (JsonOk c)
    /\ {| SUCCESS := true; MESSAGE := Some "OK";
          STATUS_CODE := Some 200;
          CONTENT := Some (JObj [("data", JObj [("userId", JInt 42)])]) |}
       = {| SUCCESS := true; MESSAGE := Some "OK";
            STATUS_CODE := Some 200; CONTENT := Some c |}
    /\ content_of
         {| SUCCESS := true; MESSAGE := Some "OK";
            STATUS_CODE := Some 200;
            CONTENT := Some (JObj [("data", JObj [("userId", JInt 42)])]) |}
         (snd (_post_data_json (always login_answer) "/v1/api/addUser"
                 (login_params "user") logged_in))
       = (Return c,
          snd (_post_data_json (always login_answer) "/v1/api/addUser"
                 (login_params "user") logged_in)).
Proof.
  apply (post_success_result (always login_answer) "/v1/api/addUser"
           (login_params "user") logged_in
           (snd (_post_data_json (always login_answer) "/v1/api/addUser"
                   (login_params "user") logged_in))
           {| SUCCESS := true; MESSAGE := Some "OK";
              STATUS_CODE := Some 200;
              CONTENT := Some (JObj [("data", JObj [("userId", JInt 42)])]) |});
    [rewrite post_unfold; reflexivity | reflexivity].
Defined.

(** With a session handle the signed POST sends one request and makes its
    result of the answer. *)
Lemma post_with_session env resource params (a : SoliscloudAPI) (w : world) h :
  _session a = Some h ->
  exists w',
    _post_data_json env resource params (a, w)
    = (post_result (network env (posts w)), (a, w'))
    /\ posts w' = S (posts w).
Proof.
  intros Hs. rewrite post_unfold. cbv zeta. cbn [fst snd]. rewrite Hs.
  destruct (network env (posts w)) as [e msg|status [c|e msg]];
    cbn [post_result].
  - destruct (transport_error e); eexists; split; reflexivity.
  - destruct (status =? 200); eexists; split; reflexivity.
  - destruct (transport_error e); eexists; split; reflexivity.
Qed.

Lemma post_result_success o r :
  post_result o = Return r -> SUCCESS r = true ->
  exists c, o = PostResp 200 (JsonOk c)
            /\ r = {| SUCCESS := true; MESSAGE := Some "OK";
                      STATUS_CODE := Some 200; CONTENT := Some c |}.
Proof.
  destruct o as [e msg|status [c|e msg]]; cbn [post_result].
  - destruct (transport_error e); [|discriminate].
    intros [= <-]. discriminate.
  - destruct (Z.eqb_spec status 200) as [->|_]; intros [= <-]; [|discriminate].
    intros _. exists c. split; reflexivity.
  - destruct (transport_error e); [|discriminate].
    intros [= <-]. discriminate.
Qed.

Lemma post_result_failure o :
  failure_outcome o = true ->
  exists r, post_result o = Return r /\ SUCCESS r = false.
Proof.
  destruct o as [e msg|status [c|e msg]]; cbn [post_result failure_outcome].
  - intros ->. eexists. split; reflexivity.
  - destruct (status =? 200); [discriminate|].
    intros _. eexists. split; reflexivity.
  - intros ->. eexists. split; reflexivity.
Qed.

(** The list fetch, given the outcome of its request. *)
Lemma fetch_inverter_list_with_session env plant (a : SoliscloudAPI) (w : world) h :
  _session a = Some h ->
  exists w',
    posts w' = S (posts w)
    /\ fetch_inverter_list env plant (a, w)
       = match post_result (network env (posts w)) with
         | Return r =>
             if SUCCESS r then
               match CONTENT r with
               | Some c => (directory_of_content c, (a, w'))
               | None => (Raise KeyError, (a, w'))
               end
             else (Return None, (with_user_id JNull a, w'))
         | Raise e => (Raise e, (a, w'))
         end.
Proof.
  intros Hs. rewrite fetch_inverter_list_unfold.
  destruct (post_with_session env "/v1/api/inveterList" (list_params plant)
              a w h Hs) as (w' & -> & Hp).
  exists w'. split; [exact Hp|].
  destruct (post_result (network env (posts w))) as [r|e]; reflexivity.
Qed.

Lemma directory_of_content_some c x :
  directory_of_content c = Return x -> exists inverters, x = Some inverters.
Proof.
  unfold directory_of_content.
  destruct (py_getitem c "data") as [d|]; [|discriminate]. cbn [obind].
  destruct (py_getitem d "records") as [r|]; [|discriminate]. cbn [obind].
  destruct (py_iter r) as [l|]; [|discriminate]. cbn [obind].
  destruct (collect_records l []) as [ids|]; [|discriminate]. cbn [obind].
  intros [= <-]. exists ids. reflexivity.
Qed.

(** X3. When [login] returns true, both of its requests were answered with
    status 200 and a decoded body: the first answer held a user id that is
    not null under [data.userId], the second gave the inverter directory.
    The client then holds the session handle, that user id and that
    directory, configuration and record being untouched, and exactly two
    requests went out. *)
Theorem login_success env session (s s' : state) :
  login env session s = (Return true, s') ->
  exists c user_id c2 inverters,
    network env (posts (snd s)) = PostResp 200 (JsonOk c)
    /\ user_id_of_content c = Return user_id
    /\ user_id <> JNull
    /\ network env (S (posts (snd s))) = PostResp 200 (JsonOk c2)
    /\ directory_of_content c2 = Return (Some inverters)
    /\ fst s' = client (_config (fst s)) (Some session) user_id
                  (_data (fst s)) (Some inverters)
    /\ is_online (fst s') = true
    /\ posts (snd s') = S (S (posts (snd s))).
Proof.
  destruct s as [a w]. rewrite login_unfold. cbv zeta. cbn [fst snd].
  set (a0 := with_inverter_list None (with_session (Some session) a)).
  destruct (post_with_session env "/v1/api/addUser"
              (login_params (username (_config a))) a0 w session eq_refl)
    as (w1 & -> & Hp1).
  destruct (post_result (network env (posts w))) as [r|e] eqn:Er;
    [|discriminate].
  destruct (SUCCESS r) eqn:Hs; [|discriminate].
  apply post_result_success in Er as (c & Hn & ->); [|exact Hs].
  cbn [CONTENT fst snd].
  fold (user_id_of_content c).
  destruct (user_id_of_content c) as [user_id|e] eqn:Eu.
  2:{ destruct (key_error e); discriminate. }
  destruct (fetch_inverter_list_with_session env (plantid (_config a))
              (with_user_id user_id a0) w1 session eq_refl)
    as (w2 & Hp2 & ->).
  rewrite Hp1.
  destruct (post_result (network env (S (posts w)))) as [r2|e] eqn:Er2.
  2:{ destruct (key_error e); discriminate. }
  destruct (SUCCESS r2) eqn:Hs2.
  2:{ cbn [fst snd is_online with_user_id _user_id]. discriminate. }
  apply post_result_success in Er2 as (c2 & Hn2 & ->); [|exact Hs2].
  cbn [CONTENT].
  destruct (directory_of_content c2) as [l|e] eqn:Ed; cbn [fst snd].
  2:{ destruct (key_error e); discriminate. }
  destruct (directory_of_content_some _ _ Ed) as (inverters & ->).
  intros H. injection H as Hon <-.
  exists c, user_id, c2, inverters. cbn [fst snd].
  split; [exact Hn|]. split; [exact Eu|].
  split.
  { intros ->. discriminate. }
  split; [exact Hn2|]. split; [exact Ed|].
  split; [reflexivity|]. split; [exact Hon|].
  rewrite Hp2, Hp1. reflexivity.
Qed.

(** X4. When both requests of [login] are answered with status 200, the
    first with a user id under [data.userId] and the second with an
    inverter directory, [login] stores the session handle, the user id and
    the directory, and returns whether the user id is not null.  A user id
    that is JSON null therefore gives false although the list request went
    out and its directory has been stored. *)
Theorem login_stores_directory env session (s : state) c user_id c2 inverters :
  network env (posts (snd s)) = PostResp 200 (JsonOk c) ->
  user_id_of_content c = Return user_id ->
  network env (S (posts (snd s))) = PostResp 200 (JsonOk c2) ->
  directory_of_content c2 = Return inverters ->
  exists w,
    login env session s
    = (Return (match user_id with JNull => false | _ => true end),
       (client (_config (fst s)) (Some session) user_id (_data (fst s))
          inverters, w))
    /\ posts w = S (S (posts (snd s))).
Proof.
  destruct s as [a w]. cbn [fst snd]. intros Hn Hu Hn2 Hd.
  rewrite login_unfold. cbv zeta. cbn [fst snd].
  set (a0 := with_inverter_list None (with_session (Some session) a)).
  destruct (post_with_session env "/v1/api/addUser"
              (login_params (username (_config a))) a0 w session eq_refl)
    as (w1 & -> & Hp1).
  rewrite Hn. cbn [post_result Z.eqb Pos.eqb SUCCESS CONTENT fst snd].
  fold (user_id_of_content c). rewrite Hu.
  destruct (fetch_inverter_list_with_session env (plantid (_config a))
              (with_user_id user_id a0) w1 session eq_refl)
    as (w2 & Hp2 & ->).
  rewrite Hp1, Hn2. cbn [post_result Z.eqb Pos.eqb SUCCESS CONTENT].
  rewrite Hd. cbn [fst snd].
  exists w2. split; [reflexivity|]. rewrite Hp2, Hp1. reflexivity.
Qed.

(** X5. When the first request of [login] is answered with status 200 but
    reading [data.userId] in the body raises anything but [KeyError] (the
    body, or its [data], is not an object: [TypeError]), the handler of
    [login] does not apply and the exception reaches the caller.  The
    session handle has been stored and the directory cleared, but the user
    id is the one the client had before: a client that was online still
    reports online. *)
Theorem login_type_error env session (s : state) c e :
  network env (posts (snd s)) = PostResp 200 (JsonOk c) ->
  user_id_of_content c = Raise e ->
  e <> KeyError ->
  exists w,
    login env session s
    = (Raise e,
       (client (_config (fst s)) (Some session) (_user_id (fst s))
          (_data (fst s)) None, w))
    /\ is_online (fst (snd (login env session s))) = is_online (fst s)
    /\ posts w = S (posts (snd s)).
Proof.
  destruct s as [a w]. cbn [fst snd]. intros Hn Hu He.
  rewrite login_unfold. cbv zeta. cbn [fst snd].
  set (a0 := with_inverter_list None (with_session (Some session) a)).
  destruct (post_with_session env "/v1/api/addUser"
              (login_params (username (_config a))) a0 w session eq_refl)
    as (w1 & -> & Hp1).
  rewrite Hn. cbn [post_result Z.eqb Pos.eqb SUCCESS CONTENT fst snd].
  fold (user_id_of_content c). rewrite Hu.
  assert (Hk : key_error e = false) by (destruct e; try reflexivity; contradiction).
  rewrite Hk. exists w1. split; [reflexivity|].
  split; [reflexivity | exact Hp1].
Qed.

(** X6. When the first request of [login] fails (a timeout, a transport
    error or a status other than 200), or is answered with status 200 by a
    body that lacks [data] or [data.userId] ([KeyError]), [login] returns
    false and raises nothing: the session handle is stored, user id and
    directory are cleared, and the list request is never sent. *)
Theorem login_rejected env session (s : state) :
  failure_outcome (network env (posts (snd s))) = true
  \/ (exists c, network env (posts (snd s)) = PostResp 200 (JsonOk c)
                /\ user_id_of_content c = Raise KeyError) ->
  exists w,
    login env session s = (Return false, (login_failed session (fst s), w))
    /\ posts w = S (posts (snd s)).
Proof.
  destruct s as [a w]. cbn [fst snd]. intros H.
  rewrite login_unfold. cbv zeta. cbn [fst snd].
  set (a0 := with_inverter_list None (with_session (Some session) a)).
  destruct (post_with_session env "/v1/api/addUser"
              (login_params (username (_config a))) a0 w session eq_refl)
    as (w1 & -> & Hp1).
  exists w1. split; [|exact Hp1].
  destruct H as [Hf | (c & Hn & Hu)].
  - apply post_result_failure in Hf as (r & -> & ->). reflexivity.
  - rewrite Hn. cbn [post_result Z.eqb Pos.eqb SUCCESS CONTENT fst snd].
    fold (user_id_of_content c). rewrite Hu. reflexivity.
Qed.

(** What the list fetch does to the client. *)
Lemma fetch_inverter_list_state env plant (s : state) :
  match fst (fetch_inverter_list env plant s) with
  | Return None =>
      fst (snd (fetch_inverter_list env plant s)) = with_user_id JNull (fst s)
  | _ => fst (snd (fetch_inverter_list env plant s)) = fst s
  end.
Proof.
  rewrite fetch_inverter_list_unfold.
  pose proof (preserves_post (fun a => a) env "/v1/api/inveterList"
                (list_params plant) s) as Hp.
  destruct (_post_data_json env "/v1/api/inveterList" (list_params plant) s)
    as [[r|e] [a1 w1]]; cbn [fst snd] in Hp; subst a1.
  - destruct (SUCCESS r); [|reflexivity].
    destruct (CONTENT r) as [c|]; [|reflexivity].
    destruct (directory_of_content c) as [l|e] eqn:Ed; [|reflexivity].
    destruct (directory_of_content_some _ _ Ed) as (inverters & ->).
    reflexivity.
  - reflexivity.
Qed.

(** X7. [fetch_inverter_list] never touches the configuration, the session
    handle, the record or the stored directory: it returns the directory
    it built and leaves storing it to its caller.  Where it returns a
    directory, and where it raises, the client is exactly as before; where
    it returns [None] the user id, and nothing else, has been cleared. *)
Theorem fetch_inverter_list_frame env plant (s : state) :
  let out := fetch_inverter_list env plant s in
  let a' := fst (snd out) in
  _config a' = _config (fst s)
  /\ _session a' = _session (fst s)
  /\ _data a' = _data (fst s)
  /\ _inverter_list a' = _inverter_list (fst s)
  /\ a' = match fst out with
          | Return None => with_user_id JNull (fst s)
          | _ => fst s
          end.
Proof.
  cbv zeta. pose proof (fetch_inverter_list_state env plant s) as H.
  destruct (fst (fetch_inverter_list env plant s)) as [[l|]|e];
    rewrite H; repeat split; reflexivity.
Qed.

(** X8. [logout] twice is [logout] once: the second call finds no session
    handle, closes nothing and changes nothing.  After a [logout], whatever
    came before, a detail fetch for any serial returns [None] without a
    request, and the signed POST itself gives up before sending. *)
Theorem logout_is_final env (s : state) :
  let s1 := snd (logout s) in
  logout s1 = (Return tt, s1)
  /\ (forall serial,
        fetch_inverter_data env serial s1
        = (Return None, (with_data ∅ (fst s1), snd s1)))
  /\ (forall resource params,
        fst (_post_data_json env resource params s1) = Return result0
        /\ trace (snd (snd (_post_data_json env resource params s1)))
           = trace (snd s1)).
Proof.
  cbv zeta. destruct (logout s) as [o s1] eqn:El.
  rewrite logout_unfold in El. injection El as _ <-. cbn [snd].
  split; [|split].
  - rewrite logout_unfold. reflexivity.
  - intros serial. reflexivity.
  - intros resource params. rewrite post_unfold. split; reflexivity.
Qed.

(** The signed POST with a session handle, trace included. *)
Lemma post_with_session_trace env resource params (a : SoliscloudAPI)
    (w : world) h :
  _session a = Some h ->
  exists w',
    _post_data_json env resource params (a, w)
    = (post_result (network env (posts w)), (a, w'))
    /\ posts w' = S (posts w)
    /\ trace w'
       = List.app (trace w)
           (post_events h ("https://" ++ domain (_config a) ++ resource)
              (dumps params)
              (prepare_header_at (_config a) (clock env (clock_reads w))
                 params resource)
              (network env (posts w))).
Proof.
  intros Hs. rewrite post_unfold. cbv zeta. cbn [fst snd]. rewrite Hs.
  destruct (network env (posts w)) as [e msg|status [c|e msg]];
    cbn [post_result post_events].
  - destruct (transport_error e); eexists; repeat split; reflexivity.
  - destruct (status =? 200); eexists; (split; [reflexivity|]);
      (split; [reflexivity|]);
      cbn [trace logged sent tick]; rewrite <- app_assoc; reflexivity.
  - destruct (transport_error e); eexists; (split; [reflexivity|]);
      (split; [reflexivity|]);
      cbn [trace logged sent tick]; rewrite <- app_assoc; reflexivity.
Qed.

(** The walk over the rows, whether it returns or raises: the world is
    left alone and only the record changes. *)
Lemma collect_rows_outcome jsondata rows : forall a w,
  exists d',
    collect_rows jsondata rows (a, w)
    = (obind (collected jsondata rows (_data a)) (fun _ => Return tt),
       (with_data d' a, w))
    /\ (forall d, collected jsondata rows (_data a) = Return d -> d' = d).
Proof.
  induction rows as [|[k r] rows IH]; intros a w.
  - exists (_data a). rewrite with_data_same. split; [reflexivity|].
    intros d [= <-]. reflexivity.
  - cbn [collect_rows collected]. unfold row_value, bind.
    destruct (row_key r) as [key|].
    + unfold lift.
      destruct (_get_value jsondata key (row_type r) (row_precision r))
        as [[v|]|e].
      * cbn [modify_self ret fst snd].
        destruct (IH (with_data (<[k:=v]> (_data a)) a) w) as (d' & E & Hd).
        exists d'. split; [exact E | exact Hd].
      * cbn [ret]. apply IH.
      * exists (_data a). rewrite with_data_same. split; [reflexivity|].
        discriminate.
    + cbn [ret]. apply IH.
Qed.

(** Post-processing, whether it returns or raises. *)
Lemma post_process_outcome (a : SoliscloudAPI) (w : world) :
  _post_process (a, w)
  = match map_to_list (_data a) with
    | [] => (Return tt, (a, w))
    | _ :: _ =>
        match _data a !! INVERTER_TIMESTAMP_UPDATE with
        | None => (Raise KeyError, (a, w))
        | Some raw =>
            match float_of_value raw with
            | Raise e => (Raise e, (a, w))
            | Return f =>
                (Return tt, (with_data (post_processed (_data a) f) a, w))
            end
        end
    end.
Proof.
  unfold _post_process, bind, get_self. cbn [fst snd].
  destruct (map_to_list (_data a)) as [|kv l]; [reflexivity|].
  destruct (_data a !! INVERTER_TIMESTAMP_UPDATE) as [raw|]; [|reflexivity].
  cbn [ret lift]. destruct (float_of_value raw) as [f|e]; [|reflexivity].
  cbn [modify_self fst snd].
  rewrite !purge_if_unused_pair by discriminate. reflexivity.
Qed.

(** Collection and post-processing on a client whose record is empty. *)
Lemma normalise_outcome payload (a : SoliscloudAPI) (w : world) :
  _data a = ∅ ->
  exists d',
    bind (_collect_inverter_data payload)
      (fun _ => bind _post_process
         (fun _ => bind get_self
            (fun self => ret (Some (GinlongData (_data self)))))) (a, w)
    = (obind (normalised payload) (fun rec => Return (Some rec)),
       (with_data d' a, w))
    /\ (forall rec, normalised payload = Return rec -> d' = rec).
Proof.
  intros He. unfold normalised, _collect_inverter_data.
  unfold bind at 1. unfold bind at 1. unfold lift.
  destruct (py_getitem payload "data") as [jsondata|e]; cbn [obind].
  2:{ exists (_data a). rewrite with_data_same. split; [reflexivity|].
      discriminate. }
  destruct (collect_rows_outcome jsondata (INVERTER_DATA INVERTER_DETAIL) a w)
    as (d1 & -> & Hd1).
  rewrite He in *.
  destruct (collected jsondata (INVERTER_DATA INVERTER_DETAIL) ∅) as [d|e];
    cbn [obind].
  2:{ exists d1. split; [reflexivity | discriminate]. }
  rewrite (Hd1 d eq_refl). clear Hd1 d1.
  unfold bind at 1. rewrite post_process_outcome. cbn [with_data _data].
  destruct (map_to_list d) as [|kv l].
  - exists d. split; [reflexivity|]. intros rec [= <-]. reflexivity.
  - destruct (d !! INVERTER_TIMESTAMP_UPDATE) as [raw|].
    2:{ exists d. split; [reflexivity | discriminate]. }
    destruct (float_of_value raw) as [f|e]; cbn [obind].
    2:{ exists d. split; [reflexivity | discriminate]. }
    exists (post_processed d f). split; [reflexivity|].
    intros rec [= <-]. reflexivity.
Qed.

(** The detail fetch of a client that is online, has a session handle and
    knows the serial: one request, and the outcome is made of its answer
    alone. *)
Lemma fetch_inverter_data_known env serial (a : SoliscloudAPI) (w : world)
    h inverters device_id :
  is_online a = true ->
  _inverter_list a = Some inverters ->
  dict_get (JStr serial) inverters = Some device_id ->
  _session a = Some h ->
  exists w' d',
    fetch_inverter_data env serial (a, w)
    = (record_of_answer (network env (posts w)), (with_data d' a, w'))
    /\ posts w' = S (posts w)
    /\ trace w'
       = List.app (trace w)
           (post_events h ("https://" ++ domain (_config a) ++ INVERTER_DETAIL)
              (dumps (detail_params device_id serial))
              (prepare_header_at (_config a) (clock env (clock_reads w))
                 (detail_params device_id serial) INVERTER_DETAIL)
              (network env (posts w)))
    /\ (forall rec, record_of_answer (network env (posts w))
                    = Return (Some rec) -> d' = rec)
    /\ (record_of_answer (network env (posts w)) = Return None -> d' = ∅).
Proof.
  intros Hon Hl Hk Hs. unfold fetch_inverter_data.
  unfold bind at 1. cbn [modify_self fst snd].
  unfold bind at 1. cbn [get_self fst snd].
  change (is_online (with_data ∅ a)) with (is_online a).
  change (_inverter_list (with_data ∅ a)) with (_inverter_list a).
  rewrite Hon, Hl, Hk.
  unfold bind at 1. unfold _get_inverter_details. unfold bind at 1.
  fold (detail_params device_id serial).
  destruct (post_with_session_trace env INVERTER_DETAIL
              (detail_params device_id serial) (with_data ∅ a) w h Hs)
    as (w' & -> & Hp & Ht).
  exists w'. unfold record_of_answer.
  destruct (post_result (network env (posts w))) as [r|e]; cbn [obind].
  2:{ exists ∅. split; [reflexivity|]. split; [exact Hp|].
      split; [exact Ht|]. split; discriminate. }
  destruct (SUCCESS r).
  2:{ cbn [ret]. exists ∅. split; [reflexivity|]. split; [exact Hp|].
      split; [exact Ht|]. split; [discriminate | reflexivity]. }
  unfold content_of. destruct (CONTENT r) as [payload|].
  2:{ cbn [raise]. exists ∅. split; [reflexivity|]. split; [exact Hp|].
      split; [exact Ht|]. split; discriminate. }
  cbn [ret].
  destruct (normalise_outcome payload (with_data ∅ a) w' eq_refl)
    as (d' & E & Hd).
  assert (Hcases :
    payload = JNull
    \/ (match payload with
        | JNull => ret None
        | _ => bind (_collect_inverter_data payload)
                 (fun _ => bind _post_process
                    (fun _ => bind get_self
                       (fun self => ret (Some (GinlongData (_data self))))))
        end (with_data ∅ a, w')
        = (obind (normalised payload) (fun rec => Return (Some rec)),
           (with_data d' a, w'))
        /\ match payload with
           | JNull => Return None
           | _ => obind (normalised payload) (fun rec => Return (Some rec))
           end = obind (normalised payload) (fun rec => Return (Some rec)))).
  { destruct payload; [left; reflexivity| | | | | |];
      right; (split; [exact E | reflexivity]). }
  destruct Hcases as [-> | [E1 E2]].
  - exists ∅. split; [reflexivity|]. split; [exact Hp|].
    split; [exact Ht|]. split; [discriminate | reflexivity].
  - exists d'. rewrite E2. split; [exact E1|]. split; [exact Hp|].
    split; [exact Ht|]. split.
    + intros rec Hr. apply Hd.
      destruct (normalised payload) as [rec'|]; [|discriminate].
      injection Hr as ->. reflexivity.
    + destruct (normalised payload); discriminate.
Qed.

(** X9. A client that is online, holds a session handle and has the serial
    in its directory sends exactly one request per detail fetch, whatever
    the answer and whether the fetch returns or raises: a POST to the
    detail resource of the portal whose body is the compact serialisation
    of the device id stored in the directory and of the serial, in that
    order. *)
Theorem fetch_sends_one_request env serial (s : state) h inverters device_id :
  is_online (fst s) = true ->
  _inverter_list (fst s) = Some inverters ->
  dict_get (JStr serial) inverters = Some device_id ->
  _session (fst s) = Some h ->
  let out := fetch_inverter_data env serial s in
  posts (snd (snd out)) = S (posts (snd s))
  /\ exists headers,
       requests (trace (snd (snd out)))
       = List.app (requests (trace (snd s)))
           [("https://" ++ domain (_config (fst s)) ++ "/v1/api/inveterDetail",
             dumps (JObj [("id", device_id); ("sn", JStr serial)]), headers)].
Proof.
  destruct s as [a w]. cbn [fst snd]. intros Hon Hl Hk Hs. cbv zeta.
  destruct (fetch_inverter_data_known env serial a w h inverters device_id
              Hon Hl Hk Hs) as (w' & d' & -> & Hp & Ht & _).
  cbn [fst snd]. split; [exact Hp|].
  eexists. rewrite Ht, requests_app. f_equal.
  unfold post_events. destruct (network env (posts w)); reflexivity.
Qed.

(** X10. When the request of a detail fetch fails (a timeout, a transport
    error or a status other than 200), [fetch_inverter_data] returns
    [None] and raises nothing, the record left empty.  Unlike a failed
    list fetch it does not clear the user id: the client stays online and
    keeps its session handle and its directory. *)
Theorem fetch_failure_keeps_login env serial (s : state) h inverters device_id :
  is_online (fst s) = true ->
  _inverter_list (fst s) = Some inverters ->
  dict_get (JStr serial) inverters = Some device_id ->
  _session (fst s) = Some h ->
  failure_outcome (network env (posts (snd s))) = true ->
  exists w,
    fetch_inverter_data env serial s = (Return None, (with_data ∅ (fst s), w))
    /\ is_online (fst (snd (fetch_inverter_data env serial s))) = true.
Proof.
  destruct s as [a w]. cbn [fst snd]. intros Hon Hl Hk Hs Hf.
  destruct (fetch_inverter_data_known env serial a w h inverters device_id
              Hon Hl Hk Hs) as (w' & d' & -> & _ & _ & _ & Hd).
  apply post_result_failure in Hf as (r & Hr & Hsr).
  assert (E : record_of_answer (network env (posts w)) = Return None).
  { unfold record_of_answer. rewrite Hr. cbn [obind]. rewrite Hsr. reflexivity. }
  rewrite E, (Hd E). exists w'. split; [reflexivity | exact Hon].
Qed.

(** X11. When the detail request is answered with status 200 by a body that
    is not null and in which [data] cannot be read (the key is missing:
    [KeyError]; the body is not an object: [TypeError]), the exception
    leaves [fetch_inverter_data]: nothing on the way catches it.  A body
    that is JSON null gives [None] instead. *)
Theorem fetch_payload_without_data env serial (s : state) h inverters
    device_id payload :
  is_online (fst s) = true ->
  _inverter_list (fst s) = Some inverters ->
  dict_get (JStr serial) inverters = Some device_id ->
  _session (fst s) = Some h ->
  network env (posts (snd s)) = PostResp 200 (JsonOk payload) ->
  (payload = JNull ->
     exists w, fetch_inverter_data env serial s
               = (Return None, (with_data ∅ (fst s), w)))
  /\ (forall e, payload <> JNull -> py_getitem payload "data" = Raise e ->
        exists w, fetch_inverter_data env serial s
                  = (Raise e, (with_data ∅ (fst s), w))).
Proof.
  destruct s as [a w]. cbn [fst snd]. intros Hon Hl Hk Hs Hn.
  destruct (fetch_inverter_data_known env serial a w h inverters device_id
              Hon Hl Hk Hs) as (w' & d' & E & _ & _ & _ & Hd).
  rewrite Hn in E, Hd. unfold record_of_answer in E, Hd.
  cbn [post_result Z.eqb Pos.eqb obind SUCCESS CONTENT] in E, Hd.
  split.
  - intros ->. rewrite (Hd eq_refl) in E. exists w'. exact E.
  - intros e Hp He. clear E Hd.
    (* the record is still the empty one: nothing was collected *)
    unfold fetch_inverter_data.
    unfold bind at 1. cbn [modify_self fst snd].
    unfold bind at 1. cbn [get_self fst snd].
    change (is_online (with_data ∅ a)) with (is_online a).
    change (_inverter_list (with_data ∅ a)) with (_inverter_list a).
    rewrite Hon, Hl, Hk. unfold bind at 1.
    unfold _get_inverter_details. unfold bind at 1.
    destruct (post_with_session env INVERTER_DETAIL
                (JObj [("id", device_id); ("sn", JStr serial)])
                (with_data ∅ a) w h Hs) as (w1 & -> & _).
    rewrite Hn. cbn [post_result Z.eqb Pos.eqb SUCCESS CONTENT content_of ret].
    assert (Ec : _collect_inverter_data payload (with_data ∅ a, w1)
                 = (Raise e, (with_data ∅ a, w1))).
    { unfold _collect_inverter_data, bind, lift. rewrite He. reflexivity. }
    exists w1.
    destruct payload; [contradiction| | | | | |];
      unfold bind at 1; rewrite Ec; reflexivity.
Qed.

Lemma collected_all_missing jsondata rows : forall d,
  (forall f r, In (f, r) rows -> row_value jsondata r = Return None) ->
  collected jsondata rows d = Return d.
Proof.
  induction rows as [|[k r] rows IH]; intros d H; [reflexivity|].
  cbn [collected]. rewrite (H k r) by (left; reflexivity).
  apply IH. intros f r' Hin. apply (H f r'). right. exact Hin.
Qed.

(** X12. When the detail request is answered with status 200 and a [data]
    object in which every vendor key of the inverter table is missing or
    null, [fetch_inverter_data] returns a record, the empty one, and raises
    nothing: post-processing leaves an empty record alone. *)
Theorem fetch_empty_payload env serial (s : state) h inverters device_id
    payload jsondata :
  is_online (fst s) = true ->
  _inverter_list (fst s) = Some inverters ->
  dict_get (JStr serial) inverters = Some device_id ->
  _session (fst s) = Some h ->
  network env (posts (snd s)) = PostResp 200 (JsonOk payload) ->
  py_getitem payload "data" = Return jsondata ->
  (forall f key t p, In (f, entry key t p) (INVERTER_DATA INVERTER_DETAIL) ->
     py_get jsondata key = Return JNull) ->
  exists w,
    fetch_inverter_data env serial s
    = (Return (Some ∅), (with_data ∅ (fst s), w)).
Proof.
  destruct s as [a w]. cbn [fst snd]. intros Hon Hl Hk Hs Hn Hj Hall.
  destruct (fetch_inverter_data_known env serial a w h inverters device_id
              Hon Hl Hk Hs) as (w' & d' & E & _ & _ & Hd & _).
  assert (Hnorm : normalised payload = Return ∅).
  { unfold normalised. rewrite Hj. cbn [obind].
    rewrite collected_all_missing; [reflexivity|].
    intros f r Hin. unfold row_value.
    destruct r as [[key|] t p].
    - cbn [row_key row_type row_precision]. unfold _get_value.
      rewrite (Hall f key t p Hin). reflexivity.
    - reflexivity. }
  assert (Er : record_of_answer (network env (posts w)) = Return (Some ∅)).
  { rewrite Hn. unfold record_of_answer.
    cbn [post_result Z.eqb Pos.eqb obind SUCCESS CONTENT].
    destruct payload; try (rewrite Hnorm; reflexivity). discriminate. }
  rewrite Er in E. rewrite (Hd ∅ Er) in E. exists w'. exact E.
Qed.

(** A detail fetch, whatever the client: only the record and the world
    change, and the record is the one returned, or empty when [None] is
    returned. *)
Lemma fetch_inverter_data_state env serial (a : SoliscloudAPI) (w : world) :
  exists o d' w',
    fetch_inverter_data env serial (a, w) = (o, (with_data d' a, w'))
    /\ (o = Return None -> d' = ∅)
    /\ (forall rec, o = Return (Some rec) -> d' = rec).
Proof.
  destruct (is_online a) eqn:Hon;
    [destruct (_inverter_list a) as [inverters|] eqn:Hl;
     [destruct (dict_get (JStr serial) inverters) as [device_id|] eqn:Hk;
      [destruct (_session a) as [h|] eqn:Hs|]|]|].
  - destruct (fetch_inverter_data_known env serial a w h inverters device_id
                Hon Hl Hk Hs) as (w' & d' & E & _ & _ & Hd & Hn).
    exists (record_of_answer (network env (posts w))), d', w'.
    split; [exact E|]. split; [exact Hn | exact Hd].
  - exists (Return None), ∅, (tick w). split; [|split; [reflexivity|discriminate]].
    unfold fetch_inverter_data.
    unfold bind at 1. cbn [modify_self fst snd].
    unfold bind at 1. cbn [get_self fst snd].
    change (is_online (with_data ∅ a)) with (is_online a).
    change (_inverter_list (with_data ∅ a)) with (_inverter_list a).
    rewrite Hon, Hl, Hk. unfold bind at 1.
    unfold _get_inverter_details. unfold bind at 1.
    rewrite post_unfold. cbv zeta. cbn [fst snd].
    change (_session (with_data ∅ a)) with (_session a). rewrite Hs.
    reflexivity.
  - exists (Return None), ∅, w. split; [|split; [reflexivity|discriminate]].
    unfold fetch_inverter_data.
    unfold bind at 1. cbn [modify_self fst snd].
    unfold bind at 1. cbn [get_self fst snd].
    change (is_online (with_data ∅ a)) with (is_online a).
    change (_inverter_list (with_data ∅ a)) with (_inverter_list a).
    rewrite Hon, Hl, Hk. reflexivity.
  - exists (Return None), ∅, w. split; [|split; [reflexivity|discriminate]].
    unfold fetch_inverter_data.
    unfold bind at 1. cbn [modify_self fst snd].
    unfold bind at 1. cbn [get_self fst snd].
    change (is_online (with_data ∅ a)) with (is_online a).
    change (_inverter_list (with_data ∅ a)) with (_inverter_list a).
    rewrite Hon, Hl. reflexivity.
  - exists (Return None), ∅, w. split; [|split; [reflexivity|discriminate]].
    unfold fetch_inverter_data.
    unfold bind at 1. cbn [modify_self fst snd].
    unfold bind at 1. cbn [get_self fst snd].
    change (is_online (with_data ∅ a)) with (is_online a).
    rewrite Hon. reflexivity.
Qed.

(** X13. The record of a detail fetch is made afresh: the outcome and the
    state after the call do not depend on the record the client held
    before.  The call never touches the configuration, the session handle,
    the user id or the directory, and the record it leaves in the client
    is the one it returned, the empty record when it returned [None]. *)
Theorem fetch_record_is_fresh env serial (s : state) :
  let out := fetch_inverter_data env serial s in
  let a' := fst (snd out) in
  (forall d, fetch_inverter_data env serial (with_data d (fst s), snd s) = out)
  /\ _config a' = _config (fst s)
  /\ _session a' = _session (fst s)
  /\ _user_id a' = _user_id (fst s)
  /\ _inverter_list a' = _inverter_list (fst s)
  /\ _data a' = match fst out with
                | Return (Some rec) => rec
                | Return None => ∅
                | Raise _ => _data a'
                end.
Proof.
  destruct s as [a w]. cbv zeta. cbn [fst snd]. split.
  - intros d. unfold fetch_inverter_data.
    unfold bind at 1. unfold bind at 3. reflexivity.
  - destruct (fetch_inverter_data_state env serial a w)
      as (o & d' & w' & -> & Hn & Hr).
    cbn [fst snd with_data _config _session _user_id _inverter_list _data].
    repeat (split; [reflexivity|]).
    destruct o as [[rec|]|e]; [apply Hr | apply Hn |]; reflexivity.
Qed.

Lemma row_value_type jsondata r v :
  row_value jsondata r = Return (Some v) -> type_of_value v = delivered_type r.
Proof.
  unfold row_value, delivered_type, _get_value.
  destruct (row_key r) as [key|]; [|discriminate].
  destruct (py_get jsondata key) as [raw|]; [|discriminate]. cbn [obind].
  destruct (row_type r).
  - destruct raw; try discriminate; intros [= <-]; reflexivity.
  - destruct raw; try discriminate;
      match goal with
      | |- context [py_int ?x] => destruct (py_int x); [|discriminate]
      end; cbn [obind]; intros [= <-]; reflexivity.
  - assert (H : forall x : json,
        obind (py_float x) (fun f =>
          match row_precision r with
          | Some nd => obind (round_ndigits f nd)
                         (fun r0 => Return (Some (VFloat r0)))
          | None => obind (round_to_int f) (fun z => Return (Some (VInt z)))
          end) = Return (Some v) ->
        type_of_value v = match row_precision r with
                          | Some _ => TFloat
                          | None => TInt
                          end).
    { intros x. destruct (py_float x) as [f|]; [|discriminate]. cbn [obind].
      destruct (row_precision r) as [nd|].
      - destruct (round_ndigits f nd); [|discriminate]. cbn [obind].
        intros [= <-]. reflexivity.
      - destruct (round_to_int f); [|discriminate]. cbn [obind].
        intros [= <-]. reflexivity. }
    destruct raw; try discriminate; intros Hv; apply H in Hv; rewrite Hv;
      destruct (row_precision r); reflexivity.
Qed.

(** Where a stored value comes from. *)
Lemma collected_origin jsondata rows : forall d0 d k v,
  collected jsondata rows d0 = Return d ->
  d !! k = Some v ->
  d0 !! k = Some v
  \/ exists r, In (k, r) rows /\ row_value jsondata r = Return (Some v).
Proof.
  induction rows as [|[f r] rows IH]; intros d0 d k v H Hk.
  - injection H as <-. left. exact Hk.
  - cbn [collected] in H.
    destruct (row_value jsondata r) as [[x|]|e] eqn:Er; [| |discriminate].
    + destruct (IH _ _ _ _ H Hk) as [H0 | (r' & Hin & Hr)].
      * destruct (decide (f = k)) as [->|Hne].
        -- rewrite lookup_insert_eq in H0. injection H0 as ->.
           right. exists r. split; [left; reflexivity | exact Er].
        -- rewrite lookup_insert_ne in H0 by exact Hne. left. exact H0.
      * right. exists r'. split; [right; exact Hin | exact Hr].
    + destruct (IH _ _ _ _ H Hk) as [H0 | (r' & Hin & Hr)].
      * left. exact H0.
      * right. exists r'. split; [right; exact Hin | exact Hr].
Qed.

(** Every row of the inverter table has a vendor key, and every float row
    a precision. *)
Lemma table_rows_well_formed f r :
  In (f, r) (INVERTER_DATA INVERTER_DETAIL) -> row_well_formed r = true.
Proof.
  intros Hin.
  assert (H : forallb (fun fr => row_well_formed (snd fr))
                (INVERTER_DATA INVERTER_DETAIL) = true) by reflexivity.
  rewrite forallb_forall in H. apply (H (f, r) Hin).
Qed.

Lemma post_processed_origin d x k v :
  post_processed d x !! k = Some v ->
  (k = INVERTER_TIMESTAMP_UPDATE /\ v = VFloat (x / 1000)%float)
  \/ (k <> INVERTER_TIMESTAMP_UPDATE /\ d !! k = Some v).
Proof.
  unfold post_processed. rewrite !purge_phase_lookup.
  repeat match goal with
         | |- context [if ?c then None else _] => destruct c; [discriminate|]
         end.
  destruct (decide (k = INVERTER_TIMESTAMP_UPDATE)) as [->|Hne].
  - rewrite lookup_insert_eq. intros [= <-]. left. split; reflexivity.
  - rewrite lookup_insert_ne by (intros E; apply Hne; symmetry; exact E).
    intros H. right. split; [exact Hne | exact H].
Qed.

(** X14. Every field of a record returned by a detail fetch is a field of
    the inverter table, never one of the plant table, and its value has
    the Python type the table declares for it: [str], [int] or [float].
    The one exception is the update timestamp, declared [int] and
    delivered as a [float]. *)
Theorem record_fields_typed env serial (s s' : state) rec f v :
  fetch_inverter_data env serial s = (Return (Some rec), s') ->
  rec !! f = Some v ->
  exists key t p,
    In (f, entry key t p) (INVERTER_DATA INVERTER_DETAIL)
    /\ ~ In f (List.map fst (INVERTER_DATA PLANT_DETAIL))
    /\ type_of_value v
       = (if bool_decide (f = INVERTER_TIMESTAMP_UPDATE) then TFloat else t).
Proof.
  intros Hf Hv.
  apply fetch_inverter_data_record in Hf
    as (payload & jsondata & d & _ & _ & Hd & Hrec).
  assert (Hrow : forall k x, d !! k = Some x ->
            exists key t p,
              In (k, entry key t p) (INVERTER_DATA INVERTER_DETAIL)
              /\ type_of_value x = t).
  { intros k x Hk.
    destruct (collected_origin _ _ _ _ _ _ Hd Hk) as [H0 | (r & Hin & Hr)].
    { rewrite lookup_empty in H0. discriminate. }
    pose proof (table_rows_well_formed _ _ Hin) as Hwf.
    apply row_value_type in Hr. rewrite Hr.
    destruct r as [[key|] t p]; [|discriminate].
    exists key, t, p. split; [exact Hin|].
    unfold delivered_type, row_well_formed in *.
    cbn [row_key row_type row_precision] in *.
    destruct t; try reflexivity. destruct p; [reflexivity | discriminate]. }
  assert (Hplant : forall k key t p,
            In (k, entry key t p) (INVERTER_DATA INVERTER_DETAIL) ->
            ~ In k (List.map fst (INVERTER_DATA PLANT_DETAIL))).
  { intros k key t p Hin Hpl.
    pose proof table_fields_distinct as Hnd.
    assert (Hk : In k (List.map fst (INVERTER_DATA INVERTER_DETAIL)))
      by (apply (in_map fst _ _ Hin)).
    revert Hk. clear -Hpl.
    unfold INVERTER_DATA in Hpl.
    cbn [String.eqb Ascii.eqb Bool.eqb INVERTER_DETAIL PLANT_DETAIL
         List.map fst In] in Hpl.
    destruct Hpl as [<-|[<-|[<-|[]]]]; intros Hk;
      apply list_elem_of_In in Hk;
      apply (bool_decide_pack _) in Hk; vm_compute in Hk; exact Hk. }
  destruct Hrec as [[_ ->] | (raw & x & Hraw & _ & ->)].
  { rewrite lookup_empty in Hv. discriminate. }
  apply post_processed_origin in Hv as [[-> ->] | [Hne Hk]].
  - destruct (Hrow _ _ Hraw) as (key & t & p & Hin & _).
    exists key, t, p. split; [exact Hin|]. split; [exact (Hplant _ _ _ _ Hin)|].
    rewrite bool_decide_eq_true_2 by reflexivity. reflexivity.
  - destruct (Hrow _ _ Hk) as (key & t & p & Hin & Ht).
    exists key, t, p. split; [exact Hin|]. split; [exact (Hplant _ _ _ _ Hin)|].
    rewrite bool_decide_eq_false_2 by exact Hne. exact Ht.
Qed.

(** Where the walk returns, every row gave a value or [None]. *)
Lemma collected_rows_return jsondata rows : forall d d' f r,
  collected jsondata rows d = Return d' ->
  In (f, r) rows ->
  exists o, row_value jsondata r = Return o.
Proof.
  induction rows as [|[k r0] rows IH]; intros d d' f r H Hin; [destruct Hin|].
  cbn [collected] in H.
  destruct (row_value jsondata r0) as [[x|]|e] eqn:Er; [| |discriminate].
  - destruct Hin as [E|Hin].
    + injection E as _ <-. eexists. exact Er.
    + apply (IH _ _ _ _ H Hin).
  - destruct Hin as [E|Hin].
    + injection E as _ <-. eexists. exact Er.
    + apply (IH _ _ _ _ H Hin).
Qed.

(** X15. Where the collection returns, starting from the empty record, a
    field of the inverter table is in the record exactly when the payload
    holds a value under its vendor key that is not null; the stored value
    is then the coerced one.  Nothing stands in for a missing value. *)
Theorem field_stored_iff_present payload jsondata (s s1 : state) f key t p :
  _data (fst s) = ∅ ->
  py_getitem payload "data" = Return jsondata ->
  _collect_inverter_data payload s = (Return tt, s1) ->
  In (f, entry key t p) (INVERTER_DATA INVERTER_DETAIL) ->
  exists raw,
    py_get jsondata key = Return raw
    /\ (raw = JNull -> _data (fst s1) !! f = None)
    /\ (raw <> JNull ->
        exists v, _get_value jsondata key t p = Return (Some v)
                  /\ _data (fst s1) !! f = Some v).
Proof.
  destruct s as [a w]. cbn [fst]. intros He Hj Hc Hin.
  apply collect_inverter_data_return in Hc as (jsondata' & d & Hj' & Hd & ->).
  rewrite Hj in Hj'. injection Hj' as <-. rewrite He in Hd.
  cbn [fst with_data _data].
  rewrite (collected_field _ _ _ key t p Hd Hin).
  destruct (collected_rows_return _ _ _ _ _ _ Hd Hin) as (o & Ho).
  unfold row_value in Ho. cbn [entry row_key row_type row_precision] in Ho.
  rewrite Ho. revert Ho. unfold _get_value.
  destruct (py_get jsondata key) as [raw|e]; [|discriminate]. cbn [obind].
  intros Ho. exists raw. split; [reflexivity|]. split.
  - intros ->. injection Ho as <-. reflexivity.
  - intros Hraw. destruct o as [v|].
    + exists v. split; reflexivity.
    + exfalso. destruct raw; [contradiction| | | | | |];
        destruct t; try discriminate;
        repeat match type of Ho with
               | obind ?x _ = _ => destruct x; [|discriminate]; cbn [obind] in Ho
               | match ?x with _ => _ end = _ => destruct x
               end; discriminate.
Qed.


(** The second loop of [_purge_if_unused] on distinct elements that are all
    in the record. *)
Lemma pop_all_present elements : forall (a : SoliscloudAPI) (w : world),
  NoDup elements ->
  (forall e, e ∈ elements -> is_Some (_data a !! e)) ->
  exists d',
    pop_all elements (a, w) = (Return tt, (with_data d' a, w))
    /\ forall k, d' !! k = if bool_decide (k ∈ elements) then None
                           else _data a !! k.
Proof.
  induction elements as [|e elements IH]; intros a w Hnd Hall.
  - exists (_data a). rewrite with_data_same. split; [reflexivity|].
    intros k. rewrite bool_decide_eq_false_2 by apply not_elem_of_nil.
    reflexivity.
  - apply NoDup_cons in Hnd as [He Hnd].
    cbn [pop_all]. unfold bind at 1. unfold bind at 1. cbn [get_self fst snd].
    destruct (Hall e) as [x Hx]; [left|]. rewrite Hx.
    cbn [modify_self fst snd].
    destruct (IH (with_data (delete e (_data a)) a) w Hnd) as (d' & E & Hd).
    { intros e' He'. cbn [with_data _data].
      rewrite lookup_delete_ne by (intros ->; contradiction).
      apply Hall. right. exact He'. }
    exists d'. split; [exact E|].
    intros k. rewrite Hd. cbn [with_data _data].
    destruct (decide (k = e)) as [->|Hne].
    + rewrite (bool_decide_eq_true_2 (e ∈ e :: elements)) by left.
      rewrite lookup_delete_eq. destruct (bool_decide (e ∈ elements)); reflexivity.
    + rewrite lookup_delete_ne by (intros E'; apply Hne; symmetry; exact E').
      destruct (decide (k ∈ elements)) as [Hin|Hin].
      * rewrite !bool_decide_eq_true_2; [reflexivity | right; exact Hin | exact Hin].
      * rewrite !bool_decide_eq_false_2; [reflexivity | | exact Hin].
        intros H. apply elem_of_cons in H as [->|H]; contradiction.
Qed.

Lemma all_equal_readings d x elements :
  all_equal d x elements = readings_equal d x elements.
Proof.
  induction elements as [|e elements IH]; [reflexivity|].
  cbn [all_equal readings_equal forallb].
  destruct (d !! e) as [v|]; [|reflexivity].
  destruct (value_eq v x); cbn [negb andb]; [exact IH | reflexivity].
Qed.

Lemma readings_equal_present d x elements e :
  readings_equal d x elements = true -> e ∈ elements -> is_Some (d !! e).
Proof.
  unfold readings_equal. rewrite forallb_forall. intros H He.
  apply list_elem_of_In in He. specialize (H e He).
  destruct (d !! e) as [v|]; [eexists; reflexivity | discriminate].
Qed.

(** X17. [_purge_if_unused] on elements that are pairwise distinct never
    raises and is all or nothing: when every element is in the record and
    equal to the value, all of them are removed; otherwise, one of them
    missing or different, the record is left exactly as it was.  Fields
    that are not among the elements are never touched.  Naming an element
    twice is another matter: once the first copy is removed, removing the
    second raises [KeyError]. *)
Theorem purge_all_or_nothing x (s : state) :
  (forall elements,
     NoDup elements ->
     exists d',
       _purge_if_unused x elements s
       = (Return tt, (with_data d' (fst s), snd s))
       /\ forall k,
            d' !! k = if readings_equal (_data (fst s)) x elements
                         && bool_decide (k ∈ elements)
                      then None else _data (fst s) !! k)
  /\ (forall e v,
        _data (fst s) !! e = Some v -> value_eq v x = true ->
        fst (_purge_if_unused x [e; e] s) = Raise KeyError).
Proof.
  destruct s as [a w]. cbn [fst snd]. split.
  - intros elements Hnd. unfold _purge_if_unused, bind, get_self.
    cbn [fst snd]. rewrite all_equal_readings.
    destruct (readings_equal (_data a) x elements) eqn:Hr; cbn [andb].
    + apply pop_all_present; [exact Hnd|].
      intros e He. apply (readings_equal_present _ _ _ _ Hr He).
    + exists (_data a). rewrite with_data_same. split; reflexivity.
  - intros e v He Hv. unfold _purge_if_unused, bind, get_self.
    cbn [fst snd all_equal]. rewrite He, Hv. cbn [negb pop_all].
    unfold bind, get_self, modify_self, raise. cbn [fst snd].
    rewrite He. cbn [fst snd with_data _data].
    rewrite lookup_delete_eq. reflexivity.
Qed.

(** X18. Post-processing changes nothing but the record, and of the record
    only the update timestamp and the six phase fields: every other field
    keeps its value, and no field is ever added.  Where it raises, at the
    timestamp, the whole state is as it was: the record stays as
    collected. *)
Theorem post_process_frame (s s' : state) :
  (_post_process s = (Return tt, s') ->
   snd s' = snd s
   /\ with_data (_data (fst s)) (fst s') = fst s
   /\ (forall k, is_Some (_data (fst s') !! k) -> is_Some (_data (fst s) !! k))
   /\ (forall k,
         k <> INVERTER_TIMESTAMP_UPDATE ->
         (forall c v, In (c, v) phases -> k <> c /\ k <> v) ->
         _data (fst s') !! k = _data (fst s) !! k))
  /\ (forall e, _post_process s = (Raise e, s') -> s' = s).
Proof.
  destruct s as [a w]. rewrite post_process_outcome. cbn [fst snd]. split.
  - destruct (map_to_list (_data a)) as [|kv l].
    { intros [= <-]. cbn [fst snd]. rewrite with_data_same.
      repeat split; try reflexivity. intros k H. exact H. }
    destruct (_data a !! INVERTER_TIMESTAMP_UPDATE) as [raw|] eqn:Eraw;
      [|discriminate].
    destruct (float_of_value raw) as [x|]; [|discriminate].
    intros [= <-]. cbn [fst snd with_data _data].
    split; [reflexivity|]. split; [destruct a; reflexivity|]. split.
    + intros k [v Hv].
      apply post_processed_origin in Hv as [[-> _] | [_ Hk]];
        eexists; eassumption.
    + intros k Hts Hph. unfold post_processed.
      destruct (Hph PHASE1_CURRENT PHASE1_VOLTAGE) as [? ?]; [cbn; tauto|].
      destruct (Hph PHASE2_CURRENT PHASE2_VOLTAGE) as [? ?]; [cbn; tauto|].
      destruct (Hph PHASE3_CURRENT PHASE3_VOLTAGE) as [? ?]; [cbn; tauto|].
      rewrite !purge_phase_other by assumption.
      apply lookup_insert_ne. intros E. apply Hts. symmetry. exact E.
  - intros e.
    destruct (map_to_list (_data a)) as [|kv l]; [discriminate|].
    destruct (_data a !! INVERTER_TIMESTAMP_UPDATE) as [raw|];
      [|intros [= _ <-]; reflexivity].
    destruct (float_of_value raw) as [x|]; [discriminate|].
    intros [= _ <-]. reflexivity.
Qed.

Lemma ascii_text_length (b : bytes) :
  String.length (ascii_text b) = List.length b.
Proof.
  unfold ascii_text, text. induction b as [|x b IH]; [reflexivity|].
  cbn [List.map string_of_list_ascii String.length List.length].
  rewrite IH. reflexivity.
Qed.

Lemma md5_length (msg : bytes) : List.length (b64encode (md5 msg)) = 24%nat.
Proof.
  unfold md5.
  destruct (List.fold_left md5_block (blocks (pad_message le_bytes msg))
              (0x67452301, 0xefcdab89, 0x98badcfe, 0x10325476))
    as [[[a b] c] d].
  reflexivity.
Qed.

Lemma sha1_length (msg : bytes) : List.length (b64encode (sha1 msg)) = 28%nat.
Proof.
  unfold sha1.
  destruct (List.fold_left sha1_block (blocks (pad_message be_bytes msg))
              (0x67452301, 0xefcdab89, 0x98badcfe, 0x10325476, 0xc3d2e1f0))
    as [[[[a b] c] d] e].
  reflexivity.
Qed.

Lemma hmac_sha1_length (key msg : bytes) :
  List.length (b64encode (hmac_sha1 key msg)) = 28%nat.
Proof. unfold hmac_sha1. cbv zeta. apply sha1_length. Qed.

(** X19. Whatever the configuration, the body, the resource path and the
    time, [_prepare_header] returns four headers in the order Content-MD5,
    Content-Type, Date, Authorization; it reads the clock once, sends
    nothing and leaves the client as it was.  The content digest always
    has 24 characters (16 bytes in base64) and the signature after the key
    id and the colon always 28 (20 bytes in base64), however long the body
    or the secret. *)
Theorem header_shape env body resource (s : state) :
  exists digest date sign,
    _prepare_header env body resource s
    = (Return [("Content-MD5", digest);
               ("Content-Type", "application/json");
               ("Date", date);
               ("Authorization",
                "API " ++ key_id (_config (fst s)) ++ ":" ++ sign)],
       (fst s, tick (snd s)))
    /\ String.length digest = 24%nat
    /\ String.length sign = 28%nat.
Proof.
  eexists _, _, _. split; [reflexivity|]. split.
  - rewrite ascii_text_length. apply md5_length.
  - rewrite ascii_text_length. apply hmac_sha1_length.
Qed.

(** [login] returns whether the client is online when it ends. *)
Lemma login_return env session (s s' : state) b :
  login env session s = (Return b, s') ->
  is_online (fst s') = b
  /\ _config (fst s') = _config (fst s)
  /\ _data (fst s') = _data (fst s).
Proof.
  destruct s as [a w]. rewrite login_unfold. cbv zeta. cbn [fst snd].
  set (a0 := with_inverter_list None (with_session (Some session) a)).
  destruct (post_with_session env "/v1/api/addUser"
              (login_params (username (_config a))) a0 w session eq_refl)
    as (w1 & -> & _).
  destruct (post_result (network env (posts w))) as [r|e]; [|discriminate].
  destruct (SUCCESS r).
  2:{ intros [= <- <-]. repeat split; reflexivity. }
  destruct (CONTENT r) as [c|]; [|discriminate]. cbn [fst snd].
  destruct (obind (py_getitem c "data") (fun d => py_getitem d "userId"))
    as [user_id|e].
  2:{ destruct (key_error e); [|discriminate].
      intros [= <- <-]. repeat split; reflexivity. }
  destruct (fetch_inverter_list_with_session env (plantid (_config a))
              (with_user_id user_id a0) w1 session eq_refl)
    as (w2 & _ & ->).
  destruct (post_result (network env (posts w1))) as [r2|e].
  2:{ destruct (key_error e); [|discriminate].
      intros [= <- <-]. repeat split; reflexivity. }
  destruct (SUCCESS r2).
  - destruct (CONTENT r2) as [c2|].
    + destruct (directory_of_content c2) as [l|e].
      * intros [= <- <-]. repeat split; reflexivity.
      * destruct (key_error e); [|discriminate].
        intros [= <- <-]. repeat split; reflexivity.
    + cbn [key_error]. intros [= <- <-]. repeat split; reflexivity.
  - intros [= <- <-]. repeat split; reflexivity.
Qed.

(** X20. Whenever [login] returns, the value it returns is exactly whether
    the client is online afterwards, the session handle it was given is
    stored, and configuration and record are as before: true means a user
    id is held, false that none is, whichever way the attempt failed. *)
Theorem login_returns_is_online env session (s s' : state) b :
  login env session s = (Return b, s') ->
  is_online (fst s') = b
  /\ (b = false -> _user_id (fst s') = JNull)
  /\ _session (fst s') = Some session
  /\ _config (fst s') = _config (fst s)
  /\ _data (fst s') = _data (fst s).
Proof.
  intros H. destruct (login_return _ _ _ _ _ H) as (Hon & Hc & Hd).
  split; [exact Hon|]. split.
  - intros ->. unfold is_online in Hon.
    destruct (_user_id (fst s')); try discriminate. reflexivity.
  - split; [|split; [exact Hc | exact Hd]].
    pose proof (login_session env session s) as Hs.
    rewrite H in Hs. exact Hs.
Qed.

(** X21. Every client the public operations can produce holds a session
    handle whenever it is online or holds a directory: it is so for the
    client as constructed, after [login] and after [logout] whatever came
    before, and the two fetches keep it so.  A detail fetch of an online
    client therefore never stops for want of a session handle. *)
Theorem session_invariant env :
  (forall config, session_when_needed (__init__ config))
  /\ (forall session s,
        session_when_needed (fst (snd (login env session s))))
  /\ (forall s, session_when_needed (fst (snd (logout s))))
  /\ (forall plant s,
        session_when_needed (fst s) ->
        session_when_needed (fst (snd (fetch_inverter_list env plant s))))
  /\ (forall serial s,
        session_when_needed (fst s) ->
        session_when_needed (fst (snd (fetch_inverter_data env serial s)))).
Proof.
  unfold session_when_needed. repeat split.
  - intros config [H|H]; [discriminate | contradiction].
  - intros session s _. rewrite login_session. discriminate.
  - intros s. rewrite logout_unfold. cbn [fst snd logged_out is_online
      _user_id _inverter_list].
    intros [H|H]; [discriminate | contradiction].
  - intros plant s Hinv.
    pose proof (fetch_inverter_list_state env plant s) as H.
    destruct (fst (fetch_inverter_list env plant s)) as [[l|]|e];
      rewrite H; try exact Hinv.
    cbn [with_user_id is_online _user_id _inverter_list _session].
    intros [H'|H']; [discriminate|]. apply Hinv. right. exact H'.
  - intros serial [a w] Hinv.
    destruct (fetch_inverter_data_state env serial a w)
      as (o & d' & w' & -> & _). exact Hinv.
Qed.

(** X22. The outcome of a detail fetch that reaches the portal is made of
    the answer alone: two clients that are online, hold a session handle
    and know the serial they ask for get the same record, the same [None]
    or the same exception from the same answer, whatever their
    configuration, their clock, the serial, the device id and the record
    they held before. *)
Theorem fetch_depends_on_answer_only env1 env2 serial1 serial2
    (s1 s2 : state) h1 h2 inverters1 inverters2 device_id1 device_id2 :
  is_online (fst s1) = true ->
  _inverter_list (fst s1) = Some inverters1 ->
  dict_get (JStr serial1) inverters1 = Some device_id1 ->
  _session (fst s1) = Some h1 ->
  is_online (fst s2) = true ->
  _inverter_list (fst s2) = Some inverters2 ->
  dict_get (JStr serial2) inverters2 = Some device_id2 ->
  _session (fst s2) = Some h2 ->
  network env1 (posts (snd s1)) = network env2 (posts (snd s2)) ->
  fst (fetch_inverter_data env1 serial1 s1)
  = fst (fetch_inverter_data env2 serial2 s2).
Proof.
  destruct s1 as [a1 w1], s2 as [a2 w2]. cbn [fst snd].
  intros Hon1 Hl1 Hk1 Hs1 Hon2 Hl2 Hk2 Hs2 Hn.
  destruct (fetch_inverter_data_known env1 serial1 a1 w1 h1 inverters1
              device_id1 Hon1 Hl1 Hk1 Hs1) as (? & ? & -> & _).
  destruct (fetch_inverter_data_known env2 serial2 a2 w2 h2 inverters2
              device_id2 Hon2 Hl2 Hk2 Hs2) as (? & ? & -> & _).
  cbn [fst]. rewrite Hn. reflexivity.
Qed.



(** X3 holds at a concrete portal. *)
Lemma login_success_witness :
  exists c user_id c2 inverters,
    network demo_portal (posts (snd not_logged_in)) = PostResp 200 (JsonOk c)
    /\ user_id_of_content c = Return user_id
    /\ user_id <> JNull
    /\ network demo_portal (S (posts (snd not_logged_in)))
       = PostResp 200 (JsonOk c2)
    /\ directory_of_content c2 = Return (Some inverters)
    /\ fst (snd (login demo_portal demo_session not_logged_in))
       = client (_config (fst not_logged_in)) (Some demo_session) user_id
           (_data (fst not_logged_in)) (Some inverters)
    /\ is_online (fst (snd (login demo_portal demo_session not_logged_in)))
       = true
    /\ posts (snd (snd (login demo_portal demo_session not_logged_in)))
       = S (S (posts (snd not_logged_in))).
Proof.
  apply (login_success demo_portal demo_session not_logged_in
           (snd (login demo_portal demo_session not_logged_in))).
  vm_compute. reflexivity.
Defined.

(** X4 holds at a concrete portal: the user id is null, the directory is
    stored all the same. *)
Lemma login_stores_directory_witness :
  exists w,
    login (scripted [null_user_answer] list_answer) demo_session not_logged_in
    = (Return false,
       (client demo_config (Some demo_session) JNull ∅
          (Some (directory demo_records)), w))
    /\ posts w = 2%nat.
Proof.
  apply (login_stores_directory (scripted [null_user_answer] list_answer)
           demo_session not_logged_in
           (JObj [("data", JObj [("userId", JNull)])]) JNull
           (JObj [("data", JObj [("records", JArr demo_records)])])
           (Some (directory demo_records)));
    reflexivity.
Defined.

(** X5 holds at a concrete portal: the client was online and stays so. *)
Lemma login_type_error_witness :
  exists w,
    login (always null_data_answer) demo_session logged_in
    = (Raise TypeError,
       (client demo_config (Some demo_session) (JInt 42) ∅ None, w))
    /\ is_online (fst (snd (login (always null_data_answer) demo_session
                              logged_in))) = true
    /\ posts w = 1%nat.
Proof.
  apply (login_type_error (always null_data_answer) demo_session logged_in
           (JObj [("data", JNull)]) TypeError);
    [reflexivity | reflexivity | discriminate].
Defined.

(** X6 holds at a concrete portal, for a refused request and for a body
    without [data]. *)
Lemma login_rejected_witness :
  (exists w,
     login (always unavailable) demo_session not_logged_in
     = (Return false, (login_failed demo_session (fst not_logged_in), w))
     /\ posts w = 1%nat)
  /\ (exists w,
        login (always empty_answer) demo_session not_logged_in
        = (Return false, (login_failed demo_session (fst not_logged_in), w))
        /\ posts w = 1%nat).
Proof.
  split.
  - apply (login_rejected (always unavailable) demo_session not_logged_in).
    left. reflexivity.
  - apply (login_rejected (always empty_answer) demo_session not_logged_in).
    right. exists (JObj []). split; reflexivity.
Defined.

(** X9 holds at a concrete portal. *)
Lemma fetch_sends_one_request_witness :
  posts (snd (snd (fetch_inverter_data (always unavailable) "SN1" logged_in)))
  = 1%nat
  /\ exists headers,
       requests (trace (snd (snd (fetch_inverter_data (always unavailable)
                                    "SN1" logged_in))))
       = List.app (requests (trace (snd logged_in)))
           [("https://" ++ domain (_config (fst logged_in))
             ++ "/v1/api/inveterDetail",
             dumps (JObj [("id", JStr "D1"); ("sn", JStr "SN1")]), headers)].
Proof.
  apply (fetch_sends_one_request (always unavailable) "SN1" logged_in
           demo_session [(JStr "SN1", JStr "D1")] (JStr "D1"));
    reflexivity.
Defined.

(** X10 holds at a concrete portal. *)
Lemma fetch_failure_keeps_login_witness :
  exists w,
    fetch_inverter_data (always timed_out) "SN1" logged_in
    = (Return None, (with_data ∅ (fst logged_in), w))
    /\ is_online (fst (snd (fetch_inverter_data (always timed_out) "SN1"
                              logged_in))) = true.
Proof.
  apply (fetch_failure_keeps_login (always timed_out) "SN1" logged_in
           demo_session [(JStr "SN1", JStr "D1")] (JStr "D1"));
    reflexivity.
Defined.

(** X11 holds at a concrete portal, for a null body and for an empty
    object. *)
Lemma fetch_payload_without_data_witness :
  (exists w, fetch_inverter_data (always null_answer) "SN1" logged_in
             = (Return None, (with_data ∅ (fst logged_in), w)))
  /\ (exists w, fetch_inverter_data (always empty_answer) "SN1" logged_in
                = (Raise KeyError, (with_data ∅ (fst logged_in), w))).
Proof.
  split.
  - apply (proj1 (fetch_payload_without_data (always null_answer) "SN1"
                    logged_in demo_session [(JStr "SN1", JStr "D1")]
                    (JStr "D1") JNull eq_refl eq_refl eq_refl eq_refl
                    eq_refl)).
    reflexivity.
  - apply (proj2 (fetch_payload_without_data (always empty_answer) "SN1"
                    logged_in demo_session [(JStr "SN1", JStr "D1")]
                    (JStr "D1") (JObj []) eq_refl eq_refl eq_refl eq_refl
                    eq_refl) KeyError);
      [discriminate | reflexivity].
Defined.

(** X12 holds at a concrete portal. *)
Lemma fetch_empty_payload_witness :
  exists w,
    fetch_inverter_data (always (detail_answer [])) "SN1" logged_in
    = (Return (Some ∅), (with_data ∅ (fst logged_in), w)).
Proof.
  apply (fetch_empty_payload (always (detail_answer [])) "SN1" logged_in
           demo_session [(JStr "SN1", JStr "D1")] (JStr "D1")
           (JObj [("data", JObj [])]) (JObj []));
    intros; reflexivity.
Defined.

(** X14 holds at a concrete portal. *)
Lemma record_fields_typed_witness :
  exists key t p,
    In (PHASE1_VOLTAGE, entry key t p) (INVERTER_DATA INVERTER_DETAIL)
    /\ ~ In PHASE1_VOLTAGE (List.map fst (INVERTER_DATA PLANT_DETAIL))
    /\ type_of_value (VFloat 230.1)
       = (if bool_decide (PHASE1_VOLTAGE = INVERTER_TIMESTAMP_UPDATE)
          then TFloat else t).
Proof.
  apply (record_fields_typed (always (detail_answer two_phase_payload))
           "SN1" logged_in
           (snd (fetch_inverter_data
                   (always (detail_answer two_phase_payload)) "SN1" logged_in))
           (fetched (fetch_inverter_data
                       (always (detail_answer two_phase_payload))
                       "SN1" logged_in))
           PHASE1_VOLTAGE (VFloat 230.1));
    vm_compute; reflexivity.
Defined.

(** X15 holds at a concrete payload. *)
Lemma field_stored_iff_present_witness :
  exists raw,
    py_get (JObj two_phase_payload) "uAc1" = Return raw
    /\ (raw = JNull ->
        _data (fst (collected_state two_phase_payload)) !! PHASE1_VOLTAGE = None)
    /\ (raw <> JNull ->
        exists v,
          _get_value (JObj two_phase_payload) "uAc1" TFloat (Some 2)
          = Return (Some v)
          /\ _data (fst (collected_state two_phase_payload)) !! PHASE1_VOLTAGE
             = Some v).
Proof.
  apply (field_stored_iff_present (JObj [("data", JObj two_phase_payload)])
           (JObj two_phase_payload) logged_in
           (collected_state two_phase_payload) PHASE1_VOLTAGE "uAc1" TFloat
           (Some 2));
    [reflexivity | reflexivity | vm_compute; reflexivity | in_table].
Defined.


(** X17 holds at a concrete record. *)
Lemma purge_all_or_nothing_witness :
  (exists d',
     _purge_if_unused (VFloat 0) [PHASE2_CURRENT; PHASE2_VOLTAGE]
       (collected_state two_phase_payload)
     = (Return tt, (with_data d' (fst (collected_state two_phase_payload)),
                    snd (collected_state two_phase_payload)))
     /\ forall k,
          d' !! k
          = if readings_equal (_data (fst (collected_state two_phase_payload)))
                 (VFloat 0) [PHASE2_CURRENT; PHASE2_VOLTAGE]
               && bool_decide (k ∈ [PHASE2_CURRENT; PHASE2_VOLTAGE])
            then None
            else _data (fst (collected_state two_phase_payload)) !! k)
  /\ fst (_purge_if_unused (VFloat 0) [PHASE2_CURRENT; PHASE2_CURRENT]
            (collected_state two_phase_payload)) = Raise KeyError.
Proof.
  split.
  - apply (proj1 (purge_all_or_nothing (VFloat 0)
                    (collected_state two_phase_payload))
             [PHASE2_CURRENT; PHASE2_VOLTAGE]).
    apply (bool_decide_unpack _). vm_compute. exact I.
  - apply (proj2 (purge_all_or_nothing (VFloat 0)
                    (collected_state two_phase_payload))
             PHASE2_CURRENT (VFloat 0)); vm_compute; reflexivity.
Defined.

(** X18 holds at a concrete record, and at one without timestamp. *)
Lemma post_process_frame_witness :
  (snd (snd (_post_process (collected_state two_phase_payload)))
   = snd (collected_state two_phase_payload)
   /\ with_data (_data (fst (collected_state two_phase_payload)))
        (fst (snd (_post_process (collected_state two_phase_payload))))
      = fst (collected_state two_phase_payload)
   /\ (forall k,
         is_Some (_data (fst (snd (_post_process
                                     (collected_state two_phase_payload))))
                  !! k) ->
         is_Some (_data (fst (collected_state two_phase_payload)) !! k))
   /\ (forall k,
         k <> INVERTER_TIMESTAMP_UPDATE ->
         (forall c v, In (c, v) phases -> k <> c /\ k <> v) ->
         _data (fst (snd (_post_process (collected_state two_phase_payload))))
         !! k
         = _data (fst (collected_state two_phase_payload)) !! k))
  /\ snd (_post_process (collected_state no_timestamp_payload))
     = collected_state no_timestamp_payload.
Proof.
  split.
  - apply (proj1 (post_process_frame (collected_state two_phase_payload)
                    (snd (_post_process (collected_state two_phase_payload))))).
    vm_compute. reflexivity.
  - apply (proj2 (post_process_frame (collected_state no_timestamp_payload)
                    (snd (_post_process
                            (collected_state no_timestamp_payload))))
             KeyError).
    vm_compute. reflexivity.
Defined.

(** X20 holds at a concrete portal. *)
Lemma login_returns_is_online_witness :
  is_online (fst (snd (login demo_portal demo_session not_logged_in))) = true
  /\ (true = false ->
      _user_id (fst (snd (login demo_portal demo_session not_logged_in)))
      = JNull)
  /\ _session (fst (snd (login demo_portal demo_session not_logged_in)))
     = Some demo_session
  /\ _config (fst (snd (login demo_portal demo_session not_logged_in)))
     = _config (fst not_logged_in)
  /\ _data (fst (snd (login demo_portal demo_session not_logged_in)))
     = _data (fst not_logged_in).
Proof.
  apply (login_returns_is_online demo_portal demo_session not_logged_in
           (snd (login demo_portal demo_session not_logged_in)) true).
  vm_compute. reflexivity.
Defined.

(** X21 holds at a concrete portal. *)
Lemma session_invariant_witness :
  session_when_needed
    (fst (snd (fetch_inverter_list (always unavailable) "P1" logged_in)))
  /\ session_when_needed
       (fst (snd (fetch_inverter_data (always unavailable) "SN1" logged_in))).
Proof.
  split.
  - apply (proj1 (proj2 (proj2 (proj2 (session_invariant (always unavailable)))))
             "P1" logged_in).
    intros _. discriminate.
  - apply (proj2 (proj2 (proj2 (proj2 (session_invariant (always unavailable)))))
             "SN1" logged_in).
    intros _. discriminate.
Defined.

(** X22 holds at two concrete clients. *)
Lemma fetch_depends_on_answer_only_witness :
  fst (fetch_inverter_data (always (detail_answer two_phase_payload)) "SN1"
         logged_in)
  = fst (fetch_inverter_data
           (scripted [detail_answer two_phase_payload] unavailable) "SN2"
           other_logged_in).
Proof.
  apply (fetch_depends_on_answer_only
           (always (detail_answer two_phase_payload))
           (scripted [detail_answer two_phase_payload] unavailable)
           "SN1" "SN2" logged_in other_logged_in demo_session 2%nat
           [(JStr "SN1", JStr "D1")] [(JStr "SN2", JInt 17)]
           (JStr "D1") (JInt 17));
    reflexivity.
Defined.


(** The world after a list fetch with a session handle. *)
Lemma fetch_inverter_list_world env plant (a : SoliscloudAPI) (w : world) h :
  _session a = Some h ->
  posts (snd (snd (fetch_inverter_list env plant (a, w)))) = S (posts w)
  /\ trace (snd (snd (fetch_inverter_list env plant (a, w))))
     = List.app (trace w)
         (post_events h ("https://" ++ domain (_config a) ++ "/v1/api/inveterList")
            (dumps (list_params plant))
            (prepare_header_at (_config a) (clock env (clock_reads w))
               (list_params plant) "/v1/api/inveterList")
            (network env (posts w))).
Proof.
  intros Hs. rewrite fetch_inverter_list_unfold.
  destruct (post_with_session_trace env "/v1/api/inveterList"
              (list_params plant) a w h Hs) as (w' & -> & Hp & Ht).
  destruct (post_result (network env (posts w))) as [r|e];
    [|split; [exact Hp | exact Ht]].
  destruct (SUCCESS r); [|split; [exact Hp | exact Ht]].
  destruct (CONTENT r); split; first [exact Hp | exact Ht].
Qed.

(** X24. When the first request of [login] was answered with status 200
    and a user id, and the list fetch then raises anything but [KeyError]
    (the request or the decoding of its body raises an error that is not
    captured, or [data.records] is not a list of objects: [TypeError],
    [AttributeError]), the exception leaves [login] after two requests
    with the user id already stored and no directory: the client reports
    online although the login did not complete. *)
Theorem login_list_error_stays_online env session (s : state) c user_id e :
  network env (posts (snd s)) = PostResp 200 (JsonOk c) ->
  user_id_of_content c = Return user_id ->
  post_result (network env (S (posts (snd s)))) = Raise e
  \/ (exists c2, network env (S (posts (snd s))) = PostResp 200 (JsonOk c2)
                 /\ directory_of_content c2 = Raise e) ->
  e <> KeyError ->
  exists w,
    login env session s
    = (Raise e,
       (client (_config (fst s)) (Some session) user_id (_data (fst s)) None,
        w))
    /\ posts w = S (S (posts (snd s))).
Proof.
  destruct s as [a w]. cbn [fst snd]. intros Hn Hu H2 He.
  assert (Hk : key_error e = false)
    by (destruct e; try reflexivity; contradiction).
  rewrite login_unfold. cbv zeta. cbn [fst snd].
  set (a0 := with_inverter_list None (with_session (Some session) a)).
  destruct (post_with_session env "/v1/api/addUser"
              (login_params (username (_config a))) a0 w session eq_refl)
    as (w1 & -> & Hp1).
  rewrite Hn. cbn [post_result Z.eqb Pos.eqb SUCCESS CONTENT fst snd].
  fold (user_id_of_content c). rewrite Hu.
  destruct (fetch_inverter_list_with_session env (plantid (_config a))
              (with_user_id user_id a0) w1 session eq_refl)
    as (w2 & Hp2 & ->).
  rewrite Hp1. exists w2.
  destruct H2 as [Hr | (c2 & Hn2 & Hd)].
  - rewrite Hr, Hk. split; [reflexivity|]. rewrite Hp2, Hp1. reflexivity.
  - rewrite Hn2. cbn [post_result Z.eqb Pos.eqb SUCCESS CONTENT].
    rewrite Hd, Hk. split; [reflexivity|]. rewrite Hp2, Hp1. reflexivity.
Qed.

(** X25. The requests of [login], whatever the answers and whether it
    returns or raises: first a POST to the add-user resource whose body is
    the compact JSON of the configured user name and user type 0; then,
    exactly when that request was answered with status 200 and a body in
    which [data.userId] can be read, a POST to the inverter-list resource
    whose body holds the configured plant id.  Never more than these two,
    and no retry. *)
Theorem login_requests env session (s : state) :
  let out := login env session s in
  let config := _config (fst s) in
  let listed := login_reaches_list (network env (posts (snd s))) in
  posts (snd (snd out))
  = (if listed then S (S (posts (snd s))) else S (posts (snd s)))
  /\ exists headers1 headers2,
       requests (trace (snd (snd out)))
       = List.app (requests (trace (snd s)))
           (("https://" ++ domain config ++ "/v1/api/addUser",
             dumps (JObj [("userName", JStr (username config));
                          ("userType", JInt 0)]), headers1)
            :: if listed
               then [("https://" ++ domain config ++ "/v1/api/inveterList",
                      dumps (JObj [("stationId", JStr (plantid config))]),
                      headers2)]
               else []).
Proof.
  destruct s as [a w]. cbv zeta. cbn [fst snd].
  rewrite login_unfold. cbv zeta. cbn [fst snd].
  set (a0 := with_inverter_list None (with_session (Some session) a)).
  destruct (post_with_session_trace env "/v1/api/addUser"
              (login_params (username (_config a))) a0 w session eq_refl)
    as (w1 & -> & Hp1 & Ht1).
  assert (Hr1 : exists headers1,
            requests (trace w1)
            = List.app (requests (trace w))
                [("https://" ++ domain (_config a) ++ "/v1/api/addUser",
                  dumps (login_params (username (_config a))), headers1)]).
  { eexists. rewrite Ht1, requests_app. f_equal.
    unfold post_events. destruct (network env (posts w)); reflexivity. }
  destruct Hr1 as (headers1 & Hr1).
  assert (Hstop :
            login_reaches_list (network env (posts w)) = false ->
            posts w1
            = (if login_reaches_list (network env (posts w))
               then S (S (posts w)) else S (posts w))
            /\ exists headers1 headers2,
                 requests (trace w1)
                 = List.app (requests (trace w))
                     (("https://" ++ domain (_config a) ++ "/v1/api/addUser",
                       dumps (login_params (username (_config a))), headers1)
                      :: if login_reaches_list (network env (posts w))
                         then [("https://" ++ domain (_config a)
                                ++ "/v1/api/inveterList",
                                dumps (list_params (plantid (_config a))),
                                headers2)]
                         else [])).
  { intros ->. split; [exact Hp1|].
    exists headers1, []. exact Hr1. }
  unfold login_params, list_params in *.
  destruct (network env (posts w)) as [e msg|status [c|e msg]] eqn:En;
    cbn [post_result].
  - destruct (transport_error e); cbn [SUCCESS fst snd];
      apply (Hstop eq_refl).
  - destruct (Z.eqb_spec status 200) as [->|Hne].
    2:{ cbn [SUCCESS fst snd]. apply Hstop.
        cbn [login_reaches_list]. apply Z.eqb_neq in Hne. rewrite Hne.
        reflexivity. }
    cbn [SUCCESS CONTENT fst snd]. fold (user_id_of_content c).
    cbn [login_reaches_list Z.eqb Pos.eqb andb] in *.
    destruct (user_id_of_content c) as [user_id|e].
    2:{ destruct (key_error e); cbn [fst snd]; apply (Hstop eq_refl). }
    destruct (fetch_inverter_list_world env (plantid (_config a))
                (with_user_id user_id a0) w1 session eq_refl) as (Hp2 & Ht2).
    assert (Hw : posts (snd (snd (fetch_inverter_list env (plantid (_config a))
                                    (with_user_id user_id a0, w1))))
                 = S (S (posts w))
                 /\ exists headers1 headers2,
                      requests (trace (snd (snd (fetch_inverter_list env
                                  (plantid (_config a))
                                  (with_user_id user_id a0, w1)))))
                      = List.app (requests (trace w))
                          [("https://" ++ domain (_config a) ++ "/v1/api/addUser",
                            dumps (JObj [("userName", JStr (username (_config a)));
                                         ("userType", JInt 0)]), headers1);
                           ("https://" ++ domain (_config a)
                            ++ "/v1/api/inveterList",
                            dumps (JObj [("stationId",
                                          JStr (plantid (_config a)))]),
                            headers2)]).
    { split; [rewrite Hp2, Hp1; reflexivity|].
      exists headers1. eexists. rewrite Ht2, requests_app, Hr1.
      rewrite <- app_assoc. f_equal. cbn [List.app]. f_equal.
      unfold post_events, list_params.
      destruct (network env (posts w1)); reflexivity. }
    destruct (fetch_inverter_list env (plantid (_config a))
                (with_user_id user_id a0, w1)) as [[l|e] [a2 w2]];
      cbn [fst snd] in *.
    + exact Hw.
    + destruct (key_error e); exact Hw.
  - destruct (transport_error e); cbn [SUCCESS fst snd];
      apply (Hstop eq_refl).
Qed.

(** X24 holds at a concrete portal. *)
Lemma login_list_error_stays_online_witness :
  exists w,
    login (scripted [login_answer] null_records_answer) demo_session
      not_logged_in
    = (Raise TypeError,
       (client demo_config (Some demo_session) (JInt 42) ∅ None, w))
    /\ posts w = 2%nat.
Proof.
  apply (login_list_error_stays_online
           (scripted [login_answer] null_records_answer) demo_session
           not_logged_in (JObj [("data", JObj [("userId", JInt 42)])])
           (JInt 42) TypeError);
    [reflexivity | reflexivity | | discriminate].
  right. exists (JObj [("data", JObj [("records", JNull)])]).
  split; reflexivity.
Defined.
